(** * Telemetry collector: the capture / gate / publish pipeline

    A shallow embedding of the Android collector of the rider telemetry
    project: [DataCollectionService.kt] (the live sensor state, the
    change gate [hasStateChanged], the 10 Hz tick
    [sendCombinedDataPacket], the sensor and location ingestors) and
    [MqttClient.kt] (the transport wrapper around the Paho client).
    Around that core: the life of the service in its process (commands,
    connection attempts, the send timer), the broker settings and the
    permission check of the activity, the earlier one-frame-per-reading
    version of the service, and the chart buffer and event log of the
    dashboard.

    Kotlin [Float] and [Double] values are IEEE-754 binary32 and binary64
    numbers; they are modelled bit-exactly with the Standard Library's
    [SpecFloat] operations (round to nearest, ties to even), so every
    definition below can be evaluated on concrete readings.  The
    accuracy of the two magnitudes of a frame is stated against the
    Euclidean norm over the Standard Library's real numbers. *)

From Stdlib Require Import ZArith List Bool String Lia.
From Stdlib Require Import Reals Lra Psatz.
From Stdlib Require Import SpecFloat.
Import ListNotations.

Local Open Scope Z_scope.
Local Open Scope bool_scope.

(** ** Kotlin [Float]: IEEE-754 binary32 *)

Module F32.

Definition prec : Z := 24.
Definition emax : Z := 128.

Definition t : Type := spec_float.

Definition add : t -> t -> t := SFadd prec emax.
Definition sub : t -> t -> t := SFsub prec emax.
Definition mul : t -> t -> t := SFmul prec emax.

(** [Math.abs(float)] clears the sign; a NaN stays a NaN. *)
Definition abs : t -> t := SFabs.

(** [a > b] on two [Float]s: the IEEE comparison, false on NaN. *)
Definition gtb (a b : t) : bool := SFltb b a.

Definition is_nan (x : t) : bool :=
  match x with S754_nan => true | _ => false end.

Definition of_Z (n : Z) : t := binary_normalize prec emax n 0 false.

(** The literal [num/den] written in decimal, e.g. [lit 98 10] for
    [9.8f]: numerator and denominator are small integers, exactly
    representable, and the division is correctly rounded. *)
Definition lit (num den : Z) : t := SFdiv prec emax (of_Z num) (of_Z den).

Definition zero : t := S754_zero false.
Definition one : t := S754_finite false 8388608 (-23).

(** [Float.toDouble()] is exact; [Double.toFloat()] rounds. *)
Definition toDouble (x : t) : spec_float :=
  match x with
  | S754_finite s m e => binary_round 53 1024 s m e
  | _ => x
  end.

Definition ofDouble (d : spec_float) : t :=
  match d with
  | S754_finite s m e => binary_round prec emax s m e
  | _ => d
  end.

(** [kotlin.math.sqrt(x: Float)] is [Math.sqrt(x.toDouble()).toFloat()]. *)
Definition sqrt (x : t) : t := ofDouble (SFsqrt 53 1024 (toDouble x)).

End F32.

(** ** Kotlin [Double]: IEEE-754 binary64 *)

Module F64.

Definition prec : Z := 53.
Definition emax : Z := 1024.

Definition t : Type := spec_float.

(** [a == b] and [a != b] on two [Double]s: IEEE equality, under which
    a NaN differs from everything (itself included) and [0.0 == -0.0]. *)
Definition eqb (a b : t) : bool := SFeqb a b.
Definition neqb (a b : t) : bool := negb (SFeqb a b).

Definition is_nan (x : t) : bool :=
  match x with S754_nan => true | _ => false end.

Definition of_Z (n : Z) : t := binary_normalize prec emax n 0 false.
Definition lit (num den : Z) : t := SFdiv prec emax (of_Z num) (of_Z den).

Definition zero : t := S754_zero false.

End F64.

(** ** Data model *)

(** [private data class LiveSensorState]: the mutable snapshot of the
    latest reading of every channel.  No magnitude is stored here. *)
Module LiveSensorState.

Record t : Type := mk {
  accX : F32.t; accY : F32.t; accZ : F32.t;
  gyroX : F32.t; gyroY : F32.t; gyroZ : F32.t;
  rotVecX : F32.t; rotVecY : F32.t; rotVecZ : F32.t; rotVecW : F32.t;
  latitude : F64.t; longitude : F64.t;
  speed : F32.t; altitude : F64.t
}.

(** The constructor defaults: [LiveSensorState()]. *)
Definition default : t :=
  mk F32.zero F32.zero F32.zero
     F32.zero F32.zero F32.zero
     F32.zero F32.zero F32.zero F32.one
     F64.zero F64.zero
     F32.zero F64.zero.

(** [copy()] of a data class: a fresh object with the same fields. *)
Definition copy (s : t) : t :=
  mk (accX s) (accY s) (accZ s)
     (gyroX s) (gyroY s) (gyroZ s)
     (rotVecX s) (rotVecY s) (rotVecZ s) (rotVecW s)
     (latitude s) (longitude s)
     (speed s) (altitude s).

(** Field assignments [state.f = v]. *)
Definition set_accX (v : F32.t) (s : t) : t :=
  mk v (accY s) (accZ s) (gyroX s) (gyroY s) (gyroZ s)
     (rotVecX s) (rotVecY s) (rotVecZ s) (rotVecW s)
     (latitude s) (longitude s) (speed s) (altitude s).
Definition set_accY (v : F32.t) (s : t) : t :=
  mk (accX s) v (accZ s) (gyroX s) (gyroY s) (gyroZ s)
     (rotVecX s) (rotVecY s) (rotVecZ s) (rotVecW s)
     (latitude s) (longitude s) (speed s) (altitude s).
Definition set_accZ (v : F32.t) (s : t) : t :=
  mk (accX s) (accY s) v (gyroX s) (gyroY s) (gyroZ s)
     (rotVecX s) (rotVecY s) (rotVecZ s) (rotVecW s)
     (latitude s) (longitude s) (speed s) (altitude s).
Definition set_gyroX (v : F32.t) (s : t) : t :=
  mk (accX s) (accY s) (accZ s) v (gyroY s) (gyroZ s)
     (rotVecX s) (rotVecY s) (rotVecZ s) (rotVecW s)
     (latitude s) (longitude s) (speed s) (altitude s).
Definition set_gyroY (v : F32.t) (s : t) : t :=
  mk (accX s) (accY s) (accZ s) (gyroX s) v (gyroZ s)
     (rotVecX s) (rotVecY s) (rotVecZ s) (rotVecW s)
     (latitude s) (longitude s) (speed s) (altitude s).
Definition set_gyroZ (v : F32.t) (s : t) : t :=
  mk (accX s) (accY s) (accZ s) (gyroX s) (gyroY s) v
     (rotVecX s) (rotVecY s) (rotVecZ s) (rotVecW s)
     (latitude s) (longitude s) (speed s) (altitude s).
Definition set_rotVecX (v : F32.t) (s : t) : t :=
  mk (accX s) (accY s) (accZ s) (gyroX s) (gyroY s) (gyroZ s)
     v (rotVecY s) (rotVecZ s) (rotVecW s)
     (latitude s) (longitude s) (speed s) (altitude s).
Definition set_rotVecY (v : F32.t) (s : t) : t :=
  mk (accX s) (accY s) (accZ s) (gyroX s) (gyroY s) (gyroZ s)
     (rotVecX s) v (rotVecZ s) (rotVecW s)
     (latitude s) (longitude s) (speed s) (altitude s).
Definition set_rotVecZ (v : F32.t) (s : t) : t :=
  mk (accX s) (accY s) (accZ s) (gyroX s) (gyroY s) (gyroZ s)
     (rotVecX s) (rotVecY s) v (rotVecW s)
     (latitude s) (longitude s) (speed s) (altitude s).
Definition set_rotVecW (v : F32.t) (s : t) : t :=
  mk (accX s) (accY s) (accZ s) (gyroX s) (gyroY s) (gyroZ s)
     (rotVecX s) (rotVecY s) (rotVecZ s) v
     (latitude s) (longitude s) (speed s) (altitude s).
Definition set_latitude (v : F64.t) (s : t) : t :=
  mk (accX s) (accY s) (accZ s) (gyroX s) (gyroY s) (gyroZ s)
     (rotVecX s) (rotVecY s) (rotVecZ s) (rotVecW s)
     v (longitude s) (speed s) (altitude s).
Definition set_longitude (v : F64.t) (s : t) : t :=
  mk (accX s) (accY s) (accZ s) (gyroX s) (gyroY s) (gyroZ s)
     (rotVecX s) (rotVecY s) (rotVecZ s) (rotVecW s)
     (latitude s) v (speed s) (altitude s).
Definition set_speed (v : F32.t) (s : t) : t :=
  mk (accX s) (accY s) (accZ s) (gyroX s) (gyroY s) (gyroZ s)
     (rotVecX s) (rotVecY s) (rotVecZ s) (rotVecW s)
     (latitude s) (longitude s) v (altitude s).
Definition set_altitude (v : F64.t) (s : t) : t :=
  mk (accX s) (accY s) (accZ s) (gyroX s) (gyroY s) (gyroZ s)
     (rotVecX s) (rotVecY s) (rotVecZ s) (rotVecW s)
     (latitude s) (longitude s) (speed s) v.

End LiveSensorState.

(** [data class TelematicsData]: the wire frame, one per publish. *)
Module TelematicsData.

Record t : Type := mk {
  timestamp : Z;
  tripId : string;
  label : Z;
  accX : F32.t; accY : F32.t; accZ : F32.t; accMag : F32.t;
  gyroX : F32.t; gyroY : F32.t; gyroZ : F32.t; gyroMag : F32.t;
  rotVecX : F32.t; rotVecY : F32.t; rotVecZ : F32.t; rotVecW : F32.t;
  latitude : F64.t; longitude : F64.t;
  speed : F32.t; altitude : F64.t
}.

End TelematicsData.

(** [data class RealTimeStats] of [DataRepository.kt]: what the local
    observers (the UI) receive. *)
Module RealTimeStats.

Record t : Type := mk {
  accMag : F32.t;
  gyroMag : F32.t;
  speed : F32.t;
  latitude : F64.t;
  longitude : F64.t
}.

End RealTimeStats.

(** ** Transport: [MqttClient.kt]

    The wrapper owns one Paho [MqttAndroidClient].  What Paho keeps
    internally (its connection flag, the requests and messages handed to
    it) is part of the state; what the wrapper tells its caller
    ([onSuccess()], [onFailure(e)]) is returned as a list of
    notifications, in call order. *)
Module MqttClient.

Inductive Level : Type := Debug | Warn | Error.

Definition MQTT_TOPIC : string := "telematics/data".

(** One message handed to Paho's [publish(topic, message)]. *)
Record Message : Type := mkMessage {
  topic : string;
  payload : string;
  qos : Z
}.

Inductive Notification : Type :=
| Ready                              (* onSuccess() *)
| Failed (cause : option string).    (* onFailure(e) *)

Record t : Type := mk {
  isConnected : bool;          (* Paho: mqttClient.isConnected *)
  callbackSet : bool;          (* setCallback(...) has been called *)
  connectRequests : nat;       (* Paho connect(options, ...) calls accepted *)
  published : list Message;    (* messages accepted by Paho, oldest first *)
  log : list (Level * string)  (* android.util.Log lines, oldest first *)
}.

(** A freshly constructed wrapper. *)
Definition new : t := mk false false 0%nat [] [].

Definition logLine (l : Level) (msg : string) (c : t) : t :=
  mk (isConnected c) (callbackSet c) (connectRequests c) (published c)
     (log c ++ [(l, msg)]).

Definition setCallback (c : t) : t :=
  mk (isConnected c) true (connectRequests c) (published c) (log c).

Definition pahoConnect (c : t) : t :=
  mk (isConnected c) (callbackSet c) (S (connectRequests c)) (published c)
     (log c).

Definition pahoPublish (m : Message) (c : t) : t :=
  mk (isConnected c) (callbackSet c) (connectRequests c) (published c ++ [m])
     (log c).

Definition setConnected (b : bool) (c : t) : t :=
  mk b (callbackSet c) (connectRequests c) (published c) (log c).

(** [fun connect(onSuccess, onFailure)].  [pahoThrows] is the
    [MqttException] Paho's own [connect] raises, if it does. *)
Definition connect (pahoThrows : option string) (c : t)
  : t * list Notification :=
  if isConnected c then (c, [Ready])
  else
    let c1 := setCallback c in
    match pahoThrows with
    | Some e => (c1, [Failed (Some e)])
    | None => (pahoConnect c1, [])
    end.

(** What Paho reports back: the [MqttCallbackExtended] installed by
    [connect], and the [IMqttActionListener] of the connect request. *)
Inductive PahoEvent : Type :=
| ConnectComplete (reconnect : bool)
| ConnectionLost (cause : option string)
| MessageArrived
| DeliveryComplete
| ActionSuccess
| ActionFailure (exception : option string).

Definition showBool (b : bool) : string := if b then "true" else "false".

Definition showCause (e : option string) : string :=
  match e with Some m => m | None => "null" end.

(** One Paho event.  Paho's connection flag is up once a connection
    completes and down once it is lost; the callback methods run only
    if [connect] has installed the callback, and the two listener
    methods belong to a connect request. *)
Definition deliver (ev : PahoEvent) (c : t) : t * list Notification :=
  match ev with
  | ConnectComplete reconnect =>
      if callbackSet c then
        (logLine Debug
           ("MQTT Connection Complete (reconnect: " ++ showBool reconnect ++ ")")
           (setConnected true c),
         [Ready])
      else (setConnected true c, [])
  | ConnectionLost cause =>
      if callbackSet c then
        (logLine Error ("MQTT Connection Lost: " ++ showCause cause)
           (setConnected false c),
         [])
      else (setConnected false c, [])
  | MessageArrived => (c, [])
  | DeliveryComplete => (c, [])
  | ActionSuccess => (logLine Debug "MQTT Connection Success" c, [])
  | ActionFailure e =>
      (logLine Error ("MQTT Connection Failure: " ++ showCause e) c,
       [Failed e])
  end.

(** A run of Paho events, with the notifications it causes. *)
Fixpoint deliverAll (evs : list PahoEvent) (c : t) : t * list Notification :=
  match evs with
  | [] => (c, [])
  | ev :: rest =>
      let (c1, n1) := deliver ev c in
      let (c2, n2) := deliverAll rest c1 in
      (c2, n1 ++ n2)
  end.

(** [fun publish(payload)].  [pahoThrows] is the [MqttException] Paho's
    [publish] raises, if it does. *)
Definition publish (payload : string) (pahoThrows : option string) (c : t)
  : t :=
  if negb (isConnected c) then
    logLine Warn "MQTT client is not connected. Cannot publish." c
  else
    match pahoThrows with
    | None =>
        logLine Debug ("Published message to " ++ MQTT_TOPIC)
          (pahoPublish (mkMessage MQTT_TOPIC payload 1) c)
    | Some e => logLine Error ("Error publishing message: " ++ e) c
    end.

(** [fun disconnect()]. *)
Definition disconnect (c : t) : t :=
  if isConnected c then
    logLine Debug "MQTT client disconnected." (setConnected false c)
  else c.

Definition isReady (n : Notification) : bool :=
  match n with Ready => true | Failed _ => false end.

Definition isConnectComplete (ev : PahoEvent) : bool :=
  match ev with ConnectComplete _ => true | _ => false end.

Definition readyCount (ns : list Notification) : nat :=
  List.length (filter isReady ns).

(** How Paho behaves after one accepted connect request with automatic
    reconnect on: the request fails, or it succeeds and the connection
    completes; from then on every loss of the connection may be followed
    by a completed reconnect. *)
Fixpoint reconnects (evs : list PahoEvent) : bool :=
  match evs with
  | [] => true
  | [ConnectionLost _] => true
  | ConnectionLost _ :: ConnectComplete true :: rest => reconnects rest
  | _ => false
  end.

Definition pahoRun (evs : list PahoEvent) : bool :=
  match evs with
  | [ActionFailure _] => true
  | ActionSuccess :: ConnectComplete false :: rest => reconnects rest
  | _ => false
  end.

End MqttClient.

(** ** Android inputs *)

(** [android.hardware.Sensor] type constants. *)
Module Sensor.
Definition TYPE_ACCELEROMETER : Z := 1.
Definition TYPE_GYROSCOPE : Z := 4.
Definition TYPE_ROTATION_VECTOR : Z := 11.
End Sensor.

(** [android.hardware.SensorEvent]: the sensor's type and the [values]
    array, whose length the callback does not control. *)
Record SensorEvent : Type := mkSensorEvent {
  sensorType : Z;
  values : list F32.t
}.

(** The fields of [android.location.Location] the collector reads. *)
Record Location : Type := mkLocation {
  locLatitude : F64.t;
  locLongitude : F64.t;
  locSpeed : F32.t;
  locAltitude : F64.t
}.

(** ** Callbacks that may throw

    A callback either returns or throws; in both cases the writes made
    so far stay in the object it was mutating. *)

Inductive Exn : Type :=
| ArrayIndexOutOfBoundsException (index : nat)
| SerializationException.

Inductive Outcome (A : Type) : Type :=
| Returned (a : A)
| Threw (e : Exn) (a : A).

Arguments Returned {A} a.
Arguments Threw {A} e a.

Definition stateOf {A : Type} (o : Outcome A) : A :=
  match o with Returned a => a | Threw _ a => a end.

Definition hasThrown {A : Type} (o : Outcome A) : bool :=
  match o with Returned _ => false | Threw _ _ => true end.

(** Statements that mutate a [LiveSensorState] in sequence. *)
Definition Stmt : Type := LiveSensorState.t -> Outcome LiveSensorState.t.

Definition seq (a b : Stmt) : Stmt :=
  fun s => match a s with
           | Returned s1 => b s1
           | Threw e s1 => Threw e s1
           end.

Notation "a ;; b" := (seq a b) (at level 61, right associativity).

(** [state.f = event.values[i]]: the array read throws when [i] is out
    of range, before the field is written. *)
Definition assign (set : F32.t -> LiveSensorState.t -> LiveSensorState.t)
    (vals : list F32.t) (i : nat) : Stmt :=
  fun s => match nth_error vals i with
           | Some v => Returned (set v s)
           | None => Threw (ArrayIndexOutOfBoundsException i) s
           end.

(** ** The collector service: [DataCollectionService.kt] *)

Definition ACCEL_THRESHOLD : F32.t := S754_finite false 8388608 (-24).
Definition GYRO_THRESHOLD : F32.t := S754_finite false 10066330 (-25).
Definition ROT_VEC_THRESHOLD : F32.t := S754_finite false 13421773 (-28).

(** The mutable fields of the service, together with what it has pushed
    into the [DataRepository] singleton's two flows. *)
Record DataCollectionService : Type := mkService {
  mqttClient : option MqttClient.t;
  dataSendTimer : bool;                     (* a Timer is scheduled *)
  tripId : string;
  currentLabel : Z;
  liveSensorState : LiveSensorState.t;
  lastPublishedState : LiveSensorState.t;
  statsFlow : list RealTimeStats.t;         (* DataRepository.updateStats *)
  isServiceRunningFlow : list bool          (* DataRepository.setServiceRunning *)
}.

Definition set_mqttClient (c : option MqttClient.t) (s : DataCollectionService) :=
  mkService c (dataSendTimer s) (tripId s) (currentLabel s)
    (liveSensorState s) (lastPublishedState s) (statsFlow s)
    (isServiceRunningFlow s).

Definition set_dataSendTimer (b : bool) (s : DataCollectionService) :=
  mkService (mqttClient s) b (tripId s) (currentLabel s)
    (liveSensorState s) (lastPublishedState s) (statsFlow s)
    (isServiceRunningFlow s).

Definition set_currentLabel (l : Z) (s : DataCollectionService) :=
  mkService (mqttClient s) (dataSendTimer s) (tripId s) l
    (liveSensorState s) (lastPublishedState s) (statsFlow s)
    (isServiceRunningFlow s).

Definition set_liveSensorState (l : LiveSensorState.t) (s : DataCollectionService) :=
  mkService (mqttClient s) (dataSendTimer s) (tripId s) (currentLabel s)
    l (lastPublishedState s) (statsFlow s) (isServiceRunningFlow s).

Definition set_lastPublishedState (l : LiveSensorState.t) (s : DataCollectionService) :=
  mkService (mqttClient s) (dataSendTimer s) (tripId s) (currentLabel s)
    (liveSensorState s) l (statsFlow s) (isServiceRunningFlow s).

Definition updateStats (r : RealTimeStats.t) (s : DataCollectionService) :=
  mkService (mqttClient s) (dataSendTimer s) (tripId s) (currentLabel s)
    (liveSensorState s) (lastPublishedState s) (statsFlow s ++ [r])
    (isServiceRunningFlow s).

Definition setServiceRunning (b : bool) (s : DataCollectionService) :=
  mkService (mqttClient s) (dataSendTimer s) (tripId s) (currentLabel s)
    (liveSensorState s) (lastPublishedState s) (statsFlow s)
    (isServiceRunningFlow s ++ [b]).

(** A service object as constructed, before any command. *)
Definition newService (trip : string) : DataCollectionService :=
  mkService None false trip 0 LiveSensorState.default LiveSensorState.default
    [] [].

(** [sqrt(x * x + y * y + z * z)] on [Float]s, as written in the tick. *)
Definition magnitude (x y z : F32.t) : F32.t :=
  F32.sqrt (F32.add (F32.add (F32.mul x x) (F32.mul y y)) (F32.mul z z)).

(** The comparison made by [hasStateChanged], as a function of the two
    objects it reads. *)
Definition changedSince (last live : LiveSensorState.t) : bool :=
  let accChanged :=
    F32.gtb (F32.abs (F32.sub (LiveSensorState.accX last) (LiveSensorState.accX live))) ACCEL_THRESHOLD ||
    F32.gtb (F32.abs (F32.sub (LiveSensorState.accY last) (LiveSensorState.accY live))) ACCEL_THRESHOLD ||
    F32.gtb (F32.abs (F32.sub (LiveSensorState.accZ last) (LiveSensorState.accZ live))) ACCEL_THRESHOLD in
  let gyroChanged :=
    F32.gtb (F32.abs (F32.sub (LiveSensorState.gyroX last) (LiveSensorState.gyroX live))) GYRO_THRESHOLD ||
    F32.gtb (F32.abs (F32.sub (LiveSensorState.gyroY last) (LiveSensorState.gyroY live))) GYRO_THRESHOLD ||
    F32.gtb (F32.abs (F32.sub (LiveSensorState.gyroZ last) (LiveSensorState.gyroZ live))) GYRO_THRESHOLD in
  let rotVecChanged :=
    F32.gtb (F32.abs (F32.sub (LiveSensorState.rotVecX last) (LiveSensorState.rotVecX live))) ROT_VEC_THRESHOLD ||
    F32.gtb (F32.abs (F32.sub (LiveSensorState.rotVecY last) (LiveSensorState.rotVecY live))) ROT_VEC_THRESHOLD ||
    F32.gtb (F32.abs (F32.sub (LiveSensorState.rotVecZ last) (LiveSensorState.rotVecZ live))) ROT_VEC_THRESHOLD in
  let locationChanged :=
    F64.neqb (LiveSensorState.latitude last) (LiveSensorState.latitude live) ||
    F64.neqb (LiveSensorState.longitude last) (LiveSensorState.longitude live) in
  accChanged || gyroChanged || rotVecChanged || locationChanged.

(** [private fun hasStateChanged(): Boolean], reading the service's
    [lastPublishedState] and [liveSensorState]. *)
Definition hasStateChanged (s : DataCollectionService) : bool :=
  changedSince (lastPublishedState s) (liveSensorState s).

Section Pipeline.

(** [Json.encodeToString] of kotlinx.serialization: the JSON text, or
    [None] when the serializer throws (its default configuration
    refuses NaN and infinite numbers). *)
Variable encodeToString : TelematicsData.t -> option string.

(** [private fun publishData(data)]. *)
Definition publishData (data : TelematicsData.t) (pahoThrows : option string)
    (s : DataCollectionService) : Outcome DataCollectionService :=
  match mqttClient s with
  | Some client =>
      match encodeToString data with
      | Some jsonPayload =>
          Returned
            (set_mqttClient
               (Some (MqttClient.publish jsonPayload pahoThrows client)) s)
      | None => Threw SerializationException s
      end
  | None => Returned s
  end.

(** [private fun sendCombinedDataPacket()], the body of one timer tick.
    [now] is [System.currentTimeMillis()].  The result carries the
    frames built during the tick; when the serializer throws, the tick
    ends there, after [lastPublishedState] was written. *)
Definition sendCombinedDataPacket (now : Z) (pahoThrows : option string)
    (s : DataCollectionService)
  : Outcome DataCollectionService * list TelematicsData.t :=
  let '(o, frames) :=
    if hasStateChanged s then
      let s0 := set_lastPublishedState
                  (LiveSensorState.copy (liveSensorState s)) s in
      let lp := lastPublishedState s0 in
      let accMag := magnitude (LiveSensorState.accX lp)
                      (LiveSensorState.accY lp) (LiveSensorState.accZ lp) in
      let gyroMag := magnitude (LiveSensorState.gyroX lp)
                       (LiveSensorState.gyroY lp) (LiveSensorState.gyroZ lp) in
      let data :=
        TelematicsData.mk now (tripId s0) (currentLabel s0)
          (LiveSensorState.accX lp) (LiveSensorState.accY lp)
          (LiveSensorState.accZ lp) accMag
          (LiveSensorState.gyroX lp) (LiveSensorState.gyroY lp)
          (LiveSensorState.gyroZ lp) gyroMag
          (LiveSensorState.rotVecX lp) (LiveSensorState.rotVecY lp)
          (LiveSensorState.rotVecZ lp) (LiveSensorState.rotVecW lp)
          (LiveSensorState.latitude lp) (LiveSensorState.longitude lp)
          (LiveSensorState.speed lp) (LiveSensorState.altitude lp) in
      (publishData data pahoThrows s0, [data])
    else (Returned s, []) in
  match o with
  | Returned s1 =>
      let live := liveSensorState s1 in
      let liveAccMag := magnitude (LiveSensorState.accX live)
                          (LiveSensorState.accY live) (LiveSensorState.accZ live) in
      let liveGyroMag := magnitude (LiveSensorState.gyroX live)
                           (LiveSensorState.gyroY live) (LiveSensorState.gyroZ live) in
      let stats := RealTimeStats.mk liveAccMag liveGyroMag
                     (LiveSensorState.speed live) (LiveSensorState.latitude live)
                     (LiveSensorState.longitude live) in
      (Returned (updateStats stats s1), frames)
  | Threw e s1 => (Threw e s1, frames)
  end.

End Pipeline.

(** [override fun onSensorChanged(event: SensorEvent?)]. *)
Definition onSensorChanged (event : option SensorEvent)
    (s : DataCollectionService) : Outcome DataCollectionService :=
  match event with
  | None => Returned s
  | Some event =>
      let body : Stmt :=
        if sensorType event =? Sensor.TYPE_ACCELEROMETER then
          assign LiveSensorState.set_accX (values event) 0 ;;
          assign LiveSensorState.set_accY (values event) 1 ;;
          assign LiveSensorState.set_accZ (values event) 2
        else if sensorType event =? Sensor.TYPE_GYROSCOPE then
          assign LiveSensorState.set_gyroX (values event) 0 ;;
          assign LiveSensorState.set_gyroY (values event) 1 ;;
          assign LiveSensorState.set_gyroZ (values event) 2
        else if sensorType event =? Sensor.TYPE_ROTATION_VECTOR then
          assign LiveSensorState.set_rotVecX (values event) 0 ;;
          assign LiveSensorState.set_rotVecY (values event) 1 ;;
          assign LiveSensorState.set_rotVecZ (values event) 2 ;;
          assign LiveSensorState.set_rotVecW (values event) 3
        else Returned in
      match body (liveSensorState s) with
      | Returned l => Returned (set_liveSensorState l s)
      | Threw e l => Threw e (set_liveSensorState l s)
      end
  end.

(** [locationCallback.onLocationResult]: [lastLocation?.let { ... }]. *)
Definition onLocationResult (lastLocation : option Location)
    (s : DataCollectionService) : DataCollectionService :=
  match lastLocation with
  | None => s
  | Some location =>
      set_liveSensorState
        (LiveSensorState.set_altitude (locAltitude location)
           (LiveSensorState.set_speed (locSpeed location)
              (LiveSensorState.set_longitude (locLongitude location)
                 (LiveSensorState.set_latitude (locLatitude location)
                    (liveSensorState s))))) s
  end.

(** ** The session *)

(** The [onSuccess] lambda of [initializeAndConnectMqtt]: the listeners
    are registered, [startDataSendLoop] schedules the timer (first tick
    with no delay), and the running status is broadcast. *)
Definition onConnected (s : DataCollectionService) : DataCollectionService :=
  setServiceRunning true (set_dataSendTimer true s).

(** [override fun onDestroy()]. *)
Definition onDestroy (s : DataCollectionService) : DataCollectionService :=
  set_mqttClient (option_map MqttClient.disconnect (mqttClient s))
    (setServiceRunning false (set_dataSendTimer false s)).

(** A session that has just reached the collecting state: the service
    object was constructed, its transport connected, and [onConnected]
    ran.  No reading has arrived and no tick has fired yet. *)
Definition startSession (trip : string) : DataCollectionService :=
  let c0 := fst (MqttClient.connect None MqttClient.new) in
  let c1 := fst (MqttClient.deliverAll
                   [MqttClient.ActionSuccess; MqttClient.ConnectComplete false]
                   c0) in
  onConnected (set_mqttClient (Some c1) (newService trip)).

(** What can happen to a collecting service. *)
Inductive Event : Type :=
| SensorChanged (event : option SensorEvent)
| LocationResult (lastLocation : option Location)
| TimerTick (now : Z) (pahoThrows : option string)
| ChangeLabel (newLabel : Z).

Definition isTick (e : Event) : bool :=
  match e with TimerTick _ _ => true | _ => false end.

Section Session.

Variable encodeToString : TelematicsData.t -> option string.

Definition handle (e : Event) (s : DataCollectionService)
  : Outcome DataCollectionService * list TelematicsData.t :=
  match e with
  | SensorChanged event => (onSensorChanged event s, [])
  | LocationResult lastLocation => (Returned (onLocationResult lastLocation s), [])
  | TimerTick now pahoThrows => sendCombinedDataPacket encodeToString now pahoThrows s
  | ChangeLabel newLabel => (Returned (set_currentLabel newLabel s), [])
  end.

(** A run of events, with all frames built; an uncaught exception ends
    the run. *)
Fixpoint run (evs : list Event) (s : DataCollectionService)
  : Outcome DataCollectionService * list TelematicsData.t :=
  match evs with
  | [] => (Returned s, [])
  | e :: rest =>
      match handle e s with
      | (Returned s1, f1) =>
          let (o, f2) := run rest s1 in (o, f1 ++ f2)
      | (Threw x s1, f1) => (Threw x s1, f1)
      end
  end.

End Session.

(** ** The change gate, in the words of its specification *)

(** [|current - lastPublished|] on one axis. *)
Definition delta (current lastPublished : F32.t) : F32.t :=
  F32.abs (F32.sub current lastPublished).

Definition exceeds (threshold current lastPublished : F32.t) : Prop :=
  F32.gtb (delta current lastPublished) threshold = true.

(** Position is compared for equality, with no threshold. *)
Definition differs (current lastPublished : F64.t) : Prop :=
  F64.eqb current lastPublished = false.

Definition accelExceeds (current lastPublished : LiveSensorState.t) : Prop :=
  exceeds (F32.lit 5 10) (LiveSensorState.accX current) (LiveSensorState.accX lastPublished) \/
  exceeds (F32.lit 5 10) (LiveSensorState.accY current) (LiveSensorState.accY lastPublished) \/
  exceeds (F32.lit 5 10) (LiveSensorState.accZ current) (LiveSensorState.accZ lastPublished).

Definition gyroExceeds (current lastPublished : LiveSensorState.t) : Prop :=
  exceeds (F32.lit 3 10) (LiveSensorState.gyroX current) (LiveSensorState.gyroX lastPublished) \/
  exceeds (F32.lit 3 10) (LiveSensorState.gyroY current) (LiveSensorState.gyroY lastPublished) \/
  exceeds (F32.lit 3 10) (LiveSensorState.gyroZ current) (LiveSensorState.gyroZ lastPublished).

Definition rotVecExceeds (current lastPublished : LiveSensorState.t) : Prop :=
  exceeds (F32.lit 5 100) (LiveSensorState.rotVecX current) (LiveSensorState.rotVecX lastPublished) \/
  exceeds (F32.lit 5 100) (LiveSensorState.rotVecY current) (LiveSensorState.rotVecY lastPublished) \/
  exceeds (F32.lit 5 100) (LiveSensorState.rotVecZ current) (LiveSensorState.rotVecZ lastPublished).

Definition positionDiffers (current lastPublished : LiveSensorState.t) : Prop :=
  differs (LiveSensorState.latitude current) (LiveSensorState.latitude lastPublished) \/
  differs (LiveSensorState.longitude current) (LiveSensorState.longitude lastPublished).

(** [shouldPublish(current, lastPublished)]: the OR of the four channel
    predicates. *)
Definition shouldPublish (current lastPublished : LiveSensorState.t) : Prop :=
  accelExceeds current lastPublished \/
  gyroExceeds current lastPublished \/
  rotVecExceeds current lastPublished \/
  positionDiffers current lastPublished.

(** ** The gate, axis by axis *)

(** The eleven comparisons of the gate, axis by axis, in source order:
    nine motion axes against their thresholds, then latitude and
    longitude. *)
Definition crossings (last live : LiveSensorState.t) : list bool :=
  [ F32.gtb (F32.abs (F32.sub (LiveSensorState.accX last) (LiveSensorState.accX live))) ACCEL_THRESHOLD;
    F32.gtb (F32.abs (F32.sub (LiveSensorState.accY last) (LiveSensorState.accY live))) ACCEL_THRESHOLD;
    F32.gtb (F32.abs (F32.sub (LiveSensorState.accZ last) (LiveSensorState.accZ live))) ACCEL_THRESHOLD;
    F32.gtb (F32.abs (F32.sub (LiveSensorState.gyroX last) (LiveSensorState.gyroX live))) GYRO_THRESHOLD;
    F32.gtb (F32.abs (F32.sub (LiveSensorState.gyroY last) (LiveSensorState.gyroY live))) GYRO_THRESHOLD;
    F32.gtb (F32.abs (F32.sub (LiveSensorState.gyroZ last) (LiveSensorState.gyroZ live))) GYRO_THRESHOLD;
    F32.gtb (F32.abs (F32.sub (LiveSensorState.rotVecX last) (LiveSensorState.rotVecX live))) ROT_VEC_THRESHOLD;
    F32.gtb (F32.abs (F32.sub (LiveSensorState.rotVecY last) (LiveSensorState.rotVecY live))) ROT_VEC_THRESHOLD;
    F32.gtb (F32.abs (F32.sub (LiveSensorState.rotVecZ last) (LiveSensorState.rotVecZ live))) ROT_VEC_THRESHOLD;
    F64.neqb (LiveSensorState.latitude last) (LiveSensorState.latitude live);
    F64.neqb (LiveSensorState.longitude last) (LiveSensorState.longitude live) ].

(** How many axes have crossed since the last publish. *)
Definition crossingCount (s : DataCollectionService) : nat :=
  List.length
    (filter (fun b : bool => b)
       (crossings (lastPublishedState s) (liveSensorState s))).

(** The gate finds no axis across its threshold and the position equal. *)
Definition axesQuiet (last live : LiveSensorState.t) : Prop :=
  F32.gtb (F32.abs (F32.sub (LiveSensorState.accX last) (LiveSensorState.accX live))) ACCEL_THRESHOLD = false /\
  F32.gtb (F32.abs (F32.sub (LiveSensorState.accY last) (LiveSensorState.accY live))) ACCEL_THRESHOLD = false /\
  F32.gtb (F32.abs (F32.sub (LiveSensorState.accZ last) (LiveSensorState.accZ live))) ACCEL_THRESHOLD = false /\
  F32.gtb (F32.abs (F32.sub (LiveSensorState.gyroX last) (LiveSensorState.gyroX live))) GYRO_THRESHOLD = false /\
  F32.gtb (F32.abs (F32.sub (LiveSensorState.gyroY last) (LiveSensorState.gyroY live))) GYRO_THRESHOLD = false /\
  F32.gtb (F32.abs (F32.sub (LiveSensorState.gyroZ last) (LiveSensorState.gyroZ live))) GYRO_THRESHOLD = false /\
  F32.gtb (F32.abs (F32.sub (LiveSensorState.rotVecX last) (LiveSensorState.rotVecX live))) ROT_VEC_THRESHOLD = false /\
  F32.gtb (F32.abs (F32.sub (LiveSensorState.rotVecY last) (LiveSensorState.rotVecY live))) ROT_VEC_THRESHOLD = false /\
  F32.gtb (F32.abs (F32.sub (LiveSensorState.rotVecZ last) (LiveSensorState.rotVecZ live))) ROT_VEC_THRESHOLD = false /\
  F64.neqb (LiveSensorState.latitude last) (LiveSensorState.latitude live) = false /\
  F64.neqb (LiveSensorState.longitude last) (LiveSensorState.longitude live) = false.

(** A threshold that is not negative. *)
Definition nonNegative (thr : F32.t) : Prop :=
  SFltb thr (S754_zero false) = false.

(** The live state is away from the all-zero baseline by more than a
    threshold on some motion axis, or its position is not [(0, 0)]. *)
Definition offBaseline (l : LiveSensorState.t) : bool :=
  F32.gtb (F32.abs (LiveSensorState.accX l)) ACCEL_THRESHOLD ||
  F32.gtb (F32.abs (LiveSensorState.accY l)) ACCEL_THRESHOLD ||
  F32.gtb (F32.abs (LiveSensorState.accZ l)) ACCEL_THRESHOLD ||
  F32.gtb (F32.abs (LiveSensorState.gyroX l)) GYRO_THRESHOLD ||
  F32.gtb (F32.abs (LiveSensorState.gyroY l)) GYRO_THRESHOLD ||
  F32.gtb (F32.abs (LiveSensorState.gyroZ l)) GYRO_THRESHOLD ||
  F32.gtb (F32.abs (LiveSensorState.rotVecX l)) ROT_VEC_THRESHOLD ||
  F32.gtb (F32.abs (LiveSensorState.rotVecY l)) ROT_VEC_THRESHOLD ||
  F32.gtb (F32.abs (LiveSensorState.rotVecZ l)) ROT_VEC_THRESHOLD ||
  F64.neqb F64.zero (LiveSensorState.latitude l) ||
  F64.neqb F64.zero (LiveSensorState.longitude l).

(** Live state and last published state agree on every motion axis the
    gate looks at (as values) and on latitude and longitude (as numbers);
    speed, altitude and [rotVecW] are free. *)
Definition sameMotionAndPosition (live last : LiveSensorState.t) : Prop :=
  LiveSensorState.accX live = LiveSensorState.accX last /\
  LiveSensorState.accY live = LiveSensorState.accY last /\
  LiveSensorState.accZ live = LiveSensorState.accZ last /\
  LiveSensorState.gyroX live = LiveSensorState.gyroX last /\
  LiveSensorState.gyroY live = LiveSensorState.gyroY last /\
  LiveSensorState.gyroZ live = LiveSensorState.gyroZ last /\
  LiveSensorState.rotVecX live = LiveSensorState.rotVecX last /\
  LiveSensorState.rotVecY live = LiveSensorState.rotVecY last /\
  LiveSensorState.rotVecZ live = LiveSensorState.rotVecZ last /\
  F64.eqb (LiveSensorState.latitude live) (LiveSensorState.latitude last) = true /\
  F64.eqb (LiveSensorState.longitude live) (LiveSensorState.longitude last) = true.

(** ** What a tick produces *)

(** The frame a tick builds from the snapshot [lp]. *)
Definition builtFrame (now : Z) (trip : string) (label : Z)
    (lp : LiveSensorState.t) : TelematicsData.t :=
  TelematicsData.mk now trip label
    (LiveSensorState.accX lp) (LiveSensorState.accY lp) (LiveSensorState.accZ lp)
    (magnitude (LiveSensorState.accX lp) (LiveSensorState.accY lp)
       (LiveSensorState.accZ lp))
    (LiveSensorState.gyroX lp) (LiveSensorState.gyroY lp) (LiveSensorState.gyroZ lp)
    (magnitude (LiveSensorState.gyroX lp) (LiveSensorState.gyroY lp)
       (LiveSensorState.gyroZ lp))
    (LiveSensorState.rotVecX lp) (LiveSensorState.rotVecY lp)
    (LiveSensorState.rotVecZ lp) (LiveSensorState.rotVecW lp)
    (LiveSensorState.latitude lp) (LiveSensorState.longitude lp)
    (LiveSensorState.speed lp) (LiveSensorState.altitude lp).

(** A frame whose motion and position fields are those of [snapshot],
    with both magnitudes computed from the very same components. *)
Definition copiedFrom (f : TelematicsData.t) (snapshot : LiveSensorState.t) : Prop :=
  TelematicsData.accX f = LiveSensorState.accX snapshot /\
  TelematicsData.accY f = LiveSensorState.accY snapshot /\
  TelematicsData.accZ f = LiveSensorState.accZ snapshot /\
  TelematicsData.gyroX f = LiveSensorState.gyroX snapshot /\
  TelematicsData.gyroY f = LiveSensorState.gyroY snapshot /\
  TelematicsData.gyroZ f = LiveSensorState.gyroZ snapshot /\
  TelematicsData.rotVecX f = LiveSensorState.rotVecX snapshot /\
  TelematicsData.rotVecY f = LiveSensorState.rotVecY snapshot /\
  TelematicsData.rotVecZ f = LiveSensorState.rotVecZ snapshot /\
  TelematicsData.rotVecW f = LiveSensorState.rotVecW snapshot /\
  TelematicsData.latitude f = LiveSensorState.latitude snapshot /\
  TelematicsData.longitude f = LiveSensorState.longitude snapshot /\
  TelematicsData.speed f = LiveSensorState.speed snapshot /\
  TelematicsData.altitude f = LiveSensorState.altitude snapshot /\
  TelematicsData.accMag f =
    magnitude (LiveSensorState.accX snapshot) (LiveSensorState.accY snapshot)
      (LiveSensorState.accZ snapshot) /\
  TelematicsData.gyroMag f =
    magnitude (LiveSensorState.gyroX snapshot) (LiveSensorState.gyroY snapshot)
      (LiveSensorState.gyroZ snapshot).

(** The statistics record the tick hands to the local observers. *)
Definition liveStats (l : LiveSensorState.t) : RealTimeStats.t :=
  RealTimeStats.mk
    (magnitude (LiveSensorState.accX l) (LiveSensorState.accY l) (LiveSensorState.accZ l))
    (magnitude (LiveSensorState.gyroX l) (LiveSensorState.gyroY l) (LiveSensorState.gyroZ l))
    (LiveSensorState.speed l) (LiveSensorState.latitude l) (LiveSensorState.longitude l).

(** The serializer refuses the frame this tick would hand to the
    transport. *)
Definition refusedBy (encodeToString : TelematicsData.t -> option string)
    (now : Z) (s : DataCollectionService) : bool :=
  match mqttClient s,
        encodeToString
          (builtFrame now (tripId s) (currentLabel s) (liveSensorState s)) with
  | Some _, None => true
  | _, _ => false
  end.

(** ** Readings and their channels *)

Inductive Channel : Type :=
| Accelerometer | Gyroscope | RotationVector | Position.

(** The channel a reading belongs to; ticks, label changes, null
    callbacks and sensors the ingestor ignores belong to none. *)
Definition channelOf (e : Event) : option Channel :=
  match e with
  | SensorChanged (Some ev) =>
      if sensorType ev =? Sensor.TYPE_ACCELEROMETER then Some Accelerometer
      else if sensorType ev =? Sensor.TYPE_GYROSCOPE then Some Gyroscope
      else if sensorType ev =? Sensor.TYPE_ROTATION_VECTOR then Some RotationVector
      else None
  | LocationResult (Some _) => Some Position
  | _ => None
  end.

Definition Channel_eqb (a b : Channel) : bool :=
  match a, b with
  | Accelerometer, Accelerometer | Gyroscope, Gyroscope
  | RotationVector, RotationVector | Position, Position => true
  | _, _ => false
  end.

(** Every reading in the run is on channel [c]. *)
Definition onChannel (c : Channel) (e : Event) : bool :=
  match channelOf e with
  | Some c' => Channel_eqb c c'
  | None => true
  end.

(** [|a - b|] does not exceed the threshold. *)
Definition within (threshold a b : F32.t) : bool :=
  negb (F32.gtb (F32.abs (F32.sub a b)) threshold).

(** The reading carried by [e] is well formed and every axis of it stays
    within its channel's threshold of the same axis of [ref]; for a
    position fix, latitude and longitude equal those of [ref]. *)
Definition readingWithin (ref : LiveSensorState.t) (e : Event) : bool :=
  match e with
  | SensorChanged (Some ev) =>
      if sensorType ev =? Sensor.TYPE_ACCELEROMETER then
        match values ev with
        | x :: y :: z :: _ =>
            within ACCEL_THRESHOLD (LiveSensorState.accX ref) x &&
            within ACCEL_THRESHOLD (LiveSensorState.accY ref) y &&
            within ACCEL_THRESHOLD (LiveSensorState.accZ ref) z
        | _ => false
        end
      else if sensorType ev =? Sensor.TYPE_GYROSCOPE then
        match values ev with
        | x :: y :: z :: _ =>
            within GYRO_THRESHOLD (LiveSensorState.gyroX ref) x &&
            within GYRO_THRESHOLD (LiveSensorState.gyroY ref) y &&
            within GYRO_THRESHOLD (LiveSensorState.gyroZ ref) z
        | _ => false
        end
      else if sensorType ev =? Sensor.TYPE_ROTATION_VECTOR then
        match values ev with
        | x :: y :: z :: _ :: _ =>
            within ROT_VEC_THRESHOLD (LiveSensorState.rotVecX ref) x &&
            within ROT_VEC_THRESHOLD (LiveSensorState.rotVecY ref) y &&
            within ROT_VEC_THRESHOLD (LiveSensorState.rotVecZ ref) z
        | _ => false
        end
      else true
  | LocationResult (Some location) =>
      F64.eqb (LiveSensorState.latitude ref) (locLatitude location) &&
      F64.eqb (LiveSensorState.longitude ref) (locLongitude location)
  | _ => true
  end.

(** Every reading of the run stays within threshold of the reading
    before it on its channel, that is, of the live state it overwrites. *)
Fixpoint successiveWithin (evs : list Event) (s : DataCollectionService) : bool :=
  match evs with
  | [] => true
  | e :: rest =>
      readingWithin (liveSensorState s) e &&
      match e with
      | SensorChanged event => successiveWithin rest (stateOf (onSensorChanged event s))
      | LocationResult lastLocation => successiveWithin rest (onLocationResult lastLocation s)
      | _ => successiveWithin rest s
      end
  end.

(** The components a channel's reading must carry. *)
Definition requiredComponents (ty : Z) : nat :=
  if ty =? Sensor.TYPE_ACCELEROMETER then 3
  else if ty =? Sensor.TYPE_GYROSCOPE then 3
  else if ty =? Sensor.TYPE_ROTATION_VECTOR then 4
  else 0.

(** A reading the ingestor can take in full: a null callback, or an
    event that carries the components its channel needs. *)
Definition wellFormed (event : option SensorEvent) : Prop :=
  match event with
  | None => True
  | Some ev => (requiredComponents (sensorType ev) <= List.length (values ev))%nat
  end.

(** A complete per-channel update: all the fields of the reading's
    channel are overwritten and no other field; [None] when the reading
    does not carry the components its channel needs. *)
Definition channelUpdate (ev : SensorEvent) (l : LiveSensorState.t)
  : option LiveSensorState.t :=
  if sensorType ev =? Sensor.TYPE_ACCELEROMETER then
    match values ev with
    | x :: y :: z :: _ =>
        Some (LiveSensorState.mk x y z
                (LiveSensorState.gyroX l) (LiveSensorState.gyroY l) (LiveSensorState.gyroZ l)
                (LiveSensorState.rotVecX l) (LiveSensorState.rotVecY l)
                (LiveSensorState.rotVecZ l) (LiveSensorState.rotVecW l)
                (LiveSensorState.latitude l) (LiveSensorState.longitude l)
                (LiveSensorState.speed l) (LiveSensorState.altitude l))
    | _ => None
    end
  else if sensorType ev =? Sensor.TYPE_GYROSCOPE then
    match values ev with
    | x :: y :: z :: _ =>
        Some (LiveSensorState.mk
                (LiveSensorState.accX l) (LiveSensorState.accY l) (LiveSensorState.accZ l)
                x y z
                (LiveSensorState.rotVecX l) (LiveSensorState.rotVecY l)
                (LiveSensorState.rotVecZ l) (LiveSensorState.rotVecW l)
                (LiveSensorState.latitude l) (LiveSensorState.longitude l)
                (LiveSensorState.speed l) (LiveSensorState.altitude l))
    | _ => None
    end
  else if sensorType ev =? Sensor.TYPE_ROTATION_VECTOR then
    match values ev with
    | x :: y :: z :: w :: _ =>
        Some (LiveSensorState.mk
                (LiveSensorState.accX l) (LiveSensorState.accY l) (LiveSensorState.accZ l)
                (LiveSensorState.gyroX l) (LiveSensorState.gyroY l) (LiveSensorState.gyroZ l)
                x y z w
                (LiveSensorState.latitude l) (LiveSensorState.longitude l)
                (LiveSensorState.speed l) (LiveSensorState.altitude l))
    | _ => None
    end
  else Some l.

(** The reading is either applied as a complete per-channel update or
    dropped, and the callback returns. *)
Definition appliedOrDiscarded (event : option SensorEvent)
    (s : DataCollectionService) : Prop :=
  match event with
  | None => onSensorChanged event s = Returned s
  | Some ev =>
      match channelUpdate ev (liveSensorState s) with
      | Some l => onSensorChanged event s = Returned (set_liveSensorState l s)
      | None => onSensorChanged event s = Returned s
      end
  end.

(** ** Floats as real numbers *)

(** [2^e]. *)
Definition bpow (e : Z) : R := powerRZ 2 e.

(** The real number a finite float stands for; [0] for the others. *)
Definition F2R (x : spec_float) : R :=
  match x with
  | S754_finite s m e => ((if s then -1 else 1) * IZR (Z.pos m) * bpow e)%R
  | _ => 0%R
  end.

(** A raw component the magnitude can take: zero, or a finite binary32
    number in canonical form between [2^-60] and [2^60] in absolute
    value. *)
Definition sensible (v : F32.t) : Prop :=
  match v with
  | S754_zero _ => True
  | S754_finite s m e =>
      valid_binary F32.prec F32.emax v = true /\
      (bpow (-60) <= IZR (Z.pos m) * bpow e <= bpow 60)%R
  | _ => False
  end.

(** [f] approximates the real number [X >= 0]: both are zero, or [f] is
    a positive finite number whose value lies between [lo * X] and
    [hi * X], with [X] between [2^a] and [2^b]. *)
Definition approx (a b : Z) (lo hi X : R) (f : spec_float) : Prop :=
  (f = S754_zero false /\ X = 0%R) \/
  (exists m e,
      f = S754_finite false m e /\
      (bpow a <= X <= bpow b)%R /\
      (lo * X <= IZR (Z.pos m) * bpow e <= hi * X)%R).

(** One unit in the last place, relatively: of a binary32 and of a
    binary64 rounding, and of the binary64 square root. *)
Definition u32 : R := bpow (-23).
Definition u64 : R := bpow (-52).
Definition c64 : R := bpow (-51).

(** The Euclidean norm of three real components. *)
Definition norm3 (x y z : R) : R := sqrt (x * x + y * y + z * z).

(** The magnitude lies within one millionth, relatively, of the norm. *)
Definition withinTolerance (mag x y z : F32.t) : Prop :=
  (Rabs (F2R mag - norm3 (F2R x) (F2R y) (F2R z))
   <= 1 / 1000000 * norm3 (F2R x) (F2R y) (F2R z))%R.

(** ** Concrete sessions and readings *)

(** A serializer that accepts every frame. *)
Definition jsonStub (d : TelematicsData.t) : option string := Some "{}"%string.

Definition accelEvent (x y z : F32.t) : Event :=
  SensorChanged (Some (mkSensorEvent Sensor.TYPE_ACCELEROMETER [x; y; z])).

(** Gravity on the z axis, then two upward drifts of 0.4 each. *)
Definition atRest : Event := accelEvent F32.zero F32.zero (F32.lit 98 10).
Definition drift1 : Event := accelEvent F32.zero F32.zero (F32.lit 102 10).
Definition drift2 : Event := accelEvent F32.zero F32.zero (F32.lit 106 10).

(** An accelerometer callback whose array has two components only. *)
Definition shortAccel : SensorEvent :=
  mkSensorEvent Sensor.TYPE_ACCELEROMETER [F32.of_Z 1; F32.of_Z 2].

(** The service object as the first reading leaves it, before any tick. *)
Definition firstReading : DataCollectionService :=
  stateOf (fst (handle jsonStub atRest (startSession "trip"))).

(** A session in which the first reading has arrived before the first
    tick, which publishes it. *)
Definition restingSession : DataCollectionService :=
  stateOf
    (fst (sendCombinedDataPacket jsonStub 0 None
            (stateOf (fst (handle jsonStub atRest (startSession "trip")))))).

(** Two drifts of 0.4 on the z axis, a tick after each. *)
Definition driftingRun : list Event :=
  [drift1; TimerTick 100 None; drift2; TimerTick 200 None].

(** A position fix that repeats the published latitude and longitude of
    [restingSession] and brings a new speed and altitude. *)
Definition speedOnlyFix : Location :=
  mkLocation F64.zero F64.zero (F32.of_Z 5) (F64.of_Z 30).

Definition cruisingSession : DataCollectionService :=
  onLocationResult (Some speedOnlyFix) restingSession.

(** The transport of [firstReading] after Paho lost the connection. *)
Definition offlineClient : MqttClient.t :=
  match mqttClient firstReading with
  | Some c => fst (MqttClient.deliver (MqttClient.ConnectionLost None) c)
  | None => MqttClient.new
  end.

Definition offlineSession : DataCollectionService :=
  set_mqttClient (Some offlineClient) firstReading.

(** The frame the tick builds from [offlineSession]. *)
Definition offlineFrame : TelematicsData.t :=
  hd (TelematicsData.mk 0 "" 0 F32.zero F32.zero F32.zero F32.zero F32.zero
        F32.zero F32.zero F32.zero F32.zero F32.zero F32.zero F32.zero
        F64.zero F64.zero F32.zero F64.zero)
     (snd (sendCombinedDataPacket jsonStub 0 None offlineSession)).

(** A bump: 1, 2 and 33 m/s2 on the three axes, before the first tick. *)
Definition bumpSession : DataCollectionService :=
  stateOf
    (fst (handle jsonStub
            (accelEvent (F32.of_Z 1) (F32.of_Z 2) (F32.of_Z 33))
            (startSession "trip"))).

(** A reading of [2^64] on the x axis, before the first tick. *)
Definition hugeSession : DataCollectionService :=
  stateOf
    (fst (handle jsonStub
            (accelEvent (S754_finite false 8388608 41) F32.zero F32.zero)
            (startSession "trip"))).

(** The frames the first tick builds from these two. *)
Definition bumpFrame : TelematicsData.t :=
  builtFrame 0 "trip" 0 (liveSensorState bumpSession).

Definition hugeFrame : TelematicsData.t :=
  builtFrame 0 "trip" 0 (liveSensorState hugeSession).

(** One connect request, then a lost connection that Paho re-establishes
    by itself. *)
Definition reconnectRun : list MqttClient.PahoEvent :=
  [ MqttClient.ActionSuccess; MqttClient.ConnectComplete false;
    MqttClient.ConnectionLost None; MqttClient.ConnectComplete true ].

(** The float operations stay folded under [simpl] and [cbn]. *)
Arguments F32.sub : simpl never.
Arguments F32.abs : simpl never.
Arguments F32.gtb : simpl never.
Arguments F64.neqb : simpl never.
Arguments F64.eqb : simpl never.

(** ** Runs and what reaches Paho *)

(** The timer ticks of a run. *)
Definition ticks (evs : list Event) : nat := List.length (filter isTick evs).

(** The message the transport hands to Paho for one payload. *)
Definition messageOf (payload : string) : MqttClient.Message :=
  MqttClient.mkMessage MqttClient.MQTT_TOPIC payload 1.

(** Paho raises nothing on the publish of this event. *)
Definition pahoAccepts (e : Event) : bool :=
  match e with TimerTick _ (Some _) => false | _ => true end.

(** The event leaves the label alone. *)
Definition keepsLabel (e : Event) : bool :=
  match e with ChangeLabel _ => false | _ => true end.

(** The messages Paho holds of the service's transport, oldest first. *)
Definition handedToPaho (s : DataCollectionService) : list MqttClient.Message :=
  match mqttClient s with
  | Some c => MqttClient.published c
  | None => []
  end.

(** ** Values that are not numbers, and signs *)

(** The live position is not a number. *)
Definition positionIsNaN (l : LiveSensorState.t) : bool :=
  F64.is_nan (LiveSensorState.latitude l) || F64.is_nan (LiveSensorState.longitude l).

(** An axis on which the gate cannot see a move: the published value or
    the live value is a NaN, or the two are the same value. *)
Definition unseen (last live : F32.t) : Prop :=
  last = S754_nan \/ live = S754_nan \/ live = last.

(** Every motion axis is [unseen] and the position is equal. *)
Definition nothingSeen (last live : LiveSensorState.t) : Prop :=
  unseen (LiveSensorState.accX last) (LiveSensorState.accX live) /\
  unseen (LiveSensorState.accY last) (LiveSensorState.accY live) /\
  unseen (LiveSensorState.accZ last) (LiveSensorState.accZ live) /\
  unseen (LiveSensorState.gyroX last) (LiveSensorState.gyroX live) /\
  unseen (LiveSensorState.gyroY last) (LiveSensorState.gyroY live) /\
  unseen (LiveSensorState.gyroZ last) (LiveSensorState.gyroZ live) /\
  unseen (LiveSensorState.rotVecX last) (LiveSensorState.rotVecX live) /\
  unseen (LiveSensorState.rotVecY last) (LiveSensorState.rotVecY live) /\
  unseen (LiveSensorState.rotVecZ last) (LiveSensorState.rotVecZ live) /\
  F64.eqb (LiveSensorState.latitude last) (LiveSensorState.latitude live) = true /\
  F64.eqb (LiveSensorState.longitude last) (LiveSensorState.longitude live) = true.

(** Live state and last published state hold the same value in every
    field the gate reads: each accelerometer, gyroscope and
    rotation-vector axis, latitude and longitude; a NaN that is still
    the same NaN counts as unchanged.  Speed, altitude and [rotVecW]
    are free. *)
Definition gateFieldsUnchanged (live last : LiveSensorState.t) : Prop :=
  LiveSensorState.accX live = LiveSensorState.accX last /\
  LiveSensorState.accY live = LiveSensorState.accY last /\
  LiveSensorState.accZ live = LiveSensorState.accZ last /\
  LiveSensorState.gyroX live = LiveSensorState.gyroX last /\
  LiveSensorState.gyroY live = LiveSensorState.gyroY last /\
  LiveSensorState.gyroZ live = LiveSensorState.gyroZ last /\
  LiveSensorState.rotVecX live = LiveSensorState.rotVecX last /\
  LiveSensorState.rotVecY live = LiveSensorState.rotVecY last /\
  LiveSensorState.rotVecZ live = LiveSensorState.rotVecZ last /\
  LiveSensorState.latitude live = LiveSensorState.latitude last /\
  LiveSensorState.longitude live = LiveSensorState.longitude last.

(** The service with its two snapshots exchanged. *)
Definition swapped (s : DataCollectionService) : DataCollectionService :=
  set_liveSensorState (lastPublishedState s)
    (set_lastPublishedState (liveSensorState s) s).

(** A value without a sign: a NaN, [+0], [+Infinity] or a positive
    number. *)
Definition unsigned (v : spec_float) : Prop := SFabs v = v.

(** ** The service in its process: commands, connection, timers

    [onStartCommand], [initializeAndConnectMqtt], [startDataSendLoop]
    and [onDestroy] drive the platform around the service: the
    foreground notification, the sensor and location registrations, the
    [java.util.Timer] objects.  The [Log] lines of the service are not
    part of the state. *)

(** [android.content.Intent], as far as the service reads it: the action
    and the integer extras, latest [putExtra] first. *)
Record Intent : Type := mkIntent {
  action : option string;
  extras : list (string * Z)
}.

Definition ACTION_START : string := "ACTION_START".
Definition ACTION_STOP : string := "ACTION_STOP".
Definition ACTION_CHANGE_LABEL : string := "ACTION_CHANGE_LABEL".
Definition EXTRA_LABEL : string := "EXTRA_LABEL".

(** [Service.START_STICKY]. *)
Definition START_STICKY : Z := 1.

(** [intent.getIntExtra(name, defaultValue)]. *)
Fixpoint getIntExtra (name : string) (defaultValue : Z)
    (extras : list (string * Z)) : Z :=
  match extras with
  | [] => defaultValue
  | (k, v) :: rest =>
      if String.eqb k name then v else getIntExtra name defaultValue rest
  end.

(** [intent.putExtra(name, value)]. *)
Definition putExtra (name : string) (value : Z) (i : Intent) : Intent :=
  mkIntent (action i) ((name, value) :: extras i).

(** The intents [MainActivity] sends: [startDataCollectionService],
    [stopDataCollectionService] and [changeCollectionLabel]. *)
Definition startDataCollectionService : Intent :=
  mkIntent (Some ACTION_START) [].

Definition stopDataCollectionService : Intent :=
  mkIntent (Some ACTION_STOP) [].

Definition changeCollectionLabel (label : Z) : Intent :=
  putExtra EXTRA_LABEL label (mkIntent (Some ACTION_CHANGE_LABEL) []).

(** The connect request failed. *)
Definition isActionFailure (ev : MqttClient.PahoEvent) : bool :=
  match ev with MqttClient.ActionFailure _ => true | _ => false end.

Module Lifecycle.

(** The service object together with what it has asked of the
    platform. *)
Record Host : Type := mkHost {
  service : DataCollectionService;
  timerRef : option nat;       (* the Timer held by the field dataSendTimer:
                                  its position in [timers] *)
  timers : list bool;          (* every Timer created, oldest first; true
                                  until it is cancelled *)
  sensorListeners : list Z;    (* registerListener calls in force, by
                                  sensor type *)
  locationRequests : nat;      (* requestLocationUpdates calls in force *)
  foreground : bool;           (* startForeground was called *)
  connectsLaunched : nat;      (* initializeAndConnectMqtt coroutines
                                  launched *)
  stopSelfCalls : nat          (* stopSelf() calls *)
}.

Definition set_service (s : DataCollectionService) (h : Host) : Host :=
  mkHost s (timerRef h) (timers h) (sensorListeners h) (locationRequests h)
    (foreground h) (connectsLaunched h) (stopSelfCalls h).

(** The service as [onCreate] leaves it; [trip] is the random UUID drawn
    at construction. *)
Definition onCreate (trip : string) : Host :=
  mkHost (newService trip) None [] [] 0 false 0 0.

(** [Timer.cancel()] on the timer at position [i]. *)
Fixpoint cancel (i : nat) (ts : list bool) : list bool :=
  match ts, i with
  | [], _ => []
  | _ :: rest, O => false :: rest
  | t :: rest, S j => t :: cancel j rest
  end.

(** [dataSendTimer?.cancel()]: the timers afterwards. *)
Definition cancelDataSendTimer (h : Host) : list bool :=
  match timerRef h with
  | Some i => cancel i (timers h)
  | None => timers h
  end.

(** [private fun startSensorListeners()]. *)
Definition startSensorListeners (h : Host) : Host :=
  mkHost (service h) (timerRef h) (timers h)
    (sensorListeners h ++
     [Sensor.TYPE_ACCELEROMETER; Sensor.TYPE_GYROSCOPE;
      Sensor.TYPE_ROTATION_VECTOR])
    (locationRequests h) (foreground h) (connectsLaunched h) (stopSelfCalls h).

(** [private fun startLocationUpdates()]. *)
Definition startLocationUpdates (h : Host) : Host :=
  mkHost (service h) (timerRef h) (timers h) (sensorListeners h)
    (S (locationRequests h)) (foreground h) (connectsLaunched h)
    (stopSelfCalls h).

(** [private fun startDataSendLoop()]: the timer held so far is
    cancelled, a new one is created, stored in the field and scheduled
    at a fixed rate with no delay. *)
Definition startDataSendLoop (h : Host) : Host :=
  let ts := cancelDataSendTimer h in
  mkHost (set_dataSendTimer true (service h))
    (Some (List.length ts)) (ts ++ [true])
    (sensorListeners h) (locationRequests h) (foreground h)
    (connectsLaunched h) (stopSelfCalls h).

Definition stopSelf (h : Host) : Host :=
  mkHost (service h) (timerRef h) (timers h) (sensorListeners h)
    (locationRequests h) (foreground h) (connectsLaunched h)
    (S (stopSelfCalls h)).

(** The [onSuccess] lambda handed to [connect]. *)
Definition onSuccess (h : Host) : Host :=
  let h3 := startDataSendLoop (startLocationUpdates (startSensorListeners h)) in
  set_service (setServiceRunning true (service h3)) h3.

(** The [onFailure] lambda handed to [connect]. *)
Definition onFailure (cause : option string) (h : Host) : Host :=
  stopSelf h.

(** What the transport tells the service. *)
Definition notify (h : Host) (n : MqttClient.Notification) : Host :=
  match n with
  | MqttClient.Ready => onSuccess h
  | MqttClient.Failed cause => onFailure cause h
  end.

(** [private suspend fun initializeAndConnectMqtt()]: a new transport
    replaces the one in the field and is asked to connect. *)
Definition initializeAndConnectMqtt (pahoThrows : option string) (h : Host)
  : Host :=
  let (c, ns) := MqttClient.connect pahoThrows MqttClient.new in
  fold_left notify ns (set_service (set_mqttClient (Some c) (service h)) h).

(** Paho reports [ev] to the transport in the field. *)
Definition pahoReports (ev : MqttClient.PahoEvent) (h : Host) : Host :=
  match mqttClient (service h) with
  | Some c =>
      let (c1, ns) := MqttClient.deliver ev c in
      fold_left notify ns (set_service (set_mqttClient (Some c1) (service h)) h)
  | None => h
  end.

(** [override fun onStartCommand(intent, flags, startId)], with the
    value it returns. *)
Definition onStartCommand (intent : option Intent) (h : Host) : Host * Z :=
  (match intent with
   | Some i =>
       match action i with
       | Some a =>
           if String.eqb a ACTION_START then
             mkHost (service h) (timerRef h) (timers h) (sensorListeners h)
               (locationRequests h) true (S (connectsLaunched h))
               (stopSelfCalls h)
           else if String.eqb a ACTION_CHANGE_LABEL then
             set_service
               (set_currentLabel (getIntExtra EXTRA_LABEL 0 (extras i))
                  (service h)) h
           else if String.eqb a ACTION_STOP then stopSelf h
           else h
       | None => h
       end
   | None => h
   end,
   START_STICKY).

(** [override fun onDestroy()].  The field keeps the cancelled timer. *)
Definition onDestroy (h : Host) : Host :=
  mkHost (onDestroy (service h)) (timerRef h) (cancelDataSendTimer h)
    [] 0 (foreground h) (connectsLaunched h) (stopSelfCalls h).

(** What can happen to the service object during its life: a command,
    a launched [initializeAndConnectMqtt] that runs, a report of Paho to
    the transport in the field, a callback from a transport created
    earlier, the end. *)
Inductive Step : Type :=
| Command (intent : option Intent)
| ConnectRuns (pahoThrows : option string)
| Paho (ev : MqttClient.PahoEvent)
| Callback (n : MqttClient.Notification)
| Destroyed.

Definition step (h : Host) (st : Step) : Host :=
  match st with
  | Command intent => fst (onStartCommand intent h)
  | ConnectRuns pahoThrows => initializeAndConnectMqtt pahoThrows h
  | Paho ev => pahoReports ev h
  | Callback n => notify h n
  | Destroyed => onDestroy h
  end.

Definition steps (l : list Step) (h : Host) : Host := fold_left step l h.

(** The timers that are running. *)
Definition running (ts : list bool) : nat :=
  List.length (filter (fun b : bool => b) ts).

(** Every timer that is not the one in the field has been cancelled. *)
Definition othersCancelled (h : Host) : Prop :=
  forallb negb (cancelDataSendTimer h) = true.

(** What a service has started so far, in numbers. *)
Record Started : Type := mkStarted {
  timersCreated : nat;
  timersRunning : nat;
  runningSignals : list bool;
  listenersRegistered : nat;
  locationUpdatesRequested : nat;
  stopsRequested : nat
}.

Definition started (h : Host) : Started :=
  mkStarted (List.length (timers h)) (running (timers h))
    (isServiceRunningFlow (service h)) (List.length (sensorListeners h))
    (locationRequests h) (stopSelfCalls h).

(** The transport in the field has its callback installed. *)
Definition armed (h : Host) : Prop :=
  exists c, mqttClient (service h) = Some c /\ MqttClient.callbackSet c = true.

End Lifecycle.

(** ** Broker settings: [SettingsManager.kt] *)

(** [data class MqttConfig]. *)
Record MqttConfig : Type := mkMqttConfig {
  brokerUrl : string;
  username : string;
  password : string
}.

Module SettingsManager.

(** The [Preferences] of the DataStore: string values by key name, the
    latest write of a key first. *)
Definition Preferences : Type := list (string * string).

Definition BROKER_URL_KEY : string := "mqtt_broker_url".
Definition USERNAME_KEY : string := "mqtt_username".
Definition PASSWORD_KEY : string := "mqtt_password".

(** [preferences[key]]. *)
Fixpoint get (key : string) (p : Preferences) : option string :=
  match p with
  | [] => None
  | (k, v) :: rest => if String.eqb k key then Some v else get key rest
  end.

(** [settings[key] = value]. *)
Definition set (key value : string) (p : Preferences) : Preferences :=
  (key, value) :: p.

(** [a ?: b]. *)
Definition orElse (a : option string) (b : string) : string :=
  match a with Some v => v | None => b end.

(** What [mqttConfigFlow] emits for the preferences [p]. *)
Definition mqttConfigFlow (p : Preferences) : MqttConfig :=
  let brokerUrl := orElse (get BROKER_URL_KEY p) "tcp://192.168.1.10:1883" in
  let username := orElse (get USERNAME_KEY p) "" in
  let password := orElse (get PASSWORD_KEY p) "" in
  mkMqttConfig brokerUrl username password.

(** [suspend fun saveMqttConfig(config)]. *)
Definition saveMqttConfig (config : MqttConfig) (p : Preferences)
  : Preferences :=
  set PASSWORD_KEY (password config)
    (set USERNAME_KEY (username config)
       (set BROKER_URL_KEY (brokerUrl config) p)).

(** One of the three keys of the broker settings. *)
Definition isConfigKey (key : string) : bool :=
  String.eqb key BROKER_URL_KEY || String.eqb key USERNAME_KEY ||
  String.eqb key PASSWORD_KEY.

End SettingsManager.

(** ** Starting the service: [MainActivity.kt] *)

Module MainActivity.

Inductive Permission : Type := ACCESS_FINE_LOCATION | POST_NOTIFICATIONS.

(** [Build.VERSION_CODES.TIRAMISU]. *)
Definition TIRAMISU : Z := 33.

(** The list [checkPermissionsAndStartService] builds; [granted p] says
    whether [checkSelfPermission] answers [PERMISSION_GRANTED] for [p],
    [sdk] is [Build.VERSION.SDK_INT]. *)
Definition permissionsToRequest (sdk : Z) (granted : Permission -> bool)
  : list Permission :=
  (if negb (granted ACCESS_FINE_LOCATION) then [ACCESS_FINE_LOCATION] else []) ++
  (if TIRAMISU <=? sdk then
     if negb (granted POST_NOTIFICATIONS) then [POST_NOTIFICATIONS] else []
   else []).

(** The callback of [requestPermissionsLauncher]: the intents it sends,
    given what [checkSelfPermission] answers once the user has
    decided. *)
Definition onPermissionsResult (grantedNow : Permission -> bool)
  : list Intent :=
  if grantedNow ACCESS_FINE_LOCATION then [startDataCollectionService] else [].

(** [private fun checkPermissionsAndStartService()]: the permissions the
    user is asked for, and the intents sent to the service. *)
Definition checkPermissionsAndStartService (sdk : Z)
    (granted grantedAfterwards : Permission -> bool)
  : list Permission * list Intent :=
  let permissionsToRequest := permissionsToRequest sdk granted in
  match permissionsToRequest with
  | _ :: _ => (permissionsToRequest, onPermissionsResult grantedAfterwards)
  | [] => ([], [startDataCollectionService])
  end.

End MainActivity.

(** ** Kotlin [Long] *)

Module Long.

(** A 64-bit two's complement integer. *)
Definition wrap (z : Z) : Z := (z + 2 ^ 63) mod 2 ^ 64 - 2 ^ 63.

Definition sub (a b : Z) : Z := wrap (a - b).

(** A value [System.currentTimeMillis()] can return. *)
Definition isTime (t : Z) : bool := (0 <=? t) && (t <? 2 ^ 63).

End Long.

(** ** The collector service, one frame per reading

    [DataCollectionService.kt] comes in two versions.  In the first one
    there is no timer: every sensor callback updates the statistics at
    once and publishes a frame of its own, when the reading has moved by
    more than a threshold since the last frame of its sensor and more
    than [PUBLISH_INTERVAL_MS] have passed; every position fix is
    published. *)
Module PerReading.

(** [data class TelematicsData] of this version: every reading field is
    nullable and null by default. *)
Record TelematicsData : Type := mkData {
  eventType : string;
  timestamp : Z;
  dataTripId : string;
  label : Z;
  accX : option F32.t; accY : option F32.t; accZ : option F32.t;
  gyroX : option F32.t; gyroY : option F32.t; gyroZ : option F32.t;
  accMag : option F32.t; gyroMag : option F32.t;
  latitude : option F64.t; longitude : option F64.t;
  speed : option F32.t; altitude : option F64.t
}.

Definition PUBLISH_INTERVAL_MS : Z := 100.
Definition ACCEL_THRESHOLD : F32.t := S754_finite false 8388608 (-24).
Definition GYRO_THRESHOLD : F32.t := S754_finite false 13421773 (-27).

(** A [FloatArray(3)]. *)
Record Float3 : Type := mkFloat3 { at0 : F32.t; at1 : F32.t; at2 : F32.t }.

(** The mutable fields of the service, with what it has pushed into
    [DataRepository.updateStats]. *)
Record Service : Type := mkService {
  mqttClient : option MqttClient.t;
  currentStats : RealTimeStats.t;
  tripId : string;
  lastAccelPublishTime : Z;
  lastGyroPublishTime : Z;
  lastAccelData : Float3;
  lastGyroData : Float3;
  currentLabel : Z;
  statsFlow : list RealTimeStats.t
}.

(** A service object as constructed: [RealTimeStats()], publish times
    [0L], arrays of zeros, label 0. *)
Definition newService (trip : string) (client : option MqttClient.t) : Service :=
  mkService client
    (RealTimeStats.mk F32.zero F32.zero F32.zero F64.zero F64.zero)
    trip 0 0
    (mkFloat3 F32.zero F32.zero F32.zero)
    (mkFloat3 F32.zero F32.zero F32.zero)
    0 [].

Definition set_mqttClient (c : option MqttClient.t) (s : Service) : Service :=
  mkService c (currentStats s) (tripId s) (lastAccelPublishTime s)
    (lastGyroPublishTime s) (lastAccelData s) (lastGyroData s)
    (currentLabel s) (statsFlow s).

Definition set_currentLabel (l : Z) (s : Service) : Service :=
  mkService (mqttClient s) (currentStats s) (tripId s)
    (lastAccelPublishTime s) (lastGyroPublishTime s) (lastAccelData s)
    (lastGyroData s) l (statsFlow s).

(** [currentStats = r], then the launch of
    [DataRepository.updateStats(currentStats)], taken to run at once. *)
Definition setAndEmitStats (r : RealTimeStats.t) (s : Service) : Service :=
  mkService (mqttClient s) r (tripId s) (lastAccelPublishTime s)
    (lastGyroPublishTime s) (lastAccelData s) (lastGyroData s)
    (currentLabel s) (statsFlow s ++ [r]).

(** [lastAccelPublishTime = now] and
    [System.arraycopy(values, 0, lastAccelData, 0, 3)]. *)
Definition accelPublished (now : Z) (v : Float3) (s : Service) : Service :=
  mkService (mqttClient s) (currentStats s) (tripId s) now
    (lastGyroPublishTime s) v (lastGyroData s)
    (currentLabel s) (statsFlow s).

Definition gyroPublished (now : Z) (v : Float3) (s : Service) : Service :=
  mkService (mqttClient s) (currentStats s) (tripId s)
    (lastAccelPublishTime s) now (lastAccelData s) v
    (currentLabel s) (statsFlow s).

(** [private fun hasAccelChanged(newValues)] and [hasGyroChanged]. *)
Definition hasAccelChanged (newValues : Float3) (s : Service) : bool :=
  let deltaX := F32.abs (F32.sub (at0 (lastAccelData s)) (at0 newValues)) in
  let deltaY := F32.abs (F32.sub (at1 (lastAccelData s)) (at1 newValues)) in
  let deltaZ := F32.abs (F32.sub (at2 (lastAccelData s)) (at2 newValues)) in
  F32.gtb deltaX ACCEL_THRESHOLD || F32.gtb deltaY ACCEL_THRESHOLD ||
  F32.gtb deltaZ ACCEL_THRESHOLD.

Definition hasGyroChanged (newValues : Float3) (s : Service) : bool :=
  let deltaX := F32.abs (F32.sub (at0 (lastGyroData s)) (at0 newValues)) in
  let deltaY := F32.abs (F32.sub (at1 (lastGyroData s)) (at1 newValues)) in
  let deltaZ := F32.abs (F32.sub (at2 (lastGyroData s)) (at2 newValues)) in
  F32.gtb deltaX GYRO_THRESHOLD || F32.gtb deltaY GYRO_THRESHOLD ||
  F32.gtb deltaZ GYRO_THRESHOLD.

(** What a callback leaves behind: how it ended, and the frames it
    built. *)
Definition Result : Type := Outcome Service * list TelematicsData.

(** [event.values[i]], met for the first time in an expression: the
    read throws when [i] is out of range, before anything is written. *)
Definition valueAt (vals : list F32.t) (i : nat) (k : F32.t -> Result)
    (s : Service) : Result :=
  match nth_error vals i with
  | Some v => k v
  | None => (Threw (ArrayIndexOutOfBoundsException i) s, [])
  end.

Section Pipeline.

Variable encodeToString : TelematicsData -> option string.

(** [private fun publishData(data)]. *)
Definition publishData (data : TelematicsData) (pahoThrows : option string)
    (s : Service) : Outcome Service :=
  match mqttClient s with
  | Some client =>
      match encodeToString data with
      | Some jsonPayload =>
          Returned
            (set_mqttClient
               (Some (MqttClient.publish jsonPayload pahoThrows client)) s)
      | None => Threw SerializationException s
      end
  | None => Returned s
  end.

(** [override fun onSensorChanged(event: SensorEvent?)].  [now1] and
    [now2] are the two readings of [System.currentTimeMillis()] the
    callback may take: in the rate test, and for the time stamp. *)
Definition onSensorChanged (event : option SensorEvent) (now1 now2 : Z)
    (pahoThrows : option string) (s : Service) : Result :=
  match event with
  | None => (Returned s, [])
  | Some event =>
      if sensorType event =? Sensor.TYPE_ACCELEROMETER then
        valueAt (values event) 0 (fun x =>
        valueAt (values event) 1 (fun y =>
        valueAt (values event) 2 (fun z =>
          let accMag := magnitude x y z in
          let s1 :=
            setAndEmitStats
              (RealTimeStats.mk accMag
                 (RealTimeStats.gyroMag (currentStats s))
                 (RealTimeStats.speed (currentStats s))
                 (RealTimeStats.latitude (currentStats s))
                 (RealTimeStats.longitude (currentStats s))) s in
          if hasAccelChanged (mkFloat3 x y z) s1 &&
             (Long.sub now1 (lastAccelPublishTime s1) >? PUBLISH_INTERVAL_MS)
          then
            let s2 := accelPublished now2 (mkFloat3 x y z) s1 in
            let data :=
              mkData "accelerometer" (lastAccelPublishTime s2) (tripId s2)
                (currentLabel s2)
                (Some x) (Some y) (Some z) None None None
                (Some (RealTimeStats.accMag (currentStats s2))) None
                None None None None in
            (publishData data pahoThrows s2, [data])
          else (Returned s1, []))
          s) s) s
      else if sensorType event =? Sensor.TYPE_GYROSCOPE then
        valueAt (values event) 0 (fun x =>
        valueAt (values event) 1 (fun y =>
        valueAt (values event) 2 (fun z =>
          let gyroMag := magnitude x y z in
          let s1 :=
            setAndEmitStats
              (RealTimeStats.mk
                 (RealTimeStats.accMag (currentStats s)) gyroMag
                 (RealTimeStats.speed (currentStats s))
                 (RealTimeStats.latitude (currentStats s))
                 (RealTimeStats.longitude (currentStats s))) s in
          if hasGyroChanged (mkFloat3 x y z) s1 &&
             (Long.sub now1 (lastGyroPublishTime s1) >? PUBLISH_INTERVAL_MS)
          then
            let s2 := gyroPublished now2 (mkFloat3 x y z) s1 in
            let data :=
              mkData "gyroscope" (lastGyroPublishTime s2) (tripId s2)
                (currentLabel s2)
                None None None (Some x) (Some y) (Some z)
                None (Some (RealTimeStats.gyroMag (currentStats s2)))
                None None None None in
            (publishData data pahoThrows s2, [data])
          else (Returned s1, []))
          s) s) s
      else (Returned s, [])
  end.

(** [locationCallback.onLocationResult]; [now] is
    [System.currentTimeMillis()]. *)
Definition onLocationResult (lastLocation : option Location) (now : Z)
    (pahoThrows : option string) (s : Service) : Result :=
  match lastLocation with
  | None => (Returned s, [])
  | Some location =>
      let s1 :=
        setAndEmitStats
          (RealTimeStats.mk
             (RealTimeStats.accMag (currentStats s))
             (RealTimeStats.gyroMag (currentStats s))
             (locSpeed location) (locLatitude location)
             (locLongitude location)) s in
      let data :=
        mkData "gps" now (tripId s1) (currentLabel s1)
          None None None None None None None None
          (Some (locLatitude location)) (Some (locLongitude location))
          (Some (locSpeed location)) (Some (locAltitude location)) in
      (publishData data pahoThrows s1, [data])
  end.

(** What can happen to a collecting service of this version. *)
Inductive Event : Type :=
| SensorChanged (event : option SensorEvent) (now1 now2 : Z)
    (pahoThrows : option string)
| LocationResult (lastLocation : option Location) (now : Z)
    (pahoThrows : option string)
| ChangeLabel (newLabel : Z).

Definition handle (e : Event) (s : Service) : Result :=
  match e with
  | SensorChanged event now1 now2 pahoThrows =>
      onSensorChanged event now1 now2 pahoThrows s
  | LocationResult lastLocation now pahoThrows =>
      onLocationResult lastLocation now pahoThrows s
  | ChangeLabel newLabel => (Returned (set_currentLabel newLabel s), [])
  end.

(** A run of events, with all frames built; an uncaught exception ends
    the run. *)
Fixpoint run (evs : list Event) (s : Service) : Result :=
  match evs with
  | [] => (Returned s, [])
  | e :: rest =>
      match handle e s with
      | (Returned s1, f1) =>
          let (o, f2) := run rest s1 in (o, f1 ++ f2)
      | (Threw x s1, f1) => (Threw x s1, f1)
      end
  end.

End Pipeline.

(** The two clock readings of a sensor callback are times, and the
    second is not before the first. *)
Definition clockRuns (e : Event) : bool :=
  match e with
  | SensorChanged _ now1 now2 _ =>
      Long.isTime now1 && Long.isTime now2 && (now1 <=? now2)
  | _ => true
  end.

(** The time stamps of the frames of one sensor, in publish order. *)
Definition stamps (sensor : string) (fs : list TelematicsData) : list Z :=
  map timestamp (filter (fun f => String.eqb (eventType f) sensor) fs).

(** Each time stamp is more than [PUBLISH_INTERVAL_MS] after the one
    before it, the first one after [last]. *)
Fixpoint spacedFrom (last : Z) (l : list Z) : Prop :=
  match l with
  | [] => True
  | t :: rest => PUBLISH_INTERVAL_MS < t - last /\ spacedFrom t rest
  end.

(** What one event adds to the time stamps of a sensor, and where it
    leaves that sensor's publish time. *)
Definition stepsFrom (last : Z) (added : list Z) (last' : Z) : Prop :=
  (added = [] /\ last' = last) \/
  (added = [last'] /\ PUBLISH_INTERVAL_MS < last' - last /\
   Long.isTime last' = true).

(** The sensors whose readings this version takes in. *)
Definition isMotion (ty : Z) : bool :=
  (ty =? Sensor.TYPE_ACCELEROMETER) || (ty =? Sensor.TYPE_GYROSCOPE).

(** A reading the callbacks take in: a motion reading with its three
    components, or a position fix. *)
Definition accepted (e : Event) : bool :=
  match e with
  | SensorChanged (Some ev) _ _ _ =>
      isMotion (sensorType ev) && (3 <=? List.length (values ev))%nat
  | LocationResult (Some _) _ _ => true
  | _ => false
  end.

End PerReading.

(** ** The dashboard: [frontend/src/App.js]

    The handlers of the [telematics-update] events, as far as they work
    on plain arrays.  JavaScript numbers are IEEE-754 binary64. *)
Module Dashboard.

(** [Array.prototype.push] and [Array.prototype.shift]. *)
Definition push {A : Type} (x : A) (l : list A) : list A := l ++ [x].
Definition shift {A : Type} (l : list A) : list A := tl l.

(** The object [{ labels, accData, speedData }] kept for one chart. *)
Record Chart : Type := mkChart {
  labels : list string;
  accData : list F64.t;
  speedData : list F64.t
}.

(** [{ labels: [], accData: [], speedData: [] }]. *)
Definition emptyChart : Chart := mkChart [] [] [].

(** What the handler reads of one update for the chart: the formatted
    time [new Date(data.timestamp).toLocaleTimeString()], [data.accMag]
    and [data.speed]. *)
Record Point : Type := mkPoint {
  now : string;
  pointAccMag : F64.t;
  pointSpeed : F64.t
}.

(** [data.speed * 3.6]. *)
Definition kmh (speed : F64.t) : F64.t :=
  SFmul F64.prec F64.emax speed (F64.lit 36 10).

(** The three [push] calls, then the three [shift] calls when more than
    50 labels are held. *)
Definition addPoint (c : Chart) (p : Point) : Chart :=
  let labels1 := push (now p) (labels c) in
  let accData1 := push (pointAccMag p) (accData c) in
  let speedData1 := push (kmh (pointSpeed p)) (speedData c) in
  if (50 <? List.length labels1)%nat then
    mkChart (shift labels1) (shift accData1) (shift speedData1)
  else mkChart labels1 accData1 speedData1.

(** The last [n] elements of a list. *)
Definition lastN {A : Type} (n : nat) (l : list A) : list A :=
  skipn (List.length l - n) l.

(** A chart that holds the last 50 of the points [done]. *)
Definition windowOf (done : list Point) : Chart :=
  mkChart (lastN 50 (map now done))
          (lastN 50 (map pointAccMag done))
          (lastN 50 (map (fun p => kmh (pointSpeed p)) done)).

(** [predictionLabels[data.prediction]] for a [data.prediction] that is
    an integer, or is missing ([None]): a label for 0 to 5, undefined
    otherwise. *)
Definition predictionLabels (prediction : option Z) : option string :=
  match prediction with
  | Some 0 => Some "Normal"
  | Some 1 => Some "Harsh Braking"
  | Some 2 => Some "Harsh Cornering"
  | Some 3 => Some "Bump/Pothole"
  | Some 4 => Some "Accident"
  | Some 5 => Some "Phone Fall"
  | _ => None
  end%string.

(** [predictionLabels[data.prediction] || 'N/A']. *)
Definition newPrediction (prediction : option Z) : string :=
  match predictionLabels prediction with
  | Some l => l
  | None => "N/A"
  end.

(** [!['Normal', 'Buffering...', 'N/A'].includes(newPrediction)]. *)
Definition isSignificantEvent (newPrediction : string) : bool :=
  negb (existsb (String.eqb newPrediction) ["Normal"; "Buffering..."; "N/A"]%string).

(** One entry [{ event, time }] of the log. *)
Record LoggedEvent : Type := mkLogged { event : string; time : string }.

(** [previousPredictionRef.current] and the state [triggeredEvents]. *)
Record EventLog : Type := mkEventLog {
  previousPrediction : string;
  triggeredEvents : list LoggedEvent
}.

Definition initialLog : EventLog := mkEventLog "Initializing..." [].

(** The part of the handler that keeps the log, for an update with its
    [data.prediction] and the time [new Date().toLocaleTimeString()]. *)
Definition logUpdate (st : EventLog) (update : option Z * string) : EventLog :=
  let newPrediction := newPrediction (fst update) in
  let events :=
    if isSignificantEvent newPrediction &&
       negb (String.eqb newPrediction (previousPrediction st))
    then firstn 5 (mkLogged newPrediction (snd update) :: triggeredEvents st)
    else triggeredEvents st in
  mkEventLog newPrediction events.

End Dashboard.

(** ** More concrete sessions and readings *)

(** An accelerometer reading whose x component is a NaN, arriving
    after the first publish of [restingSession]. *)
Definition nanReading : Event :=
  accelEvent S754_nan F32.zero (F32.lit 98 10).

Definition afterNaN : DataCollectionService :=
  stateOf (fst (handle jsonStub nanReading restingSession)).





(** The transport of [restingSession], connected. *)
Definition connectedClient : MqttClient.t :=
  match mqttClient restingSession with
  | Some c => c
  | None => MqttClient.new
  end.

(** [offlineSession] in its process: one timer running, started in the
    foreground by one connect. *)
Definition offlineHost : Lifecycle.Host :=
  Lifecycle.mkHost offlineSession (Some 0%nat) [true] [] 0 true 1 0.

(** [restingSession] in its process, before any connection attempt. *)
Definition restingHost : Lifecycle.Host :=
  Lifecycle.mkHost restingSession None [] [] 0 false 0 0.

(** A phone on which the location permission is held and the
    notification permission is not. *)
Definition locationOnly (p : MainActivity.Permission) : bool :=
  match p with
  | MainActivity.ACCESS_FINE_LOCATION => true
  | MainActivity.POST_NOTIFICATIONS => false
  end.

(** A serializer of the first version's frames that accepts them all. *)
Definition jsonStub1 (d : PerReading.TelematicsData) : option string :=
  Some "{}"%string.

(** Three accelerometer readings 60 ms apart, each far from the one
    before. *)
Definition shakes : list PerReading.Event :=
  [ PerReading.SensorChanged
      (Some (mkSensorEvent Sensor.TYPE_ACCELEROMETER
               [F32.of_Z 1; F32.zero; F32.zero])) 1000 1000 None;
    PerReading.SensorChanged
      (Some (mkSensorEvent Sensor.TYPE_ACCELEROMETER
               [F32.of_Z 3; F32.zero; F32.zero])) 1060 1060 None;
    PerReading.SensorChanged
      (Some (mkSensorEvent Sensor.TYPE_ACCELEROMETER
               [F32.of_Z 5; F32.zero; F32.zero])) 1120 1121 None ].

(** * Properties *)

(** ** IEEE facts used by the gate *)

Section FloatFacts.

Variables prec emax : Z.

Lemma SFabs_binary_round_aux sx m e l :
  SFabs (binary_round_aux prec emax sx m e l) =
  binary_round_aux prec emax false m e l.
Proof.
  unfold binary_round_aux.
  destruct (shr_fexp prec emax m e l) as [mrs' e'].
  destruct (shr_fexp prec emax _ e' loc_Exact) as [mrs'' e''].
  destruct (shr_m mrs'') as [|p|p]; simpl; try reflexivity.
  destruct (e'' <=? emax - prec); reflexivity.
Qed.

Lemma SFabs_binary_round sx m e :
  SFabs (binary_round prec emax sx m e) = binary_round prec emax false m e.
Proof.
  unfold binary_round.
  destruct (shl_align m e _) as [mz ez].
  apply SFabs_binary_round_aux.
Qed.

Lemma SFabs_binary_normalize_opp m e :
  SFabs (binary_normalize prec emax (- m) e false) =
  SFabs (binary_normalize prec emax m e false).
Proof.
  destruct m as [|p|p]; simpl; try reflexivity;
    now rewrite !SFabs_binary_round.
Qed.

(** [|x - y| = |y - x|], bit for bit. *)
Lemma SFabs_SFsub_comm x y :
  SFabs (SFsub prec emax x y) = SFabs (SFsub prec emax y x).
Proof.
  destruct x as [sx|sx| |sx mx ex], y as [sy|sy| |sy my ey];
    try reflexivity;
    try (destruct sx, sy; reflexivity).
  unfold SFsub.
  rewrite (Z.min_comm ey ex).
  rewrite <- SFabs_binary_normalize_opp.
  f_equal. f_equal. lia.
Qed.

(** [x - x] is [+0], or a NaN when [x] is infinite or a NaN. *)
Lemma SFsub_diag x :
  SFsub prec emax x x = S754_zero false \/ SFsub prec emax x x = S754_nan.
Proof.
  destruct x as [s|s| |s m e].
  - left. destruct s; reflexivity.
  - right. destruct s; reflexivity.
  - right. reflexivity.
  - left. unfold SFsub. rewrite Z.sub_diag. reflexivity.
Qed.

Lemma SFabs_SFsub_zero_l s x :
  SFabs (SFsub prec emax (S754_zero s) x) = SFabs x.
Proof.
  destruct x as [sx|sx| |sx mx ex]; try reflexivity.
  destruct s, sx; reflexivity.
Qed.

End FloatFacts.

Lemma SFcompare_swap x y :
  SFcompare y x = option_map CompOpp (SFcompare x y).
Proof.
  destruct x as [sx|sx| |sx mx ex], y as [sy|sy| |sy my ey];
    try reflexivity;
    try (destruct sx; reflexivity);
    try (destruct sy; reflexivity);
    try (destruct sx, sy; reflexivity).
  simpl. destruct sx, sy; try reflexivity;
    rewrite (Z.compare_antisym ex ey);
    destruct (ex ?= ey); simpl; try reflexivity; f_equal.
  - rewrite CompOpp_involutive.
    exact (Pos.compare_cont_antisym my mx Eq).
  - symmetry. exact (Pos.compare_cont_antisym mx my Eq).
Qed.

Lemma SFeqb_sym x y : SFeqb x y = SFeqb y x.
Proof.
  unfold SFeqb. rewrite (SFcompare_swap x y).
  destruct (SFcompare x y) as [[ | | ]|]; reflexivity.
Qed.

(** IEEE equality is reflexive on everything but NaN. *)
Lemma SFeqb_refl x : x <> S754_nan -> SFeqb x x = true.
Proof.
  intros Hx. unfold SFeqb.
  destruct x as [s|s| |s m e]; try reflexivity.
  - destruct s; reflexivity.
  - contradiction.
  - simpl. rewrite Z.compare_refl.
    change (Pos.compare_cont Eq m m) with (Pos.compare m m).
    rewrite Pos.compare_refl. destruct s; reflexivity.
Qed.

(** The three constants are the binary32 values of [0.5f], [0.3f] and
    [0.05f]. *)
Lemma thresholds_are_literals :
  ACCEL_THRESHOLD = F32.lit 5 10 /\
  GYRO_THRESHOLD = F32.lit 3 10 /\
  ROT_VEC_THRESHOLD = F32.lit 5 100.
Proof. repeat split; vm_compute; reflexivity. Qed.

Lemma thresholds_nonNegative :
  nonNegative ACCEL_THRESHOLD /\ nonNegative GYRO_THRESHOLD /\
  nonNegative ROT_VEC_THRESHOLD.
Proof. repeat split; reflexivity. Qed.

(** An axis that has not moved never crosses a threshold, whatever its
    value (infinite and NaN included). *)
Lemma unchanged_axis_never_crosses thr x :
  nonNegative thr -> F32.gtb (F32.abs (F32.sub x x)) thr = false.
Proof.
  intros Hthr. unfold F32.gtb, F32.abs, F32.sub.
  destruct (SFsub_diag F32.prec F32.emax x) as [-> | ->]; simpl.
  - exact Hthr.
  - unfold SFltb. destruct thr; reflexivity.
Qed.

Lemma gtb_delta thr a b :
  F32.gtb (F32.abs (F32.sub a b)) thr = true <-> exceeds thr b a.
Proof.
  unfold exceeds, delta, F32.abs, F32.sub.
  now rewrite (SFabs_SFsub_comm F32.prec F32.emax a b).
Qed.

Lemma neqb_differs a b : F64.neqb a b = true <-> differs b a.
Proof.
  unfold F64.neqb, differs, F64.eqb.
  rewrite (SFeqb_sym a b). apply negb_true_iff.
Qed.

(** ** The gate *)

Lemma changedSince_crossings last live :
  changedSince last live = existsb (fun b : bool => b) (crossings last live).
Proof.
  unfold changedSince, crossings, existsb.
  rewrite orb_false_r. repeat rewrite <- orb_assoc. reflexivity.
Qed.

Lemma existsb_count (l : list bool) :
  existsb (fun b : bool => b) l =
  (0 <? List.length (filter (fun b : bool => b) l))%nat.
Proof.
  induction l as [|b l IH]; [reflexivity|].
  simpl. destruct b; simpl; [reflexivity | exact IH].
Qed.

Lemma hasStateChanged_count s :
  hasStateChanged s = (0 <? crossingCount s)%nat.
Proof.
  unfold hasStateChanged, crossingCount.
  rewrite changedSince_crossings. apply existsb_count.
Qed.

(** C1. The gate decision [hasStateChanged] depends on nothing but the
    live snapshot and the last published one (placing the two snapshots
    in any other service object gives the same answer), and it is true
    exactly when one of the independent channel predicates holds: some
    accelerometer axis moved by more than 0.5, or some gyroscope axis by
    more than 0.3, or some rotation-vector x/y/z axis by more than 0.05
    (absolute deltas), or latitude or longitude is not equal to the
    published one; any single predicate is enough. *)
Theorem hasStateChanged_shouldPublish (s other : DataCollectionService) :
  hasStateChanged
    (set_liveSensorState (liveSensorState s)
       (set_lastPublishedState (lastPublishedState s) other))
  = hasStateChanged s /\
  (hasStateChanged s = true <->
   shouldPublish (liveSensorState s) (lastPublishedState s)).
Proof.
  split; [reflexivity|].
  destruct thresholds_are_literals as (Ha & Hg & Hr).
  unfold hasStateChanged, changedSince, shouldPublish,
    accelExceeds, gyroExceeds, rotVecExceeds, positionDiffers.
  rewrite <- Ha, <- Hg, <- Hr.
  rewrite !orb_true_iff, !gtb_delta, !neqb_differs.
  tauto.
Qed.

(** ** The tick *)

Lemma copy_id (l : LiveSensorState.t) : LiveSensorState.copy l = l.
Proof. destruct l; reflexivity. Qed.

Section TickFacts.

Variable encodeToString : TelematicsData.t -> option string.

(** [publishData] touches the transport and nothing else. *)
Lemma publishData_frame data err s :
  let s' := stateOf (publishData encodeToString data err s) in
  dataSendTimer s' = dataSendTimer s /\
  tripId s' = tripId s /\
  currentLabel s' = currentLabel s /\
  liveSensorState s' = liveSensorState s /\
  lastPublishedState s' = lastPublishedState s /\
  statsFlow s' = statsFlow s /\
  isServiceRunningFlow s' = isServiceRunningFlow s.
Proof.
  unfold publishData.
  destruct (mqttClient s); [destruct (encodeToString data)|];
    simpl; repeat split.
Qed.

(** The tick when the gate is shut. *)
Lemma tick_gate_closed now err s :
  hasStateChanged s = false ->
  sendCombinedDataPacket encodeToString now err s
  = (Returned (updateStats (liveStats (liveSensorState s)) s), []).
Proof.
  intros H. unfold sendCombinedDataPacket. rewrite H. reflexivity.
Qed.

(** The tick when the gate is open. *)
Lemma tick_gate_open now err s :
  hasStateChanged s = true ->
  sendCombinedDataPacket encodeToString now err s
  = (match publishData encodeToString
             (builtFrame now (tripId s) (currentLabel s) (liveSensorState s)) err
             (set_lastPublishedState (liveSensorState s) s) with
     | Returned s1 =>
         Returned (updateStats (liveStats (liveSensorState s1)) s1)
     | Threw e s1 => Threw e s1
     end,
     [builtFrame now (tripId s) (currentLabel s) (liveSensorState s)]).
Proof.
  intros H. unfold sendCombinedDataPacket. rewrite H.
  cbn [lastPublishedState set_lastPublishedState tripId currentLabel].
  rewrite copy_id. unfold builtFrame, liveStats.
  destruct (publishData encodeToString _ err _); reflexivity.
Qed.

Lemma tick_lastPublished now err s :
  lastPublishedState
    (stateOf (fst (sendCombinedDataPacket encodeToString now err s)))
  = if hasStateChanged s then liveSensorState s else lastPublishedState s.
Proof.
  destruct (hasStateChanged s) eqn:Hgate.
  - rewrite (tick_gate_open now err s Hgate). cbn [fst].
    match goal with
    | |- context [publishData _ ?d ?e ?s0] =>
        destruct (publishData_frame d e s0) as (_ & _ & _ & _ & Hl & _);
        destruct (publishData encodeToString d e s0)
    end; cbn in Hl |- *; exact Hl.
  - rewrite (tick_gate_closed now err s Hgate). reflexivity.
Qed.

(** C2. On a tick whose gate is true (in particular whenever exactly
    one axis of one channel has crossed its threshold since the last
    publish, the gate being true as soon as at least one of the eleven
    comparisons is) the tick builds exactly one frame; its motion and
    position fields are those of the live snapshot, its magnitudes come
    from the same components, its time stamp, trip and label are the
    current ones, and [lastPublishedState] becomes that snapshot.  On a
    tick whose gate is false no frame is built and [lastPublishedState]
    stays as it was. *)
Theorem tick_one_frame_when_gated now err s :
  hasStateChanged s = (0 <? crossingCount s)%nat /\
  if hasStateChanged s then
    exists f,
      snd (sendCombinedDataPacket encodeToString now err s) = [f] /\
      copiedFrom f (liveSensorState s) /\
      TelematicsData.timestamp f = now /\
      TelematicsData.tripId f = tripId s /\
      TelematicsData.label f = currentLabel s /\
      lastPublishedState
        (stateOf (fst (sendCombinedDataPacket encodeToString now err s)))
      = liveSensorState s
  else
    snd (sendCombinedDataPacket encodeToString now err s) = [] /\
    lastPublishedState
      (stateOf (fst (sendCombinedDataPacket encodeToString now err s)))
    = lastPublishedState s.
Proof.
  split; [apply hasStateChanged_count|].
  pose proof (tick_lastPublished now err s) as Hlast.
  destruct (hasStateChanged s) eqn:Hgate.
  - exists (builtFrame now (tripId s) (currentLabel s) (liveSensorState s)).
    split; [rewrite (tick_gate_open now err s Hgate); reflexivity|].
    split; [unfold copiedFrom, builtFrame; cbn; repeat split|].
    repeat split. exact Hlast.
  - split; [rewrite (tick_gate_closed now err s Hgate); reflexivity|].
    exact Hlast.
Qed.


End TickFacts.


(** With latitude and longitude numbers, unchanged gate fields are what
    the gate takes for unchanged. *)
Lemma gateFieldsUnchanged_numbers live last :
  gateFieldsUnchanged live last ->
  F64.is_nan (LiveSensorState.latitude live) = false ->
  F64.is_nan (LiveSensorState.longitude live) = false ->
  sameMotionAndPosition live last.
Proof.
  intros (Hax & Hay & Haz & Hgx & Hgy & Hgz & Hrx & Hry & Hrz & Hlat & Hlon)
         Nlat Nlon.
  unfold sameMotionAndPosition. rewrite <- Hlat, <- Hlon.
  repeat (split; [assumption|]).
  unfold F64.eqb.
  split; apply SFeqb_refl; intros E; rewrite E in *; discriminate.
Qed.


(** ** The first tick of a session *)

Lemma hasStateChanged_from_baseline s :
  lastPublishedState s = LiveSensorState.default ->
  hasStateChanged s = offBaseline (liveSensorState s).
Proof.
  intros H. unfold hasStateChanged, changedSince, offBaseline.
  rewrite H. cbn [LiveSensorState.default LiveSensorState.accX
    LiveSensorState.accY LiveSensorState.accZ LiveSensorState.gyroX
    LiveSensorState.gyroY LiveSensorState.gyroZ LiveSensorState.rotVecX
    LiveSensorState.rotVecY LiveSensorState.rotVecZ
    LiveSensorState.latitude LiveSensorState.longitude].
  unfold F32.abs, F32.sub, F32.zero.
  rewrite !SFabs_SFsub_zero_l.
  repeat rewrite <- orb_assoc. reflexivity.
Qed.

Lemma onSensorChanged_lastPublished event s :
  lastPublishedState (stateOf (onSensorChanged event s)) = lastPublishedState s.
Proof.
  unfold onSensorChanged. destruct event as [ev|]; [|reflexivity].
  match goal with |- context [match ?b (liveSensorState s) with _ => _ end] =>
    destruct (b (liveSensorState s)) end; reflexivity.
Qed.

Section SessionFacts.

Variable encodeToString : TelematicsData.t -> option string.

(** Ingestors and label changes build no frame and never write
    [lastPublishedState]. *)
Lemma handle_not_tick e s :
  isTick e = false ->
  snd (handle encodeToString e s) = [] /\
  lastPublishedState (stateOf (fst (handle encodeToString e s)))
  = lastPublishedState s.
Proof.
  destruct e as [event|loc|now err|l]; intros H; try discriminate; simpl.
  - split; [reflexivity | apply onSensorChanged_lastPublished].
  - split; [reflexivity|]. destruct loc; reflexivity.
  - split; reflexivity.
Qed.

Lemma run_before_first_tick pre : forall s o fs,
  forallb (fun e => negb (isTick e)) pre = true ->
  run encodeToString pre s = (o, fs) ->
  fs = [] /\ lastPublishedState (stateOf o) = lastPublishedState s.
Proof.
  induction pre as [|e pre IH]; intros s o fs Hpre Hrun; simpl in *.
  - inversion Hrun; subst. split; reflexivity.
  - apply andb_true_iff in Hpre as [He Hpre].
    apply negb_true_iff in He.
    destruct (handle_not_tick e s He) as [Hf Hl].
    destruct (handle encodeToString e s) as [[s1|x s1] f1]; simpl in *; subst f1.
    + destruct (run encodeToString pre s1) as [o2 f2] eqn:Hrest.
      injection Hrun as Ho Hf. subst o2 fs.
      destruct (IH s1 o f2 Hpre Hrest) as [-> Hl2].
      split; [reflexivity | congruence].
    + inversion Hrun; subst. split; [reflexivity | exact Hl].
Qed.

(** C3, as the code has it.  Whatever readings arrive between the start
    of a session and its first tick, [lastPublishedState] is still the
    all-zero/identity default at that tick, no frame has been built
    before it, and the first tick builds one frame exactly when the live
    state is off the baseline: some motion axis beyond its threshold in
    absolute value, or latitude or longitude not zero.  Otherwise it
    builds none. *)
Theorem first_tick_publishes_iff_off_baseline trip pre s fs now err :
  forallb (fun e => negb (isTick e)) pre = true ->
  run encodeToString pre (startSession trip) = (Returned s, fs) ->
  fs = [] /\
  lastPublishedState s = LiveSensorState.default /\
  List.length (snd (sendCombinedDataPacket encodeToString now err s))
  = (if offBaseline (liveSensorState s) then 1 else 0)%nat.
Proof.
  intros Hpre Hrun.
  destruct (run_before_first_tick pre _ _ _ Hpre Hrun) as [Hfs Hlast].
  simpl in Hlast.
  split; [exact Hfs|]. split; [exact Hlast|].
  rewrite <- (hasStateChanged_from_baseline s Hlast).
  destruct (hasStateChanged s) eqn:Hgate.
  - rewrite (tick_gate_open encodeToString now err s Hgate). reflexivity.
  - rewrite (tick_gate_closed encodeToString now err s Hgate). reflexivity.
Qed.

End SessionFacts.

(** C3, counterexample.  A session whose first tick fires before any
    reading has arrived (the timer is scheduled with no delay): live and
    last published state are both the default, and the tick builds no
    frame and hands nothing to the transport. *)
Lemma first_tick_without_readings_publishes_nothing :
  liveSensorState (startSession "trip") = LiveSensorState.default /\
  lastPublishedState (startSession "trip") = LiveSensorState.default /\
  hasStateChanged (startSession "trip") = false /\
  snd (sendCombinedDataPacket jsonStub 0 None (startSession "trip")) = [] /\
  option_map MqttClient.published
    (mqttClient
       (stateOf (fst (sendCombinedDataPacket jsonStub 0 None (startSession "trip")))))
  = Some [].
Proof. vm_compute. repeat split. Qed.

Lemma first_tick_publishes_iff_off_baseline_witness :
  forallb (fun e => negb (isTick e)) [atRest] = true /\
  run jsonStub [atRest] (startSession "trip") = (Returned firstReading, []) /\
  List.length (snd (sendCombinedDataPacket jsonStub 0 None firstReading)) = 1%nat.
Proof.
  assert (Hpre : forallb (fun e => negb (isTick e)) [atRest] = true)
    by reflexivity.
  assert (Hrun : run jsonStub [atRest] (startSession "trip")
                 = (Returned firstReading, [])) by reflexivity.
  split; [exact Hpre|]. split; [exact Hrun|].
  destruct (first_tick_publishes_iff_off_baseline jsonStub "trip" [atRest]
              firstReading [] 0 None Hpre Hrun) as (_ & _ & H).
  rewrite H. reflexivity.
Defined.

(** ** Runs that stay close to the last published state *)

Lemma changedSince_false last live :
  changedSince last live = false <-> axesQuiet last live.
Proof.
  unfold changedSince, axesQuiet. rewrite !orb_false_iff. tauto.
Qed.

Lemma within_quiet thr a b :
  within thr a b = true -> F32.gtb (F32.abs (F32.sub a b)) thr = false.
Proof. unfold within. apply negb_true_iff. Qed.

Lemma eqb_quiet a b : F64.eqb a b = true -> F64.neqb a b = false.
Proof. unfold F64.neqb, F64.eqb. intros ->. reflexivity. Qed.

Ltac quiet_axes :=
  repeat match goal with
         | |- _ /\ _ => split
         | |- _ => assumption
         | |- _ => apply within_quiet; assumption
         | |- _ => apply eqb_quiet; assumption
         end.

Section QuietRuns.

Variable encodeToString : TelematicsData.t -> option string.

(** One event that stays within threshold of the published state [P]
    keeps the gate shut. *)
Lemma step_within P e s :
  readingWithin P e = true ->
  lastPublishedState s = P ->
  hasStateChanged s = false ->
  exists s',
    handle encodeToString e s = (Returned s', []) /\
    lastPublishedState s' = P /\
    hasStateChanged s' = false.
Proof.
  intros Hw HP Hg.
  assert (Hq : axesQuiet P (liveSensorState s)).
  { apply changedSince_false. rewrite <- HP. exact Hg. }
  destruct Hq as (Q1 & Q2 & Q3 & Q4 & Q5 & Q6 & Q7 & Q8 & Q9 & Q10 & Q11).
  destruct e as [[[ty vals]|]|[loc|]|now err|l].
  - (* a sensor reading *)
    unfold handle, onSensorChanged.
    cbn [readingWithin sensorType values] in *.
    destruct (ty =? Sensor.TYPE_ACCELEROMETER);
      [|destruct (ty =? Sensor.TYPE_GYROSCOPE);
        [|destruct (ty =? Sensor.TYPE_ROTATION_VECTOR)]].
    + destruct vals as [|x [|y [|z rest]]]; try discriminate.
      apply andb_true_iff in Hw as [Hw Hz].
      apply andb_true_iff in Hw as [Hx Hy].
      eexists. split; [reflexivity|]. split; [exact HP|].
      unfold hasStateChanged. apply changedSince_false.
      cbn. rewrite HP. unfold axesQuiet. cbn. quiet_axes.
    + destruct vals as [|x [|y [|z rest]]]; try discriminate.
      apply andb_true_iff in Hw as [Hw Hz].
      apply andb_true_iff in Hw as [Hx Hy].
      eexists. split; [reflexivity|]. split; [exact HP|].
      unfold hasStateChanged. apply changedSince_false.
      cbn. rewrite HP. unfold axesQuiet. cbn. quiet_axes.
    + destruct vals as [|x [|y [|z [|w rest]]]]; try discriminate.
      apply andb_true_iff in Hw as [Hw Hz].
      apply andb_true_iff in Hw as [Hx Hy].
      eexists. split; [reflexivity|]. split; [exact HP|].
      unfold hasStateChanged. apply changedSince_false.
      cbn. rewrite HP. unfold axesQuiet. cbn. quiet_axes.
    + exists s. split; [destruct s; reflexivity|]. split; assumption.
  - exists s. split; [reflexivity|]. split; assumption.
  - (* a position fix *)
    cbn [readingWithin] in Hw.
    apply andb_true_iff in Hw as [Hlat Hlon].
    eexists. split; [reflexivity|]. split; [exact HP|].
    unfold hasStateChanged. apply changedSince_false.
    cbn. rewrite HP. unfold axesQuiet. cbn. quiet_axes.
  - exists s. split; [reflexivity|]. split; assumption.
  - (* a tick *)
    unfold handle. rewrite (tick_gate_closed encodeToString now err s Hg).
    eexists. split; [reflexivity|]. split; assumption.
  - eexists. split; [reflexivity|]. split; assumption.
Qed.

Lemma run_within P evs : forall s,
  forallb (readingWithin P) evs = true ->
  lastPublishedState s = P ->
  hasStateChanged s = false ->
  exists s2,
    run encodeToString evs s = (Returned s2, []) /\
    lastPublishedState s2 = P /\
    hasStateChanged s2 = false.
Proof.
  induction evs as [|e evs IH]; intros s Hall HP Hg.
  - exists s. repeat split; assumption.
  - simpl in Hall. apply andb_true_iff in Hall as [He Hall].
    destruct (step_within P e s He HP Hg) as (s1 & Hstep & HP1 & Hg1).
    destruct (IH s1 Hall HP1 Hg1) as (s2 & Hrun & HP2 & Hg2).
    exists s2. simpl. rewrite Hstep, Hrun. repeat split; assumption.
Qed.

(** Once a tick is over the gate is shut again, as long as the position
    is a number. *)
Lemma gate_closed_after_tick now err s :
  F64.is_nan (LiveSensorState.latitude (liveSensorState s)) = false ->
  F64.is_nan (LiveSensorState.longitude (liveSensorState s)) = false ->
  hasStateChanged
    (stateOf (fst (sendCombinedDataPacket encodeToString now err s))) = false.
Proof.
  intros Hlat Hlon.
  pose proof (tick_lastPublished encodeToString now err s) as Hlast.
  destruct (hasStateChanged s) eqn:Hgate.
  - unfold hasStateChanged. rewrite Hlast.
    assert (Hlive : liveSensorState
                      (stateOf (fst (sendCombinedDataPacket encodeToString now err s)))
                    = liveSensorState s).
    { rewrite (tick_gate_open encodeToString now err s Hgate). cbn [fst].
      match goal with
      | |- context [publishData _ ?d ?e ?s0] =>
          destruct (publishData_frame encodeToString d e s0)
            as (_ & _ & _ & Hl & _);
          destruct (publishData encodeToString d e s0)
      end; cbn in Hl |- *; exact Hl. }
    rewrite Hlive.
    destruct thresholds_nonNegative as (Na & Ng & Nr).
    apply changedSince_false. unfold axesQuiet.
    rewrite !unchanged_axis_never_crosses by assumption.
    unfold F64.neqb.
    rewrite !SFeqb_refl;
      [repeat split | | ];
      intros E; rewrite E in *; discriminate.
  - rewrite (tick_gate_closed encodeToString now err s Hgate). exact Hgate.
Qed.

(** C4, as the code has it.  After a tick, take any run of readings on
    one channel, with ticks and label changes in between, in which every
    reading stays within its channel's threshold of the last published
    value (for a position fix: latitude and longitude equal to the
    published ones).  The run ends normally, not a single frame is
    built, and [lastPublishedState] does not move. *)
Theorem no_publish_while_within_last_published c evs now err s0 :
  F64.is_nan (LiveSensorState.latitude (liveSensorState s0)) = false ->
  F64.is_nan (LiveSensorState.longitude (liveSensorState s0)) = false ->
  forallb (onChannel c) evs = true ->
  forallb
    (readingWithin
       (lastPublishedState
          (stateOf (fst (sendCombinedDataPacket encodeToString now err s0)))))
    evs = true ->
  exists s2,
    run encodeToString evs
      (stateOf (fst (sendCombinedDataPacket encodeToString now err s0)))
    = (Returned s2, []) /\
    lastPublishedState s2
    = lastPublishedState
        (stateOf (fst (sendCombinedDataPacket encodeToString now err s0))).
Proof.
  intros Hlat Hlon _ Hall.
  destruct (run_within _ evs _ Hall eq_refl
              (gate_closed_after_tick now err s0 Hlat Hlon))
    as (s2 & Hrun & HP & _).
  exists s2. split; assumption.
Qed.

End QuietRuns.

(** C4, counterexample.  The accelerometer reports z = 9.8, the first
    tick publishes it, then z = 10.2 and z = 10.6 arrive, a tick after
    each.  Each reading is within 0.5 of the one before it and no other
    channel moves, yet the second of these ticks publishes a frame: the
    gate measures the distance to the last published value, 0.8 by
    then. *)
Lemma drift_within_successive_deltas_publishes :
  sendCombinedDataPacket jsonStub 0 None firstReading
  = (Returned restingSession,
     [builtFrame 0 "trip" 0 (liveSensorState firstReading)]) /\
  forallb (onChannel Accelerometer) driftingRun = true /\
  successiveWithin driftingRun restingSession = true /\
  List.length (snd (run jsonStub driftingRun restingSession)) = 1%nat.
Proof. vm_compute. repeat split. Qed.

Lemma no_publish_while_within_last_published_witness :
  F64.is_nan (LiveSensorState.latitude (liveSensorState firstReading)) = false /\
  F64.is_nan (LiveSensorState.longitude (liveSensorState firstReading)) = false /\
  forallb (onChannel Accelerometer) [drift1; TimerTick 100 None] = true /\
  forallb
    (readingWithin
       (lastPublishedState
          (stateOf (fst (sendCombinedDataPacket jsonStub 0 None firstReading)))))
    [drift1; TimerTick 100 None] = true /\
  exists s2,
    run jsonStub [drift1; TimerTick 100 None]
      (stateOf (fst (sendCombinedDataPacket jsonStub 0 None firstReading)))
    = (Returned s2, []) /\
    lastPublishedState s2
    = lastPublishedState
        (stateOf (fst (sendCombinedDataPacket jsonStub 0 None firstReading))).
Proof.
  assert (H1 : F64.is_nan (LiveSensorState.latitude (liveSensorState firstReading)) = false)
    by reflexivity.
  assert (H2 : F64.is_nan (LiveSensorState.longitude (liveSensorState firstReading)) = false)
    by reflexivity.
  assert (H3 : forallb (onChannel Accelerometer) [drift1; TimerTick 100 None] = true)
    by reflexivity.
  assert (H4 : forallb
                 (readingWithin
                    (lastPublishedState
                       (stateOf (fst (sendCombinedDataPacket jsonStub 0 None firstReading)))))
                 [drift1; TimerTick 100 None] = true)
    by (vm_compute; reflexivity).
  repeat (split; [assumption|]).
  exact (no_publish_while_within_last_published jsonStub Accelerometer
           [drift1; TimerTick 100 None] 0 None firstReading H1 H2 H3 H4).
Defined.

(** ** What local observers receive *)

Lemma onSensorChanged_statsFlow event s :
  statsFlow (stateOf (onSensorChanged event s)) = statsFlow s.
Proof.
  unfold onSensorChanged. destruct event as [ev|]; [|reflexivity].
  match goal with |- context [match ?b (liveSensorState s) with _ => _ end] =>
    destruct (b (liveSensorState s)) end; reflexivity.
Qed.

(** C5, as the code has it.  A tick that runs to its end hands exactly
    one statistics record to the local observers, computed from the live
    state of that tick (both magnitudes, speed, latitude, longitude),
    whether the gate passes or not; the only tick that does not reach
    that point is one whose gated frame the serializer refuses.  A
    sensor or location reading written into the live state hands the
    observers nothing. *)
Theorem stats_emitted_once_per_tick
    (encodeToString : TelematicsData.t -> option string)
    now err s event lastLocation :
  hasThrown (fst (sendCombinedDataPacket encodeToString now err s))
  = hasStateChanged s && refusedBy encodeToString now s /\
  statsFlow (stateOf (fst (sendCombinedDataPacket encodeToString now err s)))
  = (if hasStateChanged s && refusedBy encodeToString now s
     then statsFlow s
     else statsFlow s ++ [liveStats (liveSensorState s)]) /\
  statsFlow (stateOf (onSensorChanged event s)) = statsFlow s /\
  statsFlow (onLocationResult lastLocation s) = statsFlow s.
Proof.
  assert (Htick :
    hasThrown (fst (sendCombinedDataPacket encodeToString now err s))
    = hasStateChanged s && refusedBy encodeToString now s /\
    statsFlow (stateOf (fst (sendCombinedDataPacket encodeToString now err s)))
    = (if hasStateChanged s && refusedBy encodeToString now s
       then statsFlow s
       else statsFlow s ++ [liveStats (liveSensorState s)])).
  { destruct (hasStateChanged s) eqn:Hgate.
    - rewrite (tick_gate_open encodeToString now err s Hgate).
      unfold refusedBy, publishData.
      cbn [fst mqttClient set_lastPublishedState].
      destruct (mqttClient s) as [client|]; [|split; reflexivity].
      destruct (encodeToString _); split; reflexivity.
    - rewrite (tick_gate_closed encodeToString now err s Hgate).
      split; reflexivity. }
  destruct Htick as [Hthrown Hstats].
  split; [exact Hthrown|]. split; [exact Hstats|].
  split; [apply onSensorChanged_statsFlow|].
  destruct lastLocation; reflexivity.
Qed.

(** C5, counterexample.  The first accelerometer reading of a session
    is accepted and changes the live state, and nothing is handed to
    the local observers; a position fix behaves the same way. *)
Lemma sensor_mutation_emits_nothing :
  handle jsonStub atRest (startSession "trip") = (Returned firstReading, []) /\
  liveSensorState firstReading <> liveSensorState (startSession "trip") /\
  statsFlow firstReading = [] /\
  liveSensorState cruisingSession <> liveSensorState restingSession /\
  statsFlow cruisingSession = statsFlow restingSession.
Proof.
  repeat split; try reflexivity; vm_compute; discriminate.
Qed.

(** ** The motion ingestor *)

(** C6, as the code has it.  A null callback is dropped without a
    write; a reading that carries the components its channel needs
    (three for the accelerometer and the gyroscope, four for the
    rotation vector) is applied as one complete update of that
    channel's fields and of no other field; a reading of any other
    sensor changes nothing.  In all these cases the callback returns. *)
Theorem onSensorChanged_applies_or_discards event s :
  wellFormed event ->
  appliedOrDiscarded event s /\
  hasThrown (onSensorChanged event s) = false /\
  (forall ev, event = Some ev ->
              channelUpdate ev (liveSensorState s) <> None).
Proof.
  intros Hwf.
  destruct event as [[ty vals]|]; cbn in Hwf.
  - assert (Hcases :
      exists l, channelUpdate (mkSensorEvent ty vals) (liveSensorState s) = Some l /\
                onSensorChanged (Some (mkSensorEvent ty vals)) s
                = Returned (set_liveSensorState l s)).
    { unfold requiredComponents in Hwf.
      unfold channelUpdate, onSensorChanged. cbn [sensorType values].
      destruct (ty =? Sensor.TYPE_ACCELEROMETER);
        [|destruct (ty =? Sensor.TYPE_GYROSCOPE);
          [|destruct (ty =? Sensor.TYPE_ROTATION_VECTOR)]].
      - destruct vals as [|x [|y [|z rest]]]; cbn in Hwf; try lia.
        eexists. split; reflexivity.
      - destruct vals as [|x [|y [|z rest]]]; cbn in Hwf; try lia.
        eexists. split; reflexivity.
      - destruct vals as [|x [|y [|z [|w rest]]]]; cbn in Hwf; try lia.
        eexists. split; reflexivity.
      - eexists. split; reflexivity. }
    destruct Hcases as (l & Hupd & Hres).
    split; [|split].
    + unfold appliedOrDiscarded. rewrite Hupd. exact Hres.
    + rewrite Hres. reflexivity.
    + intros ev Hev. injection Hev as <-. rewrite Hupd. discriminate.
  - split; [reflexivity|]. split; [reflexivity|]. intros ev Hev. discriminate.
Qed.

(** C6, counterexample.  An accelerometer callback whose array holds two
    components: the x and y fields are overwritten, then reading the
    third component throws out of the callback; z keeps its old value.
    The reading is neither applied in full nor discarded. *)
Lemma short_reading_half_written_then_throws :
  hasThrown (onSensorChanged (Some shortAccel) (startSession "trip")) = true /\
  LiveSensorState.accX
    (liveSensorState (stateOf (onSensorChanged (Some shortAccel) (startSession "trip"))))
  = F32.of_Z 1 /\
  LiveSensorState.accY
    (liveSensorState (stateOf (onSensorChanged (Some shortAccel) (startSession "trip"))))
  = F32.of_Z 2 /\
  LiveSensorState.accZ
    (liveSensorState (stateOf (onSensorChanged (Some shortAccel) (startSession "trip"))))
  = LiveSensorState.accZ (liveSensorState (startSession "trip")) /\
  ~ appliedOrDiscarded (Some shortAccel) (startSession "trip").
Proof.
  repeat split; try reflexivity.
  vm_compute. discriminate.
Qed.

Lemma onSensorChanged_applies_or_discards_witness :
  wellFormed (Some (mkSensorEvent Sensor.TYPE_ROTATION_VECTOR
                      [F32.zero; F32.zero; F32.lit 7 10; F32.lit 7 10])) /\
  hasThrown
    (onSensorChanged
       (Some (mkSensorEvent Sensor.TYPE_ROTATION_VECTOR
                [F32.zero; F32.zero; F32.lit 7 10; F32.lit 7 10]))
       (startSession "trip")) = false.
Proof.
  assert (H : wellFormed (Some (mkSensorEvent Sensor.TYPE_ROTATION_VECTOR
                      [F32.zero; F32.zero; F32.lit 7 10; F32.lit 7 10]))).
  { cbn. lia. }
  split; [exact H|].
  exact (proj1 (proj2 (onSensorChanged_applies_or_discards _ (startSession "trip") H))).
Defined.

(** ** The transport *)

Lemma deliver_ready ev c :
  MqttClient.callbackSet c = true ->
  MqttClient.readyCount (snd (MqttClient.deliver ev c))
  = (if MqttClient.isConnectComplete ev then 1 else 0)%nat /\
  MqttClient.connectRequests (fst (MqttClient.deliver ev c))
  = MqttClient.connectRequests c /\
  MqttClient.callbackSet (fst (MqttClient.deliver ev c)) = true.
Proof.
  intros H. destruct ev; simpl; rewrite ?H; repeat split; assumption.
Qed.

Lemma readyCount_app a b :
  MqttClient.readyCount (a ++ b)
  = (MqttClient.readyCount a + MqttClient.readyCount b)%nat.
Proof.
  unfold MqttClient.readyCount. now rewrite filter_app, length_app.
Qed.

Lemma deliverAll_ready evs : forall c,
  MqttClient.callbackSet c = true ->
  MqttClient.readyCount (snd (MqttClient.deliverAll evs c))
  = List.length (filter MqttClient.isConnectComplete evs) /\
  MqttClient.connectRequests (fst (MqttClient.deliverAll evs c))
  = MqttClient.connectRequests c.
Proof.
  induction evs as [|ev evs IH]; intros c Hcb.
  - split; reflexivity.
  - simpl.
    destruct (deliver_ready ev c Hcb) as (Hr & Hc & Hcb1).
    destruct (MqttClient.deliver ev c) as [c1 n1]; simpl in Hr, Hc, Hcb1.
    destruct (IH c1 Hcb1) as [IHr IHc].
    destruct (MqttClient.deliverAll evs c1) as [c2 n2]; simpl in IHr, IHc.
    simpl. rewrite readyCount_app, Hr, IHr, IHc, Hc.
    split; [|reflexivity].
    destruct (MqttClient.isConnectComplete ev); reflexivity.
Qed.

(** C7, as the code has it.  Calling [connect] on a connected client
    signals ready once, at once, and changes nothing (no callback
    installed, no connect request made).  Calling it on a disconnected
    client signals no readiness by itself and makes one connect request:
    from then on ready is signalled by the [connectComplete] callback,
    once for every completed connection that Paho reports, the first
    one and every automatic reconnect alike, and none of these makes a
    further connect request. *)
Theorem ready_once_per_completed_connection err evs c :
  MqttClient.connect err (MqttClient.setConnected true c)
  = (MqttClient.setConnected true c, [MqttClient.Ready]) /\
  MqttClient.readyCount
    (snd (MqttClient.connect err (MqttClient.setConnected false c))) = 0%nat /\
  MqttClient.readyCount
    (snd (MqttClient.deliverAll evs
            (fst (MqttClient.connect None (MqttClient.setConnected false c)))))
  = List.length (filter MqttClient.isConnectComplete evs) /\
  MqttClient.connectRequests
    (fst (MqttClient.deliverAll evs
            (fst (MqttClient.connect None (MqttClient.setConnected false c)))))
  = S (MqttClient.connectRequests c).
Proof.
  split; [reflexivity|]. split; [destruct err; reflexivity|].
  destruct (deliverAll_ready evs
              (fst (MqttClient.connect None (MqttClient.setConnected false c)))
              eq_refl) as [Hr Hc].
  split; [exact Hr | exact Hc].
Qed.

(** C7, counterexample.  One [connect] on a fresh client makes one
    connect request and signals nothing by itself.  Paho then completes
    the connection, loses it, and reconnects on its own: the caller's
    ready callback has run twice for that single attempt. *)
Lemma ready_signalled_again_on_reconnect :
  MqttClient.connect None MqttClient.new
  = (MqttClient.pahoConnect (MqttClient.setCallback MqttClient.new), []) /\
  MqttClient.pahoRun reconnectRun = true /\
  snd (MqttClient.deliverAll reconnectRun
         (fst (MqttClient.connect None MqttClient.new)))
  = [MqttClient.Ready; MqttClient.Ready] /\
  MqttClient.connectRequests
    (fst (MqttClient.deliverAll reconnectRun
            (fst (MqttClient.connect None MqttClient.new)))) = 1%nat.
Proof. repeat split. Qed.

Section TransportDown.

Variable encodeToString : TelematicsData.t -> option string.


End TransportDown.


(** ** The magnitudes of a frame *)

(** [magnitude] squares, adds and takes a root in floating point.  The
    error of each operation is bounded first on the integer mantissas
    that [SpecFloat] computes with, then carried over to the reals, and
    at last composed along [sqrt (x*x + y*y + z*z)]. *)

(** *** Rounding, on integers *)

Lemma digits2_pos_bounds (m : positive) :
  2 ^ (Z.pos (digits2_pos m) - 1) <= Z.pos m < 2 ^ Z.pos (digits2_pos m).
Proof.
  induction m as [m IH|m IH|]; cbn [digits2_pos].
  - rewrite Pos2Z.inj_succ.
    replace (Z.succ (Z.pos (digits2_pos m)) - 1) with (Z.succ (Z.pos (digits2_pos m) - 1)) by lia.
    rewrite !Z.pow_succ_r by lia. lia.
  - rewrite Pos2Z.inj_succ.
    replace (Z.succ (Z.pos (digits2_pos m)) - 1) with (Z.succ (Z.pos (digits2_pos m) - 1)) by lia.
    rewrite !Z.pow_succ_r by lia. lia.
  - cbn. lia.
Qed.

(** The number of digits is determined by the two powers around. *)
Lemma digits2_pos_unique (m : positive) (d : Z) :
  2 ^ (d - 1) <= Z.pos m < 2 ^ d -> 0 < d -> Z.pos (digits2_pos m) = d.
Proof.
  intros [Hlo Hhi] Hd.
  destruct (digits2_pos_bounds m) as [Blo Bhi].
  assert (H1 : d - 1 < Z.pos (digits2_pos m)).
  { apply (Z.pow_lt_mono_r_iff 2); lia. }
  assert (H2 : Z.pos (digits2_pos m) - 1 < d).
  { apply (Z.pow_lt_mono_r_iff 2); lia. }
  lia.
Qed.

Lemma shr_1_m mrs : 0 <= shr_m mrs -> shr_m (shr_1 mrs) = shr_m mrs / 2.
Proof.
  destruct mrs as [m r s]. cbn [shr_m].
  intros Hm. destruct m as [|p|p]; [reflexivity| |lia].
  destruct p as [p|p|]; cbn [shr_1 shr_m].
  - rewrite Pos2Z.inj_xI. apply Z.div_unique with 1; lia.
  - rewrite Pos2Z.inj_xO. apply Z.div_unique with 0; lia.
  - reflexivity.
Qed.

Lemma pow2_xI (n : positive) : 2 ^ Z.pos n~1 = 2 * 2 ^ Z.pos n * 2 ^ Z.pos n.
Proof.
  replace (Z.pos n~1) with (Z.pos n + Z.pos n + 1) by lia.
  rewrite !Z.pow_add_r by lia. change (2 ^ 1) with 2. ring.
Qed.

Lemma pow2_xO (n : positive) : 2 ^ Z.pos n~0 = 2 ^ Z.pos n * 2 ^ Z.pos n.
Proof.
  replace (Z.pos n~0) with (Z.pos n + Z.pos n) by lia.
  rewrite !Z.pow_add_r by lia. ring.
Qed.

Lemma iter_pos_shr_m (n : positive) : forall mrs,
  0 <= shr_m mrs ->
  shr_m (iter_pos shr_1 n mrs) = shr_m mrs / 2 ^ Z.pos n.
Proof.
  induction n as [n IH|n IH|]; intros mrs Hm; cbn [iter_pos].
  - assert (H1 : 0 <= shr_m (shr_1 mrs)).
    { rewrite shr_1_m by assumption. apply Z.div_pos; lia. }
    assert (H2 : 0 <= shr_m (iter_pos shr_1 n (shr_1 mrs))).
    { rewrite IH by assumption. apply Z.div_pos; lia. }
    rewrite IH by assumption. rewrite IH by assumption.
    rewrite shr_1_m by assumption.
    rewrite !Z.div_div by lia.
    rewrite pow2_xI. f_equal. ring.
  - assert (H2 : 0 <= shr_m (iter_pos shr_1 n mrs)).
    { rewrite IH by assumption. apply Z.div_pos; lia. }
    rewrite IH by assumption. rewrite IH by assumption.
    rewrite !Z.div_div by lia.
    rewrite pow2_xO. f_equal.
  - rewrite shr_1_m by assumption. reflexivity.
Qed.

Lemma loc_of_shr_record_of_loc m l :
  loc_of_shr_record (shr_record_of_loc m l) = l.
Proof. destruct l as [|[ | | ]]; reflexivity. Qed.

Lemma shr_m_shr_record_of_loc m l : shr_m (shr_record_of_loc m l) = m.
Proof. destruct l as [|[ | | ]]; reflexivity. Qed.

Lemma round_nearest_even_bounds m l :
  m <= round_nearest_even m l <= m + 1.
Proof.
  destruct l as [|[ | | ]]; cbn [round_nearest_even]; try lia.
  destruct (Z.even m); lia.
Qed.

Lemma shr_spec mrs e n :
  0 <= shr_m mrs ->
  shr_m (fst (shr mrs e n)) = shr_m mrs / 2 ^ Z.max 0 n /\
  snd (shr mrs e n) = e + Z.max 0 n /\
  (n <= 0 -> fst (shr mrs e n) = mrs).
Proof.
  intros Hm. destruct n as [|p|p]; cbn [shr fst snd].
  - rewrite Z.div_1_r. repeat split; lia.
  - rewrite iter_pos_shr_m by assumption.
    replace (Z.max 0 (Z.pos p)) with (Z.pos p) by lia.
    repeat split; lia.
  - replace (Z.max 0 (Z.neg p)) with 0 by lia.
    rewrite Z.div_1_r. repeat split; lia.
Qed.

Section Round.

Variables prec emax : Z.
Hypothesis Hprec : 0 < prec.

Lemma fexp_normal x :
  emin prec emax <= x - prec -> fexp prec emax x = x - prec.
Proof. unfold fexp. lia. Qed.

Lemma Zdigits2_bounds m :
  0 < m -> 0 < Zdigits2 m /\ 2 ^ (Zdigits2 m - 1) <= m < 2 ^ Zdigits2 m.
Proof.
  destruct m as [|p|p]; try lia. intros _. cbn [Zdigits2].
  split; [lia | apply digits2_pos_bounds].
Qed.

Lemma Zdigits2_lower m k : 0 < m -> 2 ^ k <= m -> k < Zdigits2 m.
Proof.
  intros Hm Hk. destruct (Zdigits2_bounds m Hm) as [Hd [_ Hhi]].
  destruct (Z_lt_le_dec k 0) as [|Hk0]; [lia|].
  apply (Z.pow_lt_mono_r_iff 2); lia.
Qed.

Lemma Zdigits2_upper m k : 0 < m -> m < 2 ^ k -> 0 <= k -> Zdigits2 m <= k.
Proof.
  intros Hm Hk Hk0. destruct (Zdigits2_bounds m Hm) as [Hd [Hlo _]].
  assert (Zdigits2 m - 1 < k); [|lia].
  apply (Z.pow_lt_mono_r_iff 2); lia.
Qed.

Lemma shr_fexp_spec m e l :
  0 < m ->
  emin prec emax <= Zdigits2 m + e - prec ->
  shr_m (fst (shr_fexp prec emax m e l)) = m / 2 ^ Z.max 0 (Zdigits2 m - prec) /\
  snd (shr_fexp prec emax m e l) = e + Z.max 0 (Zdigits2 m - prec) /\
  (Zdigits2 m <= prec -> fst (shr_fexp prec emax m e l) = shr_record_of_loc m l).
Proof.
  intros Hm Hn. unfold shr_fexp.
  rewrite fexp_normal by assumption.
  replace (Zdigits2 m + e - prec - e) with (Zdigits2 m - prec) by lia.
  destruct (shr_spec (shr_record_of_loc m l) e (Zdigits2 m - prec)) as (H1 & H2 & H3).
  { rewrite shr_m_shr_record_of_loc. lia. }
  rewrite shr_m_shr_record_of_loc in H1.
  split; [exact H1|]. split; [exact H2|].
  intros Hd. apply H3. lia.
Qed.

(** The quotient by the shift keeps [prec] digits at most, and at least
    one. *)
Lemma shifted_bounds m :
  0 < m ->
  2 ^ (Z.min (Zdigits2 m) prec - 1) <= m / 2 ^ Z.max 0 (Zdigits2 m - prec)
  < 2 ^ Z.min (Zdigits2 m) prec.
Proof.
  intros Hm. destruct (Zdigits2_bounds m Hm) as [Hd [Hlo Hhi]].
  destruct (Z_le_gt_dec (Zdigits2 m) prec) as [Hle|Hgt].
  - replace (Z.max 0 (Zdigits2 m - prec)) with 0 by lia.
    replace (Z.min (Zdigits2 m) prec) with (Zdigits2 m) by lia.
    rewrite Z.div_1_r. lia.
  - replace (Z.max 0 (Zdigits2 m - prec)) with (Zdigits2 m - prec) by lia.
    replace (Z.min (Zdigits2 m) prec) with prec by lia.
    set (n := Zdigits2 m - prec) in *.
    assert (Hn : 0 < n) by lia.
    assert (Hp : 0 < 2 ^ n) by (apply Z.pow_pos_nonneg; lia).
    split.
    + apply Z.div_le_lower_bound; [lia|].
      rewrite <- Z.pow_add_r by lia.
      replace (n + (prec - 1)) with (Zdigits2 m - 1) by lia. exact Hlo.
    + apply Z.div_lt_upper_bound; [lia|].
      rewrite <- Z.pow_add_r by lia.
      replace (n + prec) with (Zdigits2 m) by lia. exact Hhi.
Qed.

(** The result of rounding: a finite number whose value is the shifted
    mantissa, or the next integer, at the shifted exponent. *)
Lemma binary_round_aux_spec s m e l :
  0 < m ->
  emin prec emax <= Zdigits2 m + e - prec ->
  e + Z.max 0 (Zdigits2 m - prec) + 1 <= emax - prec ->
  exists m1 m2 e2,
    binary_round_aux prec emax s m e l = S754_finite s m2 e2 /\
    m / 2 ^ Z.max 0 (Zdigits2 m - prec) <= m1
      <= m / 2 ^ Z.max 0 (Zdigits2 m - prec) + 1 /\
    (l = loc_Exact -> Zdigits2 m <= prec -> m1 = m) /\
    e + Z.max 0 (Zdigits2 m - prec) <= e2 /\
    Z.pos m2 * 2 ^ (e2 - (e + Z.max 0 (Zdigits2 m - prec))) = m1 /\
    Z.pos m2 < 2 ^ prec.
Proof.
  intros Hm Hnorm Hover.
  set (n := Z.max 0 (Zdigits2 m - prec)) in *.
  destruct (shr_fexp_spec m e l Hm Hnorm) as (S1 & S2 & S3).
  fold n in S1, S2.
  destruct (shifted_bounds m Hm) as [Blo Bhi]. fold n in Blo, Bhi.
  destruct (Zdigits2_bounds m Hm) as [Hd _].
  unfold binary_round_aux.
  destruct (shr_fexp prec emax m e l) as [mrs' e'] eqn:E1.
  cbn [fst snd] in S1, S2, S3. subst e'.
  set (m1 := round_nearest_even (shr_m mrs') (loc_of_shr_record mrs')).
  pose proof (round_nearest_even_bounds (shr_m mrs') (loc_of_shr_record mrs')) as Hr.
  fold m1 in Hr. rewrite S1 in Hr.
  assert (Hm0 : 1 <= m / 2 ^ n).
  { assert (1 <= 2 ^ (Z.min (Zdigits2 m) prec - 1)); [|lia].
    apply (Z.pow_le_mono_r 2 0); lia. }
  assert (Hm1 : 0 < m1) by lia.
  assert (Hm1hi : m1 <= 2 ^ Z.min (Zdigits2 m) prec) by lia.
  assert (Hd1lo : Z.min (Zdigits2 m) prec - 1 < Zdigits2 m1).
  { apply Zdigits2_lower; lia. }
  assert (Hnorm1 : emin prec emax <= Zdigits2 m1 + (e + n) - prec).
  { unfold n. lia. }
  destruct (shr_fexp_spec m1 (e + n) loc_Exact Hm1 Hnorm1) as (T1 & T2 & T3).
  destruct (shr_fexp prec emax m1 (e + n) loc_Exact) as [mrs'' e''] eqn:E2.
  cbn [fst snd] in T1, T2, T3.
  assert (Hexact : l = loc_Exact -> Zdigits2 m <= prec -> m1 = m).
  { intros -> Hle. unfold m1. rewrite (S3 Hle).
    rewrite loc_of_shr_record_of_loc, shr_m_shr_record_of_loc. reflexivity. }
  destruct (Z_lt_le_dec m1 (2 ^ prec)) as [Hlt|Hge].
  - (* the rounded mantissa still fits *)
    assert (Hd1 : Zdigits2 m1 <= prec) by (apply Zdigits2_upper; lia).
    replace (Z.max 0 (Zdigits2 m1 - prec)) with 0 in T1, T2 by lia.
    rewrite Z.div_1_r in T1. rewrite T1, T2.
    destruct m1 as [|p1|p1] eqn:Em1; try lia.
    replace (e + n + 0 <=? emax - prec) with true by (symmetry; apply Z.leb_le; lia).
    exists (Z.pos p1), p1, (e + n + 0).
    split; [reflexivity|]. split; [exact Hr|]. split; [exact Hexact|].
    split; [lia|]. split; [|exact Hlt].
    replace (e + n + 0 - (e + n)) with 0 by lia. lia.
  - (* rounding up has reached the next binade *)
    assert (Hmin : Z.min (Zdigits2 m) prec = prec).
    { destruct (Z_le_gt_dec prec (Zdigits2 m)) as [|Hgt]; [lia|].
      exfalso.
      assert (2 ^ Z.min (Zdigits2 m) prec < 2 ^ prec); [|lia].
      apply Z.pow_lt_mono_r; lia. }
    rewrite Hmin in Hm1hi.
    assert (Em1 : m1 = 2 ^ prec) by lia.
    assert (Hd1 : Zdigits2 m1 = prec + 1).
    { assert (prec < Zdigits2 m1) by (apply Zdigits2_lower; lia).
      assert (Zdigits2 m1 <= prec + 1); [|lia].
      apply Zdigits2_upper; try lia.
      rewrite Em1. apply Z.pow_lt_mono_r; lia. }
    rewrite Hd1 in T1, T2.
    replace (Z.max 0 (prec + 1 - prec)) with 1 in T1, T2 by lia.
    change (2 ^ 1) with 2 in T1.
    assert (Ehalf : m1 / 2 = 2 ^ (prec - 1)).
    { rewrite Em1. replace prec with (1 + (prec - 1)) at 1 by lia.
      rewrite Z.pow_add_r by lia. change (2 ^ 1) with 2.
      rewrite Z.mul_comm, Z.div_mul by lia. reflexivity. }
    rewrite Ehalf in T1. rewrite T1, T2.
    assert (Hpos : 0 < 2 ^ (prec - 1)) by (apply Z.pow_pos_nonneg; lia).
    destruct (2 ^ (prec - 1)) as [|p2|p2] eqn:Ep2; try lia.
    replace (e + n + 1 <=? emax - prec) with true by (symmetry; apply Z.leb_le; lia).
    exists m1, p2, (e + n + 1).
    split; [reflexivity|]. split; [exact Hr|]. split; [exact Hexact|].
    split; [lia|]. split.
    + replace (e + n + 1 - (e + n)) with 1 by lia.
      change (2 ^ 1) with 2. rewrite <- Ep2, Em1.
      replace prec with (1 + (prec - 1)) at 2 by lia.
      rewrite Z.pow_add_r by lia. change (2 ^ 1) with 2. ring.
    + rewrite <- Ep2. apply Z.pow_lt_mono_r; lia.
Qed.

End Round.

(** *** Powers of two, as real numbers *)

Lemma bpow_pos e : (0 < bpow e)%R.
Proof. apply powerRZ_lt. lra. Qed.

Lemma bpow_add a b : bpow (a + b) = (bpow a * bpow b)%R.
Proof. apply powerRZ_add. lra. Qed.

Lemma bpow_IZR k : 0 <= k -> bpow k = IZR (2 ^ k).
Proof.
  intros Hk. unfold bpow.
  destruct k as [|p|p]; [reflexivity| |lia].
  cbn [powerRZ]. rewrite pow_IZR. rewrite positive_nat_Z. reflexivity.
Qed.

Lemma bpow_opp a : bpow (- a) = (/ bpow a)%R.
Proof. apply powerRZ_neg'. Qed.

Lemma bpow_ge_1 k : 0 <= k -> (1 <= bpow k)%R.
Proof.
  intros Hk. rewrite bpow_IZR by assumption.
  apply IZR_le. assert (0 < 2 ^ k) by (apply Z.pow_pos_nonneg; lia). lia.
Qed.

Lemma bpow_le a b : a <= b -> (bpow a <= bpow b)%R.
Proof.
  intros H. replace b with (a + (b - a)) by lia. rewrite bpow_add.
  pose proof (bpow_pos a). pose proof (bpow_ge_1 (b - a) ltac:(lia)).
  nra.
Qed.

Lemma bpow_lt a b : a < b -> (bpow a < bpow b)%R.
Proof.
  intros H. replace b with (a + 1 + (b - a - 1)) by lia. rewrite !bpow_add.
  pose proof (bpow_pos a). pose proof (bpow_ge_1 (b - a - 1) ltac:(lia)).
  change (bpow 1) with (2 * 1)%R. nra.
Qed.

Lemma bpow_lt_inv a b : (bpow a < bpow b)%R -> a < b.
Proof.
  intros H. destruct (Z_lt_le_dec a b) as [|Hle]; [assumption|].
  apply bpow_le in Hle. lra.
Qed.

Lemma bpow_le_inv a b : (bpow a <= bpow b)%R -> a <= b.
Proof.
  intros H. destruct (Z_le_gt_dec a b) as [|Hgt]; [assumption|].
  apply Z.gt_lt, bpow_lt in Hgt. lra.
Qed.

Lemma iter_xO m d : Z.pos (Pos.iter xO m d) = Z.pos m * 2 ^ Z.pos d.
Proof.
  induction d as [|d IH] using Pos.peano_ind.
  - cbn. lia.
  - rewrite Pos.iter_succ, Pos2Z.inj_succ, Z.pow_succ_r by lia.
    rewrite Pos2Z.inj_xO, IH. ring.
Qed.

Lemma shl_align_spec mx ex ex' :
  Z.pos (fst (shl_align mx ex ex'))
  = Z.pos mx * 2 ^ (ex - snd (shl_align mx ex ex')) /\
  snd (shl_align mx ex ex') = Z.min ex ex'.
Proof.
  unfold shl_align. destruct (ex' - ex) as [|d|d] eqn:E; cbn [fst snd].
  - rewrite Z.sub_diag. split; lia.
  - rewrite Z.sub_diag. split; lia.
  - rewrite iter_xO. replace (ex - ex') with (Z.pos d) by lia. split; lia.
Qed.

(** *** Rounding, on real numbers *)

Section RoundR.

Variables prec emax : Z.
Hypothesis Hprec : 0 < prec.

Lemma value_digits m e :
  0 < m ->
  (bpow (Zdigits2 m - 1 + e) <= IZR m * bpow e < bpow (Zdigits2 m + e))%R.
Proof.
  intros Hm. destruct (Zdigits2_bounds m Hm) as [Hd [Hlo Hhi]].
  rewrite !bpow_add. pose proof (bpow_pos e) as He.
  rewrite (bpow_IZR (Zdigits2 m - 1)), (bpow_IZR (Zdigits2 m)) by lia.
  apply IZR_le in Hlo. apply IZR_lt in Hhi.
  split; nra.
Qed.

(** Rounding an exact value that has at least [prec] digits, away from
    the subnormal and the overflow range: the result is finite and
    within one unit in the last place. *)
Lemma aux_rel s m e :
  0 < m ->
  prec <= Zdigits2 m ->
  (bpow (emin prec emax + prec - 1) <= IZR m * bpow e)%R ->
  (IZR m * bpow e < bpow (emax - 1))%R ->
  exists m2 e2,
    binary_round_aux prec emax s m e loc_Exact = S754_finite s m2 e2 /\
    Z.pos m2 < 2 ^ prec /\
    ((1 - bpow (1 - prec)) * (IZR m * bpow e) <= IZR (Z.pos m2) * bpow e2
     <= (1 + bpow (1 - prec)) * (IZR m * bpow e))%R.
Proof.
  intros Hm Hd Hlo Hhi.
  destruct (value_digits m e Hm) as [Vlo Vhi].
  assert (Hnorm : emin prec emax <= Zdigits2 m + e - prec).
  { assert (emin prec emax + prec - 1 < Zdigits2 m + e); [|lia].
    apply bpow_lt_inv. lra. }
  assert (Hover : e + Z.max 0 (Zdigits2 m - prec) + 1 <= emax - prec).
  { assert (Zdigits2 m - 1 + e < emax - 1); [|lia].
    apply bpow_lt_inv. lra. }
  destruct (binary_round_aux_spec prec emax Hprec s m e loc_Exact Hm Hnorm Hover)
    as (m1 & m2 & e2 & Hres & Hm1 & _ & He2 & Hval & Hm2).
  exists m2, e2. split; [exact Hres|]. split; [exact Hm2|].
  replace (Z.max 0 (Zdigits2 m - prec)) with (Zdigits2 m - prec) in * by lia.
  set (n := Zdigits2 m - prec) in *.
  assert (Hn : 0 <= n) by (unfold n; lia).
  assert (Hpn : 0 < 2 ^ n) by (apply Z.pow_pos_nonneg; lia).
  (* the value of the result *)
  assert (HV : (IZR (Z.pos m2) * bpow e2 = IZR m1 * bpow n * bpow e)%R).
  { rewrite <- Hval. rewrite mult_IZR.
    rewrite <- (bpow_IZR (e2 - (e + n))) by lia.
    rewrite Rmult_assoc, Rmult_assoc. f_equal.
    rewrite <- !bpow_add. f_equal. lia. }
  rewrite HV.
  (* the shifted mantissa brackets the exact one *)
  pose proof (Z.div_mod m (2 ^ n) ltac:(lia)) as Hdm.
  pose proof (Z.mod_pos_bound m (2 ^ n) Hpn) as Hmod.
  assert (B1 : m - 2 ^ n <= m1 * 2 ^ n <= m + 2 ^ n) by nia.
  destruct B1 as [B1 B2].
  apply IZR_le in B1, B2.
  rewrite minus_IZR, mult_IZR in B1. rewrite plus_IZR, mult_IZR in B2.
  rewrite <- (bpow_IZR n) in B1, B2 by lia.
  (* one unit of the result against the value *)
  destruct (Zdigits2_bounds m Hm) as [_ [Dlo _]].
  apply IZR_le in Dlo. rewrite <- bpow_IZR in Dlo by lia.
  assert (Hu : (bpow n <= bpow (1 - prec) * IZR m)%R).
  { replace n with ((1 - prec) + (Zdigits2 m - 1)) by (unfold n; lia).
    rewrite bpow_add. pose proof (bpow_pos (1 - prec)). nra. }
  pose proof (bpow_pos e) as He.
  split; nra.
Qed.

(** The same for [binary_round], which first brings a short mantissa to
    [prec] digits. *)
Lemma round_rel s mx ex :
  (bpow (emin prec emax + prec - 1) <= IZR (Z.pos mx) * bpow ex)%R ->
  (IZR (Z.pos mx) * bpow ex < bpow (emax - 1))%R ->
  exists m2 e2,
    binary_round prec emax s mx ex = S754_finite s m2 e2 /\
    Z.pos m2 < 2 ^ prec /\
    ((1 - bpow (1 - prec)) * (IZR (Z.pos mx) * bpow ex) <= IZR (Z.pos m2) * bpow e2
     <= (1 + bpow (1 - prec)) * (IZR (Z.pos mx) * bpow ex))%R.
Proof.
  intros Hlo Hhi.
  assert (Hm : 0 < Z.pos mx) by lia.
  destruct (value_digits (Z.pos mx) ex Hm) as [Vlo Vhi].
  destruct (Zdigits2_bounds (Z.pos mx) Hm) as [Hd [Dlo Dhi]].
  cbn [Zdigits2] in *.
  set (d := Z.pos (digits2_pos mx)) in *.
  assert (Hnorm : emin prec emax <= d + ex - prec).
  { assert (emin prec emax + prec - 1 < d + ex); [|lia].
    apply bpow_lt_inv. lra. }
  unfold binary_round. fold d.
  rewrite fexp_normal by assumption.
  destruct (shl_align_spec mx ex (d + ex - prec)) as [A1 A2].
  destruct (shl_align mx ex (d + ex - prec)) as [mz ez].
  cbn [fst snd] in A1, A2.
  assert (HX : (IZR (Z.pos mz) * bpow ez = IZR (Z.pos mx) * bpow ex)%R).
  { rewrite A1, mult_IZR. rewrite <- bpow_IZR by lia.
    rewrite Rmult_assoc. f_equal. rewrite <- bpow_add. f_equal. lia. }
  rewrite <- HX in Hlo, Hhi |- *.
  apply aux_rel; try assumption.
  destruct (Z_le_gt_dec prec d) as [Hle|Hgt].
  - replace ez with ex in A1 by lia. rewrite Z.sub_diag in A1.
    rewrite A1. cbn [Zdigits2]. rewrite Z.mul_1_r. exact Hle.
  - assert (Z.pos (digits2_pos mz) = prec); [|cbn [Zdigits2]; lia].
    apply digits2_pos_unique; [|lia].
    rewrite A1. replace (ex - ez) with (prec - d) by lia.
    split.
    + replace (prec - 1) with ((d - 1) + (prec - d)) by lia.
      rewrite Z.pow_add_r by lia.
      apply Z.mul_le_mono_nonneg_r; [apply Z.pow_nonneg; lia | exact Dlo].
    + replace prec with (d + (prec - d)) at 2 by lia.
      rewrite Z.pow_add_r by lia.
      apply Z.mul_lt_mono_pos_r; [apply Z.pow_pos_nonneg; lia | exact Dhi].
Qed.

End RoundR.

(** *** The operations of [magnitude], one by one *)

Local Open Scope R_scope.

Lemma u32_small : 0 < u32 < 1 / 8000000.
Proof.
  unfold u32, bpow. cbn [powerRZ]. 
  change (Pos.to_nat 23) with 23%nat. cbn [pow]. lra.
Qed.

Lemma u64_small : 0 < u64 < 1 / 8000000.
Proof.
  pose proof (bpow_pos (-52)). pose proof (bpow_lt (-52) (-23) ltac:(lia)).
  pose proof u32_small. unfold u64, u32 in *. lra.
Qed.

Lemma approx_weaken a b lo hi a' b' lo' hi' X f :
  approx a b lo hi X f ->
  (a' <= a)%Z -> (b <= b')%Z -> lo' <= lo -> hi <= hi' ->
  approx a' b' lo' hi' X f.
Proof.
  intros [H|(m & e & Hf & [Xlo Xhi] & [Vlo Vhi])] Ha Hb Hlo Hhi.
  - left. exact H.
  - right. exists m, e. split; [exact Hf|].
    pose proof (bpow_le a' a Ha). pose proof (bpow_le b b' Hb).
    pose proof (bpow_pos a').
    split; [lra|]. split; nra.
Qed.

Lemma sensible_digits s m e :
  sensible (S754_finite s m e) -> (F32.prec <= Zdigits2 (Z.pos m))%Z.
Proof.
  intros [Hv [Hlo Hhi]]. cbn [valid_binary] in Hv.
  unfold bounded, canonical_mantissa in Hv.
  apply andb_true_iff in Hv as [Hc _]. apply Z.eqb_eq in Hc.
  cbn [Zdigits2].
  destruct (value_digits (Z.pos m) e ltac:(lia)) as [_ Vhi].
  cbn [Zdigits2] in Vhi.
  assert (H : (-60 < Z.pos (digits2_pos m) + e)%Z) by (apply bpow_lt_inv; lra).
  unfold fexp, emin, F32.prec, F32.emax in *. lia.
Qed.

(** The square of a raw component. *)
Lemma mul_self_approx x :
  sensible x ->
  approx (-120) 120 (1 - u32) (1 + u32) (F2R x * F2R x) (F32.mul x x).
Proof.
  destruct x as [s|s| |s m e]; cbn [sensible]; try contradiction.
  - intros _. left. split; [destruct s; reflexivity | cbn; lra].
  - intros Hs. right.
    pose proof (sensible_digits s m e Hs) as Hd.
    destruct Hs as [_ [Hlo Hhi]].
    set (v := IZR (Z.pos m) * bpow e) in *.
    assert (HX : F2R (S754_finite s m e) * F2R (S754_finite s m e) = v * v).
    { cbn [F2R]. fold v. destruct s; unfold v; ring. }
    rewrite HX.
    assert (Hprod : IZR (Z.pos (m * m)) * bpow (e + e) = v * v).
    { rewrite Pos2Z.inj_mul, mult_IZR, bpow_add. unfold v. ring. }
    assert (Rlo : bpow (-120) <= v * v).
    { change (-120)%Z with (-60 + -60)%Z. rewrite bpow_add.
      pose proof (bpow_pos (-60)). nra. }
    assert (Rhi : v * v <= bpow 120).
    { change 120%Z with (60 + 60)%Z. rewrite bpow_add.
      pose proof (bpow_pos (-60)). nra. }
    unfold F32.mul. cbn [SFmul].
    replace (xorb s s) with false by (destruct s; reflexivity).
    destruct (aux_rel F32.prec F32.emax ltac:(unfold F32.prec; lia)
                false (Z.pos (m * m)) (e + e)) as (m2 & e2 & Hres & _ & Hb).
    + lia.
    + (* the product of two 24-digit mantissas has 47 digits at least *)
      destruct (Zdigits2_bounds (Z.pos m) ltac:(lia)) as [_ [Dlo _]].
      assert (H : (F32.prec - 1 + (F32.prec - 1) < Zdigits2 (Z.pos (m * m)))%Z).
      { apply Zdigits2_lower; [lia|].
        rewrite Z.pow_add_r by (unfold F32.prec; lia).
        rewrite Pos2Z.inj_mul.
        assert (2 ^ (F32.prec - 1) <= Z.pos m)%Z.
        { etransitivity; [|exact Dlo].
          apply Z.pow_le_mono_r; lia. }
        assert (0 < 2 ^ (F32.prec - 1))%Z by (apply Z.pow_pos_nonneg; unfold F32.prec; lia).
        nia. }
      unfold F32.prec in *. lia.
    + rewrite Hprod.
      pose proof (bpow_le (emin F32.prec F32.emax + F32.prec - 1) (-120)
                    ltac:(unfold emin, F32.prec, F32.emax; lia)). lra.
    + rewrite Hprod.
      pose proof (bpow_lt 120 (F32.emax - 1) ltac:(unfold F32.emax; lia)). lra.
    + exists m2, e2. split; [exact Hres|]. split; [lra|].
      rewrite Hprod in Hb. exact Hb.
Qed.

Lemma bpow_1 : bpow 1 = 2.
Proof. unfold bpow. simpl. lra. Qed.

Lemma bpow_2 : bpow 2 = 4.
Proof. unfold bpow. simpl. lra. Qed.

Lemma bpow_m1 : bpow (-1) = / 2.
Proof. unfold bpow. simpl. f_equal. lra. Qed.

Lemma shl_align_value mx ex ez :
  (ez <= ex)%Z ->
  IZR (Z.pos (fst (shl_align mx ex ez))) * bpow ez = IZR (Z.pos mx) * bpow ex.
Proof.
  intros H. destruct (shl_align_spec mx ex ez) as [A1 A2].
  rewrite A1, A2. replace (Z.min ex ez) with ez by lia.
  rewrite mult_IZR. rewrite <- bpow_IZR by lia.
  rewrite Rmult_assoc. f_equal. rewrite <- bpow_add. f_equal. lia.
Qed.

(** The sum of two approximations. *)
Lemma add_approx a b lo hi A B fa fb :
  approx a b lo hi A fa ->
  approx a b lo hi B fb ->
  (-124 <= a)%Z -> (b <= 124)%Z ->
  1 / 2 <= lo <= 1 -> 1 <= hi <= 2 ->
  approx a (b + 1) ((1 - u32) * lo) ((1 + u32) * hi) (A + B) (F32.add fa fb).
Proof.
  intros HA HB Ha Hb Hlo Hhi.
  pose proof u32_small as Hu.
  assert (W : forall X f, approx a b lo hi X f ->
                          approx a (b + 1) ((1 - u32) * lo) ((1 + u32) * hi) X f).
  { intros X f H. apply (approx_weaken a b lo hi); try assumption; try lia; nra. }
  destruct HA as [[-> ->]|(ma & ea & -> & [Alo Ahi] & [VAlo VAhi])];
    destruct HB as [[-> ->]|(mb & eb & -> & [Blo Bhi] & [VBlo VBhi])].
  - left. split; [reflexivity | lra].
  - rewrite Rplus_0_l. apply W. right. exists mb, eb. repeat split; assumption.
  - rewrite Rplus_0_r. apply W. right. exists ma, ea. repeat split; assumption.
  - right.
    set (va := IZR (Z.pos ma) * bpow ea) in *.
    set (vb := IZR (Z.pos mb) * bpow eb) in *.
    pose proof (bpow_pos a) as Pa.
    unfold F32.add. cbn [SFadd cond_Zopp].
    set (ez := Z.min ea eb).
    pose proof (shl_align_value ma ea ez ltac:(unfold ez; lia)) as SA.
    pose proof (shl_align_value mb eb ez ltac:(unfold ez; lia)) as SB.
    fold va in SA. fold vb in SB.
    destruct (shl_align ma ea ez) as [ma' ea'].
    destruct (shl_align mb eb ez) as [mb' eb'].
    cbn [fst] in *.
    change (Z.pos ma' + Z.pos mb')%Z with (Z.pos (ma' + mb')).
    cbn [binary_normalize].
    assert (Hsum : IZR (Z.pos (ma' + mb')) * bpow ez = va + vb).
    { rewrite Pos2Z.inj_add, plus_IZR. lra. }
    pose proof (bpow_le (-126) (a - 1) ltac:(lia)) as L1.
    assert (L2 : bpow (a - 1) = bpow a / 2).
    { replace (a - 1)%Z with (a + -1)%Z by lia.
      rewrite bpow_add, bpow_m1. lra. }
    pose proof (bpow_lt (b + 2) 127 ltac:(lia)) as L3.
    assert (L4 : bpow (b + 2) = 4 * bpow b).
    { rewrite bpow_add, bpow_2. lra. }
    assert (L5 : bpow (b + 1) = 2 * bpow b).
    { rewrite bpow_add, bpow_1. lra. }
    destruct (round_rel F32.prec F32.emax ltac:(unfold F32.prec; lia)
                false (ma' + mb') ez) as (m2 & e2 & Hres & _ & [R1 R2]).
    + rewrite Hsum.
      change (emin F32.prec F32.emax + F32.prec - 1)%Z with (-126)%Z. nra.
    + rewrite Hsum. change (F32.emax - 1)%Z with 127%Z. nra.
    + exists m2, e2. split; [exact Hres|].
      rewrite Hsum in R1, R2.
      change (bpow (1 - F32.prec)) with u32 in R1, R2.
      split; [lra|]. split; nra.
Qed.

Lemma half_bounds x : (2 * (x / 2) <= x < 2 * (x / 2) + 2)%Z.
Proof.
  pose proof (Z.div_mod x 2 ltac:(lia)).
  pose proof (Z.mod_pos_bound x 2 ltac:(lia)). lia.
Qed.

Lemma sqrt_bpow_square e : sqrt (bpow (e + e)) = bpow e.
Proof.
  rewrite bpow_add. apply sqrt_square. pose proof (bpow_pos e). lra.
Qed.

(** The integer square root against the real one. *)
Lemma Zsqrt_real m q r :
  (m = q * q + r)%Z -> (0 <= r <= 2 * q)%Z -> (0 <= q)%Z ->
  IZR q <= sqrt (IZR m) < IZR q + 1.
Proof.
  intros Hm Hr Hq.
  assert (Hq0 : 0 <= IZR q) by (apply IZR_le; exact Hq).
  assert (H1 : IZR q * IZR q <= IZR m).
  { rewrite <- mult_IZR. apply IZR_le. lia. }
  assert (H2 : IZR m < (IZR q + 1) * (IZR q + 1)).
  { rewrite <- (plus_IZR q 1), <- mult_IZR. apply IZR_lt. lia. }
  split.
  - rewrite <- (sqrt_square (IZR q)) at 1 by assumption.
    apply sqrt_le_1; nra.
  - rewrite <- (sqrt_square (IZR q + 1)) by lra.
    apply sqrt_lt_1; nra.
Qed.

(** The binary64 square root of a positive finite number, away from
    the ends of the range. *)
Lemma sqrt64_rel M E :
  bpow (-200) <= IZR (Z.pos M) * bpow E <= bpow 200 ->
  exists Q EQ,
    SFsqrt 53 1024 (S754_finite false M E) = S754_finite false Q EQ /\
    (1 - bpow (-51)) * sqrt (IZR (Z.pos M) * bpow E) <= IZR (Z.pos Q) * bpow EQ
    <= (1 + bpow (-51)) * sqrt (IZR (Z.pos M) * bpow E).
Proof.
  intros [Vlo Vhi].
  set (V := IZR (Z.pos M) * bpow E) in *.
  cbn [SFsqrt]. unfold SFsqrt_core_binary.
  set (d := Zdigits2 (Z.pos M)).
  destruct (Zdigits2_bounds (Z.pos M) ltac:(lia)) as [Hd [Dlo Dhi]]. fold d in Hd, Dlo, Dhi.
  destruct (value_digits (Z.pos M) E ltac:(lia)) as [VDlo VDhi]. fold d V in VDlo, VDhi.
  assert (HdE : (-200 < d + E)%Z) by (apply bpow_lt_inv; lra).
  rewrite !Z.div2_div.
  pose proof (half_bounds (d + E + 1)) as Hh1.
  pose proof (half_bounds E) as Hh2.
  rewrite (fexp_normal 53 1024) by (unfold emin; lia).
  set (e' := Z.min ((d + E + 1) / 2 - 53) (E / 2)).
  assert (He1 : (2 * e' <= d + E + 1 - 106)%Z) by (unfold e'; lia).
  assert (He2 : (2 * e' <= E)%Z) by (unfold e'; lia).
  set (s := (E - 2 * e')%Z).
  assert (Hs : (0 <= s)%Z) by (unfold s; lia).
  set (m' := match s with
             | 0%Z => Z.pos M
             | Z.pos _ => Z.shiftl (Z.pos M) s
             | Z.neg _ => 0%Z
             end).
  assert (Hm' : m' = (Z.pos M * 2 ^ s)%Z).
  { unfold m'. destruct s as [|p|p] eqn:Es; try lia.
    apply Z.shiftl_mul_pow2. lia. }
  clearbody m'.
  assert (Hps : (0 < 2 ^ s)%Z) by (apply Z.pow_pos_nonneg; lia).
  assert (Hm'104 : (2 ^ 104 <= m')%Z).
  { rewrite Hm'.
    replace 104%Z with ((d - 1) + (105 - d))%Z by lia.
    destruct (Z_le_gt_dec d 105) as [Hd105|Hd105].
    - rewrite Z.pow_add_r by lia.
      assert (2 ^ (105 - d) <= 2 ^ s)%Z by (apply Z.pow_le_mono_r; unfold s; lia).
      assert (0 < 2 ^ (105 - d))%Z by (apply Z.pow_pos_nonneg; lia).
      nia.
    - assert (2 ^ (d - 1 + (105 - d)) <= 2 ^ (d - 1))%Z by (apply Z.pow_le_mono_r; lia).
      nia. }
  pose proof (Z.sqrtrem_spec m' ltac:(lia)) as Hsq.
  destruct (Z.sqrtrem m') as [q r]. destruct Hsq as [Hqr Hr].
  assert (Hq52 : (2 ^ 52 <= q)%Z).
  { destruct (Z_le_gt_dec (2 ^ 52) q) as [|Hgt]; [assumption|exfalso].
    change (2 ^ 104)%Z with (2 ^ 52 * 2 ^ 52)%Z in Hm'104.
    assert (0 <= q)%Z by lia. nia. }
  assert (Hq : (0 < q)%Z) by (change (2 ^ 52)%Z with 4503599627370496%Z in Hq52; lia).
  set (l := if (r =? 0)%Z then loc_Exact
            else loc_Inexact (if (r <=? q)%Z then Lt else Gt)).
  clearbody l.
  set (dq := Zdigits2 q).
  assert (Hdq : (53 <= dq)%Z).
  { assert (52 < dq)%Z by (apply Zdigits2_lower; lia). lia. }
  destruct (Zdigits2_bounds q Hq) as [_ [Qlo Qhi]]. fold dq in Qlo, Qhi.
  (* the values *)
  assert (HV : V = IZR m' * bpow (e' + e')).
  { unfold V. rewrite Hm', mult_IZR, <- bpow_IZR by lia.
    rewrite Rmult_assoc, <- bpow_add. f_equal. f_equal. unfold s. lia. }
  assert (Hm'0 : 0 <= IZR m') by (apply IZR_le; lia).
  assert (HsqrtV : sqrt V = sqrt (IZR m') * bpow e').
  { rewrite HV, sqrt_mult; [|assumption|pose proof (bpow_pos (e' + e')); lra].
    rewrite sqrt_bpow_square. reflexivity. }
  destruct (Zsqrt_real m' q r Hqr Hr ltac:(lia)) as [SQlo SQhi].
  pose proof (bpow_pos e') as Pe'.
  assert (SVlo : bpow (-100) <= sqrt V).
  { rewrite <- (sqrt_bpow_square (-100)). apply sqrt_le_1.
    - pose proof (bpow_pos (-100 + -100)). lra.
    - pose proof (bpow_pos (-200)). lra.
    - exact Vlo. }
  assert (SVhi : sqrt V <= bpow 100).
  { rewrite <- (sqrt_bpow_square 100). apply sqrt_le_1.
    - pose proof (bpow_pos (-200)). lra.
    - pose proof (bpow_pos (100 + 100)). lra.
    - exact Vhi. }
  apply IZR_le in Qlo. apply IZR_lt in Qhi.
  rewrite <- bpow_IZR in Qlo, Qhi by lia.
  assert (Hhi : (dq + e' <= 101)%Z).
  { assert (dq - 1 + e' < 101)%Z; [|lia].
    apply bpow_lt_inv. rewrite bpow_add.
    pose proof (bpow_lt 100 101 ltac:(lia)). nra. }
  assert (Hlo : (-101 <= dq + e')%Z).
  { assert (-101 < dq + e')%Z; [|lia].
    apply bpow_lt_inv. rewrite bpow_add.
    pose proof (bpow_lt (-101) (-100) ltac:(lia)).
    assert (IZR q + 1 <= bpow dq); [|nra].
    rewrite bpow_IZR by lia. rewrite <- (plus_IZR q 1). apply IZR_le.
    destruct (Zdigits2_bounds q Hq) as [_ [_ Hhi']]. fold dq in Hhi'. lia. }
  destruct (binary_round_aux_spec 53 1024 ltac:(lia) false q e' l Hq) as
    (m1 & Q & EQ & Hres & Hm1 & _ & HEQ & Hval & _).
  { fold dq. unfold emin. lia. }
  { fold dq. lia. }
  fold dq in Hm1, HEQ, Hval.
  replace (Z.max 0 (dq - 53)) with (dq - 53)%Z in * by lia.
  set (n := (dq - 53)%Z) in *.
  assert (Hn : (0 <= n)%Z) by (unfold n; lia).
  assert (Hpn : (0 < 2 ^ n)%Z) by (apply Z.pow_pos_nonneg; lia).
  exists Q, EQ. split; [exact Hres|].
  assert (HVQ : IZR (Z.pos Q) * bpow EQ = IZR m1 * bpow n * bpow e').
  { rewrite <- Hval. rewrite mult_IZR.
    rewrite <- (bpow_IZR (EQ - (e' + n))) by lia.
    rewrite Rmult_assoc, Rmult_assoc. f_equal.
    rewrite <- !bpow_add. f_equal. lia. }
  rewrite HVQ, HsqrtV.
  pose proof (Z.div_mod q (2 ^ n) ltac:(lia)) as Hdm.
  pose proof (Z.mod_pos_bound q (2 ^ n) Hpn) as Hmod.
  assert (B : (q - 2 ^ n <= m1 * 2 ^ n <= q + 2 ^ n)%Z) by nia.
  destruct B as [B1 B2].
  apply IZR_le in B1, B2.
  rewrite minus_IZR, mult_IZR in B1. rewrite plus_IZR, mult_IZR in B2.
  rewrite <- (bpow_IZR n) in B1, B2 by lia.
  assert (Hu : 2 * bpow n <= bpow (-51) * IZR q).
  { replace (dq - 1)%Z with (n + 52)%Z in Qlo by (unfold n; lia).
    rewrite bpow_add in Qlo.
    assert (E51 : bpow (-51) * bpow 52 = 2).
    { rewrite <- bpow_add. change (-51 + 52)%Z with 1%Z. apply bpow_1. }
    pose proof (bpow_pos (-51)). pose proof (bpow_pos n). nra. }
  pose proof (bpow_ge_1 n Hn) as Hn1.
  pose proof (bpow_pos (-51)) as P51.
  assert (Hc : bpow (-51) * IZR q <= bpow (-51) * sqrt (IZR m')).
  { apply Rmult_le_compat_l; lra. }
  assert (Hcore : (1 - bpow (-51)) * sqrt (IZR m') <= IZR m1 * bpow n
                  <= (1 + bpow (-51)) * sqrt (IZR m')) by (split; lra).
  destruct Hcore as [C1 C2].
  split.
  - replace ((1 - bpow (-51)) * (sqrt (IZR m') * bpow e'))
      with ((1 - bpow (-51)) * sqrt (IZR m') * bpow e') by ring.
    apply Rmult_le_compat_r; lra.
  - replace ((1 + bpow (-51)) * (sqrt (IZR m') * bpow e'))
      with ((1 + bpow (-51)) * sqrt (IZR m') * bpow e') by ring.
    apply Rmult_le_compat_r; lra.
Qed.

Lemma sqrt_scale_hi k X : 1 <= k -> 0 <= X -> sqrt (k * X) <= k * sqrt X.
Proof.
  intros Hk HX. rewrite sqrt_mult by lra.
  apply Rmult_le_compat_r; [apply sqrt_pos|].
  rewrite <- (sqrt_square k) at 2 by lra.
  apply sqrt_le_1; nra.
Qed.

Lemma sqrt_scale_lo k X : 0 <= k <= 1 -> 0 <= X -> k * sqrt X <= sqrt (k * X).
Proof.
  intros Hk HX. rewrite sqrt_mult by lra.
  apply Rmult_le_compat_r; [apply sqrt_pos|].
  rewrite <- (sqrt_square k) at 1 by lra.
  apply sqrt_le_1; nra.
Qed.

Lemma c64_small : 0 < c64 < 1 / 8000000.
Proof.
  pose proof (bpow_pos (-51)). pose proof (bpow_lt (-51) (-23) ltac:(lia)).
  pose proof u32_small. unfold c64, u32 in *. lra.
Qed.

(** [kotlin.math.sqrt] on a [Float]: through binary64 and back. *)
Lemma sqrt32_approx a b lo hi X f :
  approx a b lo hi X f ->
  (-124 <= a)%Z -> (b <= 124)%Z ->
  1 / 2 <= lo <= 1 -> 1 <= hi <= 2 ->
  (F32.sqrt f = S754_zero false /\ X = 0) \/
  (exists m e,
      F32.sqrt f = S754_finite false m e /\
      0 < X /\
      (1 - u32) * (1 - c64) * (1 - u64) * lo * sqrt X
      <= IZR (Z.pos m) * bpow e
      <= (1 + u32) * (1 + c64) * (1 + u64) * hi * sqrt X).
Proof.
  intros [[-> ->]|(m & e & -> & [Xlo Xhi] & [Vlo Vhi])] Ha Hb Hlo Hhi.
  - left. split; reflexivity.
  - right.
    pose proof u32_small as Hu. pose proof u64_small as Hu64.
    pose proof c64_small as Hc.
    set (V := IZR (Z.pos m) * bpow e) in *.
    pose proof (bpow_pos a) as Pa.
    assert (HX : 0 < X) by lra.
    (* the argument is well inside the binary32 range *)
    pose proof (bpow_le (-125) (a - 1) ltac:(lia)) as L1.
    assert (L2 : bpow (a - 1) = bpow a / 2).
    { replace (a - 1)%Z with (a + -1)%Z by lia. rewrite bpow_add, bpow_m1. lra. }
    pose proof (bpow_le (b + 1) 125 ltac:(lia)) as L3.
    assert (L4 : bpow (b + 1) = 2 * bpow b).
    { rewrite bpow_add, bpow_1. lra. }
    assert (RV : bpow (-125) <= V <= bpow 125) by (split; nra).
    destruct RV as [RVlo RVhi].
    (* to binary64 *)
    unfold F32.sqrt. cbn [F32.toDouble].
    destruct (round_rel 53 1024 ltac:(lia) false m e) as (M & E & HD & _ & [D1 D2]).
    { fold V. pose proof (bpow_le (emin 53 1024 + 53 - 1) (-125)
                            ltac:(unfold emin; lia)). lra. }
    { fold V. pose proof (bpow_lt 125 (1024 - 1) ltac:(lia)). lra. }
    fold V in D1, D2. change (bpow (1 - 53)) with u64 in D1, D2.
    rewrite HD.
    set (VD := IZR (Z.pos M) * bpow E) in *.
    pose proof (bpow_pos (-125)) as P125.
    assert (RD : bpow (-126) <= VD <= bpow 126).
    { assert (bpow (-126) = bpow (-125) / 2).
      { change (-126)%Z with (-125 + -1)%Z. rewrite bpow_add, bpow_m1. lra. }
      assert (bpow 126 = 2 * bpow 125).
      { change 126%Z with (125 + 1)%Z. rewrite bpow_add, bpow_1. lra. }
      split; nra. }
    destruct RD as [RDlo RDhi].
    (* the binary64 square root *)
    destruct (sqrt64_rel M E) as (Q & EQ & HQ & [Q1 Q2]).
    { fold VD. pose proof (bpow_le (-200) (-126) ltac:(lia)).
      pose proof (bpow_le 126 200 ltac:(lia)). lra. }
    fold VD in Q1, Q2. fold c64 in Q1, Q2.
    rewrite HQ. cbn [F32.ofDouble].
    set (VQ := IZR (Z.pos Q) * bpow EQ) in *.
    assert (SDlo : bpow (-63) <= sqrt VD).
    { rewrite <- (sqrt_bpow_square (-63)). apply sqrt_le_1.
      - pose proof (bpow_pos (-63 + -63)). lra.
      - pose proof (bpow_pos (-126)). lra.
      - exact RDlo. }
    assert (SDhi : sqrt VD <= bpow 63).
    { rewrite <- (sqrt_bpow_square 63). apply sqrt_le_1.
      - pose proof (bpow_pos (-126)). lra.
      - pose proof (bpow_pos (63 + 63)). lra.
      - exact RDhi. }
    pose proof (bpow_pos (-63)) as P63.
    (* back to binary32 *)
    destruct (round_rel F32.prec F32.emax ltac:(unfold F32.prec; lia) false Q EQ)
      as (m2 & e2 & H2 & _ & [R1 R2]).
    { fold VQ. change (emin F32.prec F32.emax + F32.prec - 1)%Z with (-126)%Z.
      pose proof (bpow_le (-126) (-64) ltac:(lia)).
      assert (bpow (-64) = bpow (-63) / 2).
      { change (-64)%Z with (-63 + -1)%Z. rewrite bpow_add, bpow_m1. lra. }
      nra. }
    { fold VQ. change (F32.emax - 1)%Z with 127%Z.
      pose proof (bpow_lt 64 127 ltac:(lia)).
      assert (bpow 64 = 2 * bpow 63).
      { change 64%Z with (63 + 1)%Z. rewrite bpow_add, bpow_1. lra. }
      nra. }
    fold VQ in R1, R2. change (bpow (1 - F32.prec)) with u32 in R1, R2.
    exists m2, e2. split; [exact H2|]. split; [exact HX|].
    set (V2 := IZR (Z.pos m2) * bpow e2) in *.
    (* the square root of the argument against the square root of [X] *)
    pose proof (sqrt_pos X) as SX.
    assert (S1 : (1 - u64) * lo * sqrt X <= sqrt VD).
    { apply Rle_trans with (sqrt ((1 - u64) * lo * X)).
      - apply sqrt_scale_lo; [split; nra | lra].
      - apply sqrt_le_1; nra. }
    assert (S2 : sqrt VD <= (1 + u64) * hi * sqrt X).
    { apply Rle_trans with (sqrt ((1 + u64) * hi * X)).
      - apply sqrt_le_1; nra.
      - apply sqrt_scale_hi; nra. }
    split.
    + apply Rle_trans with ((1 - u32) * VQ); [|exact R1].
      apply Rle_trans with ((1 - u32) * ((1 - c64) * sqrt VD)).
      * replace ((1 - u32) * (1 - c64) * (1 - u64) * lo * sqrt X)
          with ((1 - u32) * ((1 - c64) * ((1 - u64) * lo * sqrt X))) by ring.
        apply Rmult_le_compat_l; [lra|].
        apply Rmult_le_compat_l; [lra|]. exact S1.
      * apply Rmult_le_compat_l; [lra|]. exact Q1.
    + apply Rle_trans with ((1 + u32) * VQ); [exact R2|].
      apply Rle_trans with ((1 + u32) * ((1 + c64) * sqrt VD)).
      * apply Rmult_le_compat_l; [lra|]. exact Q2.
      * replace ((1 + u32) * (1 + c64) * (1 + u64) * hi * sqrt X)
          with ((1 + u32) * ((1 + c64) * ((1 + u64) * hi * sqrt X))) by ring.
        apply Rmult_le_compat_l; [lra|].
        apply Rmult_le_compat_l; [lra|]. exact S2.
Qed.

Lemma factor_hi A B k :
  1 <= A <= 1 + k -> 1 <= B <= 1 + 13 / 100000000 -> 0 <= k <= 1 / 100 ->
  1 <= A * B <= 1 + (k + 14 / 100000000).
Proof. intros [A1 A2] [B1 B2] [K1 K2]. split; nra. Qed.

Lemma factor_lo A B k :
  1 - k <= A <= 1 -> 1 - 13 / 100000000 <= B <= 1 -> 0 <= k <= 1 / 100 ->
  1 - (k + 13 / 100000000) <= A * B <= 1.
Proof. intros [A1 A2] [B1 B2] [K1 K2]. split; nra. Qed.

(** The magnitude computed in binary32 arithmetic is within one
    millionth, relatively, of the Euclidean norm of its raw
    components. *)
Lemma magnitude_rel x y z :
  sensible x -> sensible y -> sensible z ->
  Rabs (F2R (magnitude x y z) - norm3 (F2R x) (F2R y) (F2R z))
  <= 1 / 1000000 * norm3 (F2R x) (F2R y) (F2R z).
Proof.
  intros Hx Hy Hz.
  pose proof u32_small as Hu. pose proof u64_small as Hu64.
  pose proof c64_small as Hc.
  pose proof (mul_self_approx x Hx) as Px.
  pose proof (mul_self_approx y Hy) as Py.
  pose proof (mul_self_approx z Hz) as Pz.
  assert (Hlo1 : 1 / 2 <= 1 - u32 <= 1) by lra.
  assert (Hhi1 : 1 <= 1 + u32 <= 2) by lra.
  pose proof (add_approx _ _ _ _ _ _ _ _ Px Py ltac:(lia) ltac:(lia) Hlo1 Hhi1) as S1.
  assert (Hlo2 : 1 / 2 <= (1 - u32) * (1 - u32) <= 1) by (split; nra).
  assert (Hhi2 : 1 <= (1 + u32) * (1 + u32) <= 2) by (split; nra).
  assert (Pz' : approx (-120) (120 + 1) ((1 - u32) * (1 - u32))
                  ((1 + u32) * (1 + u32)) (F2R z * F2R z) (F32.mul z z)).
  { apply (approx_weaken _ _ _ _ _ _ _ _ _ _ Pz); try lia; nra. }
  pose proof (add_approx _ _ _ _ _ _ _ _ S1 Pz' ltac:(lia) ltac:(lia) Hlo2 Hhi2) as S2.
  assert (Hlo3 : 1 / 2 <= (1 - u32) * ((1 - u32) * (1 - u32)) <= 1) by (split; nra).
  assert (Hhi3 : 1 <= (1 + u32) * ((1 + u32) * (1 + u32)) <= 2) by (split; nra).
  destruct (sqrt32_approx _ _ _ _ _ _ S2 ltac:(lia) ltac:(lia) Hlo3 Hhi3)
    as [[Hm HX]|(m & e & Hm & HX & [B1 B2])];
    unfold magnitude, norm3; rewrite Hm; cbn [F2R].
  - rewrite HX, sqrt_0. rewrite Rminus_0_r, Rabs_R0. lra.
  - set (N := sqrt (F2R x * F2R x + F2R y * F2R y + F2R z * F2R z)) in *.
    set (V := IZR (Z.pos m) * bpow e) in *.
    replace (1 * IZR (Z.pos m) * bpow e) with V by (unfold V; ring).
    assert (HN : 0 <= N) by apply sqrt_pos.
    (* the six rounding factors, below and above *)
    assert (U1 : 1 <= 1 + u32 <= 1 + 13 / 100000000) by lra.
    assert (U2 : 1 <= 1 + c64 <= 1 + 13 / 100000000) by lra.
    assert (U3 : 1 <= 1 + u64 <= 1 + 13 / 100000000) by lra.
    assert (D1 : 1 - 13 / 100000000 <= 1 - u32 <= 1) by lra.
    assert (D2 : 1 - 13 / 100000000 <= 1 - c64 <= 1) by lra.
    assert (D3 : 1 - 13 / 100000000 <= 1 - u64 <= 1) by lra.
    pose proof (factor_hi _ _ _ U1 U2 ltac:(lra)) as F2.
    pose proof (factor_hi _ _ _ F2 U3 ltac:(lra)) as F3.
    pose proof (factor_hi _ _ _ U1 U1 ltac:(lra)) as G2.
    assert (G2' : 1 <= (1 + u32) * (1 + u32) <= 1 + 27 / 100000000) by lra.
    assert (G3 : 1 <= (1 + u32) * ((1 + u32) * (1 + u32)) <= 1 + 41 / 100000000).
    { pose proof (factor_hi _ _ _ G2' U1 ltac:(lra)) as G.
      rewrite Rmult_comm in G. lra. }
    assert (KH : (1 + u32) * (1 + c64) * (1 + u64)
                 * ((1 + u32) * ((1 + u32) * (1 + u32))) <= 1 + 1 / 1000000).
    { destruct F3 as [F3a F3b]. destruct G3 as [G3a G3b]. nra. }
    pose proof (factor_lo _ _ _ D1 D2 ltac:(lra)) as E2.
    pose proof (factor_lo _ _ _ E2 D3 ltac:(lra)) as E3.
    pose proof (factor_lo _ _ _ D1 D1 ltac:(lra)) as I2.
    assert (I3 : 1 - 39 / 100000000 <= (1 - u32) * ((1 - u32) * (1 - u32)) <= 1).
    { pose proof (factor_lo _ _ _ I2 D1 ltac:(lra)) as I.
      rewrite Rmult_comm in I. lra. }
    assert (KL : 1 - 1 / 1000000
                 <= (1 - u32) * (1 - c64) * (1 - u64)
                    * ((1 - u32) * ((1 - u32) * (1 - u32)))).
    { destruct E3 as [E3a E3b]. destruct I3 as [I3a I3b]. nra. }
    apply Rabs_le. split.
    + apply Rle_trans with ((1 - 1 / 1000000) * N - N); [lra|].
      apply Rplus_le_compat_r.
      apply Rle_trans with ((1 - u32) * (1 - c64) * (1 - u64)
                            * ((1 - u32) * ((1 - u32) * (1 - u32))) * N);
        [|exact B1].
      apply Rmult_le_compat_r; assumption.
    + apply Rle_trans with ((1 + 1 / 1000000) * N - N); [|lra].
      apply Rplus_le_compat_r.
      apply Rle_trans with ((1 + u32) * (1 + c64) * (1 + u64)
                            * ((1 + u32) * ((1 + u32) * (1 + u32))) * N);
        [exact B2|].
      apply Rmult_le_compat_r; assumption.
Qed.

(** C9, as the code has it.  In every frame a tick builds, both
    magnitudes are computed then and there from the raw components of
    the snapshot the frame is copied from (the live state holds no
    magnitude), as the binary32 value of [sqrt(x*x + y*y + z*z)].
    Whenever the three raw components are each zero or a finite number
    between [2^-60] and [2^60] in absolute value, that value is within a
    relative tolerance of one millionth of their Euclidean norm. *)
Theorem frame_magnitudes_within_tolerance
    (encodeToString : TelematicsData.t -> option string) now err s f :
  In f (snd (sendCombinedDataPacket encodeToString now err s)) ->
  copiedFrom f (liveSensorState s) /\
  TelematicsData.accMag f
  = magnitude (TelematicsData.accX f) (TelematicsData.accY f)
      (TelematicsData.accZ f) /\
  TelematicsData.gyroMag f
  = magnitude (TelematicsData.gyroX f) (TelematicsData.gyroY f)
      (TelematicsData.gyroZ f) /\
  (sensible (TelematicsData.accX f) -> sensible (TelematicsData.accY f) ->
   sensible (TelematicsData.accZ f) ->
   withinTolerance (TelematicsData.accMag f) (TelematicsData.accX f)
     (TelematicsData.accY f) (TelematicsData.accZ f)) /\
  (sensible (TelematicsData.gyroX f) -> sensible (TelematicsData.gyroY f) ->
   sensible (TelematicsData.gyroZ f) ->
   withinTolerance (TelematicsData.gyroMag f) (TelematicsData.gyroX f)
     (TelematicsData.gyroY f) (TelematicsData.gyroZ f)).
Proof.
  intros Hin.
  assert (Hf : f = builtFrame now (tripId s) (currentLabel s) (liveSensorState s)).
  { destruct (hasStateChanged s) eqn:Hgate.
    - rewrite (tick_gate_open encodeToString now err s Hgate) in Hin.
      destruct Hin as [<-|[]]. reflexivity.
    - rewrite (tick_gate_closed encodeToString now err s Hgate) in Hin.
      destruct Hin. }
  subst f. unfold builtFrame, withinTolerance.
  cbn [TelematicsData.accX TelematicsData.accY TelematicsData.accZ
       TelematicsData.accMag TelematicsData.gyroX TelematicsData.gyroY
       TelematicsData.gyroZ TelematicsData.gyroMag].
  split; [unfold copiedFrom; cbn; repeat split|].
  split; [reflexivity|]. split; [reflexivity|].
  split; apply magnitude_rel.
Qed.

(** C9, counterexample.  A bump of 1, 2 and 33 on the three
    accelerometer axes: the frame's [accMag] is the binary32 number
    nearest to the norm, which is [sqrt 1094], and it is more than one
    millionth away from it (binary32 numbers are 3.8 millionths apart
    there).  And a reading of [2^64] on one axis: its square is beyond
    the binary32 range and the frame's [accMag] is infinite. *)
Lemma magnitude_misses_the_norm :
  snd (sendCombinedDataPacket jsonStub 0 None bumpSession) = [bumpFrame] /\
  TelematicsData.accX bumpFrame = F32.of_Z 1 /\
  TelematicsData.accY bumpFrame = F32.of_Z 2 /\
  TelematicsData.accZ bumpFrame = F32.of_Z 33 /\
  1 / 1000000
  < Rabs (F2R (TelematicsData.accMag bumpFrame)
          - norm3 (F2R (TelematicsData.accX bumpFrame))
              (F2R (TelematicsData.accY bumpFrame))
              (F2R (TelematicsData.accZ bumpFrame))) /\
  snd (sendCombinedDataPacket jsonStub 0 None hugeSession) = [hugeFrame] /\
  TelematicsData.accX hugeFrame = S754_finite false 8388608 41 /\
  TelematicsData.accMag hugeFrame = S754_infinity false.
Proof.
  split; [vm_compute; reflexivity|].
  split; [reflexivity|]. split; [reflexivity|]. split; [reflexivity|].
  split; [|repeat split; vm_compute; reflexivity].
  replace (TelematicsData.accMag bumpFrame)
    with (S754_finite false 8670589 (-18)) by (vm_compute; reflexivity).
  replace (TelematicsData.accX bumpFrame)
    with (S754_finite false 8388608 (-23)) by (vm_compute; reflexivity).
  replace (TelematicsData.accY bumpFrame)
    with (S754_finite false 8388608 (-22)) by (vm_compute; reflexivity).
  replace (TelematicsData.accZ bumpFrame)
    with (S754_finite false 8650752 (-18)) by (vm_compute; reflexivity).
  assert (E18 : bpow (-18) = / 262144) by (unfold bpow; simpl; f_equal; lra).
  assert (E22 : bpow (-22) = / 4194304) by (unfold bpow; simpl; f_equal; lra).
  assert (E23 : bpow (-23) = / 8388608) by (unfold bpow; simpl; f_equal; lra).
  unfold norm3. cbn [F2R]. rewrite E18, E22, E23.
  replace (1 * 8388608 * / 8388608) with 1 by lra.
  replace (1 * 8388608 * / 4194304) with 2 by lra.
  replace (1 * 8650752 * / 262144) with 33 by lra.
  replace (1 * 1 + 2 * 2 + 33 * 33) with 1094 by lra.
  assert (H : sqrt 1094 < 1 * 8670589 * / 262144 - 1 / 1000000).
  { set (r := 1 * 8670589 * / 262144 - 1 / 1000000).
    assert (Hr : 0 <= r) by (unfold r; lra).
    rewrite <- (sqrt_square r Hr).
    apply sqrt_lt_1; [lra | nra |].
    unfold r. lra. }
  rewrite Rabs_pos_eq; lra.
Qed.

Lemma frame_magnitudes_within_tolerance_witness :
  In bumpFrame (snd (sendCombinedDataPacket jsonStub 0 None bumpSession)) /\
  sensible (TelematicsData.accX bumpFrame) /\
  sensible (TelematicsData.accY bumpFrame) /\
  sensible (TelematicsData.accZ bumpFrame) /\
  withinTolerance (TelematicsData.accMag bumpFrame) (TelematicsData.accX bumpFrame)
    (TelematicsData.accY bumpFrame) (TelematicsData.accZ bumpFrame).
Proof.
  assert (Hin : In bumpFrame (snd (sendCombinedDataPacket jsonStub 0 None bumpSession))).
  { left. vm_compute. reflexivity. }
  assert (E18 : bpow (-18) = / 262144) by (unfold bpow; simpl; f_equal; lra).
  assert (E22 : bpow (-22) = / 4194304) by (unfold bpow; simpl; f_equal; lra).
  assert (E23 : bpow (-23) = / 8388608) by (unfold bpow; simpl; f_equal; lra).
  assert (B60 : bpow (-60) <= / 2 /\ 64 <= bpow 60).
  { pose proof (bpow_le (-60) (-1) ltac:(lia)) as H1.
    pose proof (bpow_le 6 60 ltac:(lia)) as H2.
    rewrite bpow_m1 in H1.
    replace (bpow 6) with 64 in H2 by (unfold bpow; simpl; lra).
    split; assumption. }
  destruct B60 as [B1 B2].
  assert (Sx : sensible (TelematicsData.accX bumpFrame)).
  { change (TelematicsData.accX bumpFrame) with (S754_finite false 8388608 (-23)).
    split; [reflexivity|]. rewrite E23. lra. }
  assert (Sy : sensible (TelematicsData.accY bumpFrame)).
  { change (TelematicsData.accY bumpFrame) with (S754_finite false 8388608 (-22)).
    split; [reflexivity|]. rewrite E22. lra. }
  assert (Sz : sensible (TelematicsData.accZ bumpFrame)).
  { change (TelematicsData.accZ bumpFrame) with (S754_finite false 8650752 (-18)).
    split; [reflexivity|]. rewrite E18. lra. }
  repeat (split; [assumption|]).
  destruct (frame_magnitudes_within_tolerance jsonStub 0 None bumpSession
              bumpFrame Hin) as (_ & _ & _ & Hacc & _).
  exact (Hacc Sx Sy Sz).
Defined.

Local Close Scope R_scope.

(** * Further properties *)

(** ** More on the gate *)

Lemma gtb_abs_sub_comm thr a b :
  F32.gtb (F32.abs (F32.sub a b)) thr = F32.gtb (F32.abs (F32.sub b a)) thr.
Proof.
  unfold F32.abs, F32.sub.
  now rewrite (SFabs_SFsub_comm F32.prec F32.emax a b).
Qed.

Lemma neqb_comm a b : F64.neqb a b = F64.neqb b a.
Proof. unfold F64.neqb. now rewrite (SFeqb_sym a b). Qed.

(** X1. The gate does not tell the two snapshots apart: with the live
    state and the last published state exchanged, [hasStateChanged]
    gives the same answer.  A move is seen the same way in either
    direction. *)
Theorem hasStateChanged_symmetric s :
  hasStateChanged (swapped s) = hasStateChanged s.
Proof.
  unfold hasStateChanged, swapped, changedSince.
  cbn [lastPublishedState liveSensorState set_liveSensorState
       set_lastPublishedState].
  set (P := lastPublishedState s). set (L := liveSensorState s).
  rewrite (gtb_abs_sub_comm ACCEL_THRESHOLD (LiveSensorState.accX L)),
          (gtb_abs_sub_comm ACCEL_THRESHOLD (LiveSensorState.accY L)),
          (gtb_abs_sub_comm ACCEL_THRESHOLD (LiveSensorState.accZ L)),
          (gtb_abs_sub_comm GYRO_THRESHOLD (LiveSensorState.gyroX L)),
          (gtb_abs_sub_comm GYRO_THRESHOLD (LiveSensorState.gyroY L)),
          (gtb_abs_sub_comm GYRO_THRESHOLD (LiveSensorState.gyroZ L)),
          (gtb_abs_sub_comm ROT_VEC_THRESHOLD (LiveSensorState.rotVecX L)),
          (gtb_abs_sub_comm ROT_VEC_THRESHOLD (LiveSensorState.rotVecY L)),
          (gtb_abs_sub_comm ROT_VEC_THRESHOLD (LiveSensorState.rotVecZ L)),
          (neqb_comm (LiveSensorState.latitude L)),
          (neqb_comm (LiveSensorState.longitude L)).
  reflexivity.
Qed.

Lemma unseen_never_crosses thr last live :
  nonNegative thr -> unseen last live ->
  F32.gtb (F32.abs (F32.sub last live)) thr = false.
Proof.
  intros Hthr [-> | [-> | ->]].
  - unfold F32.gtb, F32.abs, F32.sub, SFltb. destruct thr; reflexivity.
  - unfold F32.gtb, F32.abs, F32.sub, SFltb.
    destruct last, thr; reflexivity.
  - now apply unchanged_axis_never_crosses.
Qed.

(** X2. A motion axis whose live or last published value is a NaN
    never opens the gate: the comparison [|last - live| > threshold] is
    false on it, whatever the other value is.  When every motion axis is
    in that case or unchanged, and the position is equal, the gate is
    shut. *)
Theorem nan_axis_never_opens_gate s :
  nothingSeen (lastPublishedState s) (liveSensorState s) ->
  hasStateChanged s = false.
Proof.
  intros (Hax & Hay & Haz & Hgx & Hgy & Hgz & Hrx & Hry & Hrz & Hlat & Hlon).
  destruct thresholds_nonNegative as (Na & Ng & Nr).
  unfold hasStateChanged. apply changedSince_false. unfold axesQuiet.
  rewrite !unseen_never_crosses by assumption.
  rewrite !eqb_quiet by assumption.
  repeat split.
Qed.

Lemma nan_axis_never_opens_gate_witness :
  nothingSeen (lastPublishedState afterNaN) (liveSensorState afterNaN) /\
  LiveSensorState.accX (liveSensorState afterNaN) = S754_nan /\
  LiveSensorState.accX (lastPublishedState afterNaN) = F32.zero /\
  hasStateChanged afterNaN = false.
Proof.
  assert (H : nothingSeen (lastPublishedState afterNaN) (liveSensorState afterNaN)).
  { unfold nothingSeen, unseen. vm_compute. repeat split; auto. }
  split; [exact H|].
  split; [reflexivity|]. split; [reflexivity|].
  exact (nan_axis_never_opens_gate afterNaN H).
Defined.

Section StuckOpen.

Variable encodeToString : TelematicsData.t -> option string.




End StuckOpen.


(** ** Magnitudes carry no sign *)

Section Unsigned.

Variables prec emax : Z.

Lemma SFmul_self_unsigned x : unsigned (SFmul prec emax x x).
Proof.
  unfold unsigned.
  destruct x as [s|s| |s m e]; try reflexivity;
    try (destruct s; reflexivity).
  cbn [SFmul]. rewrite SFabs_binary_round_aux.
  destruct s; reflexivity.
Qed.

Lemma SFmul_self_abs x :
  SFmul prec emax (SFabs x) (SFabs x) = SFmul prec emax x x.
Proof.
  destruct x as [s|s| |s m e]; try reflexivity; destruct s; reflexivity.
Qed.

Lemma SFadd_unsigned x y :
  unsigned x -> unsigned y -> unsigned (SFadd prec emax x y).
Proof.
  unfold unsigned.
  destruct x as [sx|sx| |sx mx ex], y as [sy|sy| |sy my ey];
    cbn [SFabs]; intros Hx Hy;
    try (injection Hx as <-); try (injection Hy as <-);
    try reflexivity.
  cbn [SFadd cond_Zopp Z.add binary_normalize].
  apply SFabs_binary_round.
Qed.

Lemma SFsqrt_unsigned x : unsigned x -> unsigned (SFsqrt prec emax x).
Proof.
  unfold unsigned.
  destruct x as [s|s| |s m e]; cbn [SFabs]; intros Hx;
    try (injection Hx as <-); try reflexivity.
  cbn [SFsqrt].
  destruct (SFsqrt_core_binary prec emax (Z.pos m) e) as [[mz ez] lz].
  apply SFabs_binary_round_aux.
Qed.

End Unsigned.

Lemma toDouble_unsigned x : unsigned x -> unsigned (F32.toDouble x).
Proof.
  unfold unsigned.
  destruct x as [s|s| |s m e]; cbn [SFabs F32.toDouble]; intros Hx;
    try (injection Hx as <-); try reflexivity.
  apply SFabs_binary_round.
Qed.

Lemma ofDouble_unsigned x : unsigned x -> unsigned (F32.ofDouble x).
Proof.
  unfold unsigned.
  destruct x as [s|s| |s m e]; cbn [SFabs F32.ofDouble]; intros Hx;
    try (injection Hx as <-); try reflexivity.
  apply SFabs_binary_round.
Qed.

Lemma magnitude_unsigned x y z : unsigned (magnitude x y z).
Proof.
  unfold magnitude, F32.sqrt, F32.add, F32.mul.
  apply ofDouble_unsigned, SFsqrt_unsigned, toDouble_unsigned.
  repeat apply SFadd_unsigned; apply SFmul_self_unsigned.
Qed.

Lemma magnitude_abs x y z :
  magnitude (F32.abs x) (F32.abs y) (F32.abs z) = magnitude x y z.
Proof.
  unfold magnitude, F32.mul, F32.abs. now rewrite !SFmul_self_abs.
Qed.

(** X4. [sqrt(x*x + y*y + z*z)] as the tick computes it never carries a
    sign, for any three [Float]s, infinite and NaN included: it is a
    NaN, [+0], [+Infinity] or a positive number; and it depends on the
    absolute values of its components only.  So [accMag] and [gyroMag]
    of every frame a tick builds, and of the statistics record a tick
    emits, are never negative and never [-0]. *)
Theorem magnitudes_carry_no_sign
    (encodeToString : TelematicsData.t -> option string) now err s x y z :
  unsigned (magnitude x y z) /\
  magnitude (F32.abs x) (F32.abs y) (F32.abs z) = magnitude x y z /\
  Forall (fun f => unsigned (TelematicsData.accMag f) /\
                   unsigned (TelematicsData.gyroMag f))
    (snd (sendCombinedDataPacket encodeToString now err s)) /\
  (forall s1,
     fst (sendCombinedDataPacket encodeToString now err s) = Returned s1 ->
     exists r, statsFlow s1 = statsFlow s ++ [r] /\
               unsigned (RealTimeStats.accMag r) /\
               unsigned (RealTimeStats.gyroMag r)).
Proof.
  split; [apply magnitude_unsigned|]. split; [apply magnitude_abs|].
  destruct (hasStateChanged s) eqn:Hgate.
  - rewrite (tick_gate_open encodeToString now err s Hgate). cbn [fst snd].
    split.
    + constructor; [|constructor]. split; apply magnitude_unsigned.
    + intros s1.
      match goal with
      | |- context [publishData _ ?d ?e ?s0] =>
          destruct (publishData_frame encodeToString d e s0)
            as (_ & _ & _ & Hl & _ & Hs & _);
          destruct (publishData encodeToString d e s0) as [s1'|x' s1']
      end; cbn in Hl, Hs |- *; intros H1; [|discriminate].
      injection H1 as <-. eexists. cbn. rewrite Hs.
      split; [reflexivity|]. split; apply magnitude_unsigned.
  - rewrite (tick_gate_closed encodeToString now err s Hgate). cbn [fst snd].
    split; [constructor|].
    intros s1 H1. injection H1 as <-. eexists.
    split; [reflexivity|]. split; apply magnitude_unsigned.
Qed.

(** ** Whole runs *)

(** A sensor callback writes the live state and nothing else. *)
Lemma onSensorChanged_frame event s :
  let s' := stateOf (onSensorChanged event s) in
  mqttClient s' = mqttClient s /\
  dataSendTimer s' = dataSendTimer s /\
  tripId s' = tripId s /\
  currentLabel s' = currentLabel s /\
  lastPublishedState s' = lastPublishedState s /\
  statsFlow s' = statsFlow s /\
  isServiceRunningFlow s' = isServiceRunningFlow s.
Proof.
  unfold onSensorChanged. destruct event as [ev|]; [|repeat split].
  match goal with |- context [match ?b (liveSensorState s) with _ => _ end] =>
    destruct (b (liveSensorState s)) end; repeat split.
Qed.

Section RunFacts.

Variable encodeToString : TelematicsData.t -> option string.

(** What one event does to the counters of a run. *)
Lemma handle_accounting e s :
  (List.length (snd (handle encodeToString e s))
   <= (if isTick e then 1 else 0))%nat /\
  Forall (fun f => TelematicsData.tripId f = tripId s)
    (snd (handle encodeToString e s)) /\
  tripId (stateOf (fst (handle encodeToString e s))) = tripId s /\
  (forall s1, fst (handle encodeToString e s) = Returned s1 ->
     exists l, statsFlow s1 = statsFlow s ++ l /\
               List.length l = (if isTick e then 1 else 0)%nat).
Proof.
  destruct e as [event|loc|now err|l]; cbn [handle isTick fst snd].
  - destruct (onSensorChanged_frame event s) as (_ & _ & Ht & _ & _ & Hs & _).
    repeat split; auto.
    intros s1 H1. rewrite H1 in Hs. cbn in Hs.
    exists []. rewrite app_nil_r. split; [exact Hs | reflexivity].
  - repeat split; auto.
    + destruct loc; reflexivity.
    + intros s1 H1. injection H1 as <-. exists []. rewrite app_nil_r.
      split; [destruct loc; reflexivity | reflexivity].
  - destruct (hasStateChanged s) eqn:Hgate.
    + rewrite (tick_gate_open encodeToString now err s Hgate). cbn [fst snd].
      match goal with
      | |- context [publishData _ ?d ?e ?s0] =>
          destruct (publishData_frame encodeToString d e s0)
            as (_ & Ht & _ & _ & _ & Hs & _);
          destruct (publishData encodeToString d e s0) as [s1'|x s1']
      end; cbn in Ht, Hs |- *.
      * repeat split; auto.
        intros s1 H1. injection H1 as <-.
        eexists. cbn. rewrite Hs. split; reflexivity.
      * repeat split; auto. intros s1 H1. discriminate.
    + rewrite (tick_gate_closed encodeToString now err s Hgate). cbn.
      repeat split; auto.
      intros s1 H1. injection H1 as <-. eexists. split; reflexivity.
  - repeat split; auto.
    intros s1 H1. injection H1 as <-. exists []. rewrite app_nil_r.
    split; reflexivity.
Qed.

(** X5. Over any run of readings, position fixes, label changes and
    ticks that ends normally: the local observers received exactly one
    statistics record per tick, appended in order to what they had; the
    frames built are at most as many as the ticks; every frame carries
    the trip identifier of the service, which no event changes. *)
Theorem run_accounting evs : forall s s' fs,
  run encodeToString evs s = (Returned s', fs) ->
  (List.length fs <= ticks evs)%nat /\
  Forall (fun f => TelematicsData.tripId f = tripId s) fs /\
  tripId s' = tripId s /\
  exists l, statsFlow s' = statsFlow s ++ l /\ List.length l = ticks evs.
Proof.
  induction evs as [|e evs IH]; intros s s' fs Hrun.
  - cbn in Hrun. injection Hrun as <- <-.
    repeat split; auto. exists []. rewrite app_nil_r. split; reflexivity.
  - cbn [run] in Hrun.
    destruct (handle_accounting e s) as (Hlen & Htrip & Hid & Hstats).
    destruct (handle encodeToString e s) as [[s1|x s1] f1];
      cbn [fst snd stateOf] in *; [|discriminate].
    destruct (run encodeToString evs s1) as [o2 f2] eqn:Hrest.
    injection Hrun as Ho Hf. subst o2 fs.
    destruct (IH s1 s' f2 Hrest) as (Hlen2 & Htrip2 & Hid2 & l2 & Hst2 & Hl2).
    destruct (Hstats s1 eq_refl) as (l1 & Hst1 & Hl1).
    assert (Hticks : ticks (e :: evs)
                     = ((if isTick e then 1 else 0) + ticks evs)%nat).
    { unfold ticks. cbn [filter]. destruct (isTick e); reflexivity. }
    rewrite Hticks. split; [rewrite length_app; lia|].
    split.
    { apply Forall_app. split; [exact Htrip|].
      rewrite Hid in Htrip2. exact Htrip2. }
    split; [congruence|].
    exists (l1 ++ l2). rewrite Hst2, Hst1, app_assoc, length_app.
    split; [reflexivity | lia].
Qed.

End RunFacts.

Lemma run_accounting_witness :
  exists s' fs,
    run jsonStub driftingRun restingSession = (Returned s', fs) /\
    List.length fs = 1%nat /\ ticks driftingRun = 2%nat /\
    List.length (statsFlow s') = (List.length (statsFlow restingSession) + 2)%nat.
Proof.
  destruct (run jsonStub driftingRun restingSession) as [o fs] eqn:Hrun.
  assert (Ho : exists s', o = Returned s').
  { vm_compute in Hrun. injection Hrun as <- _. eexists. reflexivity. }
  destruct Ho as [s' ->].
  exists s', fs. split; [reflexivity|].
  destruct (run_accounting jsonStub driftingRun restingSession s' fs Hrun)
    as (_ & _ & _ & l & Hst & Hl).
  split; [vm_compute in Hrun; injection Hrun as _ <-; reflexivity|].
  split; [reflexivity|].
  rewrite Hst, length_app, Hl. reflexivity.
Defined.

(** ** What reaches Paho *)

Lemma publish_connected payload c :
  MqttClient.isConnected c = true ->
  MqttClient.isConnected (MqttClient.publish payload None c) = true /\
  MqttClient.published (MqttClient.publish payload None c)
  = MqttClient.published c ++ [messageOf payload].
Proof.
  intros H. unfold MqttClient.publish. rewrite H. split; [exact H | reflexivity].
Qed.

Lemma publish_disconnected payload err c :
  MqttClient.isConnected c = false ->
  MqttClient.isConnected (MqttClient.publish payload err c) = false /\
  MqttClient.published (MqttClient.publish payload err c)
  = MqttClient.published c.
Proof.
  intros H. unfold MqttClient.publish. rewrite H. split; [exact H | reflexivity].
Qed.

Section Traces.

Variable encodeToString : TelematicsData.t -> option string.

Lemma handle_not_tick_mqttClient e s :
  isTick e = false ->
  mqttClient (stateOf (fst (handle encodeToString e s))) = mqttClient s.
Proof.
  destruct e as [event|loc|now err|l]; intros H; try discriminate; cbn.
  - apply onSensorChanged_frame.
  - destruct loc; reflexivity.
  - reflexivity.
Qed.

(** One event on a connected transport that accepts every message. *)
Lemma handle_trace e s c s1 f1 :
  mqttClient s = Some c ->
  MqttClient.isConnected c = true ->
  pahoAccepts e = true ->
  handle encodeToString e s = (Returned s1, f1) ->
  exists c1 payloads,
    mqttClient s1 = Some c1 /\
    MqttClient.isConnected c1 = true /\
    map encodeToString f1 = map Some payloads /\
    MqttClient.published c1 = MqttClient.published c ++ map messageOf payloads.
Proof.
  intros Hc Hup Hacc Hrun.
  destruct (isTick e) eqn:Htick.
  - destruct e as [event|loc|now [err|]|l]; try discriminate. clear Hacc Htick.
    cbn [handle] in Hrun.
    destruct (hasStateChanged s) eqn:Hgate.
    + rewrite (tick_gate_open encodeToString now None s Hgate) in Hrun.
      unfold publishData in Hrun.
      cbn [mqttClient set_lastPublishedState] in Hrun. rewrite Hc in Hrun.
      destruct (encodeToString _) as [payload|] eqn:Henc; [|discriminate].
      injection Hrun as <- <-.
      destruct (publish_connected payload c Hup) as [Hup1 Hpub1].
      exists (MqttClient.publish payload None c), [payload].
      cbn [map]. rewrite Henc. repeat split; assumption.
    + rewrite (tick_gate_closed encodeToString now None s Hgate) in Hrun.
      injection Hrun as <- <-.
      exists c, []. cbn. rewrite app_nil_r. repeat split; assumption.
  - pose proof (handle_not_tick_mqttClient e s Htick) as Hm.
    destruct (handle_not_tick encodeToString e s Htick) as [Hf _].
    rewrite Hrun in Hm, Hf. cbn in Hm, Hf. subst f1.
    exists c, []. cbn. rewrite app_nil_r, Hm. repeat split; assumption.
Qed.

(** X6. On a connected transport, when Paho raises nothing, a run that
    ends normally hands to Paho exactly the JSON encodings of the frames
    it built, one message per frame, in the order the frames were
    built, each on the topic [telematics/data] with QoS 1, after the
    messages that were there. *)
Theorem published_are_the_frames_in_order evs : forall s c s' fs,
  mqttClient s = Some c ->
  MqttClient.isConnected c = true ->
  forallb pahoAccepts evs = true ->
  run encodeToString evs s = (Returned s', fs) ->
  exists payloads,
    map encodeToString fs = map Some payloads /\
    handedToPaho s' = handedToPaho s ++ map messageOf payloads.
Proof.
  assert (Hgen : forall evs s c s' fs,
    mqttClient s = Some c ->
    MqttClient.isConnected c = true ->
    forallb pahoAccepts evs = true ->
    run encodeToString evs s = (Returned s', fs) ->
    exists c' payloads,
      mqttClient s' = Some c' /\
      MqttClient.isConnected c' = true /\
      map encodeToString fs = map Some payloads /\
      MqttClient.published c' = MqttClient.published c ++ map messageOf payloads).
  { clear evs. induction evs as [|e evs IH]; intros s c s' fs Hc Hup Hacc Hrun.
    - cbn in Hrun. injection Hrun as <- <-.
      exists c, []. cbn. rewrite app_nil_r. repeat split; assumption.
    - cbn [forallb] in Hacc. apply andb_true_iff in Hacc as [Hacc1 Hacc2].
      cbn [run] in Hrun.
      destruct (handle encodeToString e s) as [[s1|x s1] f1] eqn:Hstep;
        [|discriminate].
      destruct (run encodeToString evs s1) as [o2 f2] eqn:Hrest.
      injection Hrun as Ho Hf. subst o2 fs.
      destruct (handle_trace e s c s1 f1 Hc Hup Hacc1 Hstep)
        as (c1 & p1 & Hc1 & Hup1 & Henc1 & Hpub1).
      destruct (IH s1 c1 s' f2 Hc1 Hup1 Hacc2 Hrest)
        as (c2 & p2 & Hc2 & Hup2 & Henc2 & Hpub2).
      exists c2, (p1 ++ p2).
      rewrite !map_app, Henc1, Henc2, Hpub2, Hpub1, app_assoc.
      repeat split; assumption. }
  intros s c s' fs Hc Hup Hacc Hrun.
  destruct (Hgen evs s c s' fs Hc Hup Hacc Hrun)
    as (c' & payloads & Hc' & _ & Henc & Hpub).
  exists payloads. unfold handedToPaho. rewrite Hc, Hc'.
  split; assumption.
Qed.

(** A run on a transport that is down, or absent. *)
Lemma run_disconnected evs : forall s,
  match mqttClient s with
  | Some c => MqttClient.isConnected c = false
  | None => True
  end ->
  let s' := stateOf (fst (run encodeToString evs s)) in
  match mqttClient s' with
  | Some c' => MqttClient.isConnected c' = false
  | None => mqttClient s = None
  end /\
  handedToPaho s' = handedToPaho s.
Proof.
  assert (Hstep : forall e s,
    match mqttClient s with
    | Some c => MqttClient.isConnected c = false
    | None => True
    end ->
    let s' := stateOf (fst (handle encodeToString e s)) in
    match mqttClient s' with
    | Some c' => MqttClient.isConnected c' = false
    | None => mqttClient s = None
    end /\
    handedToPaho s' = handedToPaho s).
  { intros e s Hdown. cbn zeta.
    destruct (isTick e) eqn:Htick.
    - destruct e as [event|loc|now err|l]; try discriminate.
      cbn [handle]. unfold handedToPaho.
      destruct (hasStateChanged s) eqn:Hgate.
      + rewrite (tick_gate_open encodeToString now err s Hgate).
        unfold publishData. cbn [fst mqttClient set_lastPublishedState].
        destruct (mqttClient s) as [c|] eqn:Hc; [|cbn; rewrite Hc; auto].
        destruct (encodeToString _) as [payload|]; cbn; rewrite ?Hc.
        * apply publish_disconnected. exact Hdown.
        * split; [exact Hdown | reflexivity].
      + rewrite (tick_gate_closed encodeToString now err s Hgate). cbn.
        destruct (mqttClient s); auto.
    - unfold handedToPaho.
      rewrite (handle_not_tick_mqttClient e s Htick).
      destruct (mqttClient s); auto. }
  induction evs as [|e evs IH]; intros s Hdown; cbn zeta.
  - cbn. unfold handedToPaho. destruct (mqttClient s); auto.
  - cbn [run].
    destruct (Hstep e s Hdown) as [Hd1 Hp1]. cbn zeta in Hd1, Hp1.
    destruct (handle encodeToString e s) as [[s1|x s1] f1];
      cbn [fst stateOf] in *.
    + assert (Hdown1 : match mqttClient s1 with
                       | Some c => MqttClient.isConnected c = false
                       | None => True
                       end)
        by (destruct (mqttClient s1); auto).
      destruct (IH s1 Hdown1) as [Hd2 Hp2]. cbn zeta in Hd2, Hp2.
      destruct (run encodeToString evs s1) as [o2 f2]; cbn [fst] in *.
      split; [|congruence].
      destruct (mqttClient (stateOf o2)); [exact Hd2|].
      rewrite Hd2 in Hd1. exact Hd1.
    + split; assumption.
Qed.

(** X7. Once [onDestroy] has run, nothing more is handed to Paho,
    whatever readings, position fixes, label changes and late ticks
    still reach the service and however that run ends: the transport,
    if there is one, is disconnected and stays so, and it holds the
    messages it held before. *)
Theorem nothing_published_after_onDestroy evs s :
  handedToPaho (stateOf (fst (run encodeToString evs (onDestroy s))))
  = handedToPaho s /\
  match mqttClient (stateOf (fst (run encodeToString evs (onDestroy s)))) with
  | Some c' => MqttClient.isConnected c' = false
  | None => mqttClient s = None
  end.
Proof.
  assert (Hdown : match mqttClient (onDestroy s) with
                  | Some c => MqttClient.isConnected c = false
                  | None => True
                  end).
  { unfold onDestroy. cbn [mqttClient set_mqttClient].
    destruct (mqttClient s) as [c|]; cbn; [|exact I].
    unfold MqttClient.disconnect.
    destruct (MqttClient.isConnected c) eqn:H; [reflexivity | exact H]. }
  destruct (run_disconnected evs (onDestroy s) Hdown) as [Hd Hp].
  cbn zeta in Hd, Hp.
  assert (Hsame : handedToPaho (onDestroy s) = handedToPaho s).
  { unfold handedToPaho, onDestroy. cbn [mqttClient set_mqttClient].
    destruct (mqttClient s) as [c|]; cbn; [|reflexivity].
    unfold MqttClient.disconnect.
    destruct (MqttClient.isConnected c); reflexivity. }
  split; [congruence|].
  destruct (mqttClient (stateOf (fst (run encodeToString evs (onDestroy s)))));
    [exact Hd|].
  unfold onDestroy in Hd. cbn [mqttClient set_mqttClient] in Hd.
  destruct (mqttClient s); [discriminate | reflexivity].
Qed.

End Traces.

Lemma published_are_the_frames_in_order_witness :
  mqttClient restingSession = Some connectedClient /\
  MqttClient.isConnected connectedClient = true /\
  forallb pahoAccepts driftingRun = true /\
  exists s' fs payloads,
    run jsonStub driftingRun restingSession = (Returned s', fs) /\
    map jsonStub fs = map Some payloads /\
    handedToPaho s' = handedToPaho restingSession ++ map messageOf payloads.
Proof.
  assert (H1 : mqttClient restingSession = Some connectedClient) by reflexivity.
  assert (H2 : MqttClient.isConnected connectedClient = true) by reflexivity.
  assert (H3 : forallb pahoAccepts driftingRun = true) by reflexivity.
  split; [exact H1|]. split; [exact H2|]. split; [exact H3|].
  destruct (run jsonStub driftingRun restingSession) as [o fs] eqn:Hrun.
  assert (Ho : exists s', o = Returned s').
  { vm_compute in Hrun. injection Hrun as <- _. eexists. reflexivity. }
  destruct Ho as [s' ->].
  destruct (published_are_the_frames_in_order jsonStub driftingRun
              restingSession connectedClient s' fs H1 H2 H3 Hrun)
    as (payloads & Henc & Hpub).
  exists s', fs, payloads. repeat split; assumption.
Defined.

(** X8. When Paho raises an exception on a publish, [publish] does not
    pass it on: the message is not among those handed to Paho, the
    connection is as it was and no new connect request is made; the
    next publish goes through as usual.  The failed message is not
    retried. *)
Theorem publish_error_loses_the_message payload cause payload' c :
  MqttClient.isConnected c = true ->
  MqttClient.published (MqttClient.publish payload (Some cause) c)
  = MqttClient.published c /\
  MqttClient.isConnected (MqttClient.publish payload (Some cause) c) = true /\
  MqttClient.connectRequests (MqttClient.publish payload (Some cause) c)
  = MqttClient.connectRequests c /\
  MqttClient.published
    (MqttClient.publish payload' None
       (MqttClient.publish payload (Some cause) c))
  = MqttClient.published c ++ [messageOf payload'].
Proof.
  intros H. unfold MqttClient.publish. rewrite H. cbn. rewrite H. cbn.
  repeat split.
Qed.

Lemma publish_error_loses_the_message_witness :
  MqttClient.isConnected connectedClient = true /\
  MqttClient.published
    (MqttClient.publish "second" None
       (MqttClient.publish "first" (Some "timed out"%string) connectedClient))
  = MqttClient.published connectedClient ++ [messageOf "second"].
Proof.
  assert (H : MqttClient.isConnected connectedClient = true) by reflexivity.
  split; [exact H|].
  exact (proj2 (proj2 (proj2
           (publish_error_loses_the_message "first"%string "timed out"%string
              "second"%string connectedClient H)))).
Defined.

(** ** The life of the service *)

Section LifecycleFacts.

Import Lifecycle.

Lemma cancel_all_off i : forall ts,
  forallb negb ts = true -> forallb negb (cancel i ts) = true.
Proof.
  induction i as [|i IH]; intros [|t ts] H; cbn in *; auto.
  - apply andb_true_iff in H as [_ H]. exact H.
  - apply andb_true_iff in H as [Ht H]. rewrite Ht. cbn. apply IH. exact H.
Qed.

Lemma cancel_newest ts :
  cancel (List.length ts) (ts ++ [true]) = ts ++ [false].
Proof. induction ts as [|t ts IH]; cbn; [reflexivity | now rewrite IH]. Qed.

Lemma cancel_length i : forall ts, List.length (cancel i ts) = List.length ts.
Proof.
  induction i as [|i IH]; intros [|t ts]; cbn; try reflexivity.
  now rewrite IH.
Qed.

Lemma all_off_app ts :
  forallb negb ts = true -> forallb negb (ts ++ [false]) = true.
Proof. intros H. rewrite forallb_app, H. reflexivity. Qed.

Lemma all_off_running ts : forallb negb ts = true -> running ts = 0%nat.
Proof.
  unfold running. induction ts as [|t ts IH]; cbn; [reflexivity|].
  intros H. apply andb_true_iff in H as [Ht H].
  destruct t; [discriminate | apply IH; exact H].
Qed.

Lemma all_off_nth ts : forall j,
  forallb negb ts = true -> nth_error ts j <> Some true.
Proof.
  induction ts as [|t ts IH]; intros [|j] H; cbn; try discriminate.
  - apply andb_true_iff in H as [Ht _]. destruct t; [discriminate|].
    intros E. discriminate.
  - apply andb_true_iff in H as [_ H]. apply IH. exact H.
Qed.

Lemma cancel_running i : forall ts,
  forallb negb (cancel i ts) = true ->
  (running ts <= 1)%nat /\
  (forall j, nth_error ts j = Some true -> j = i).
Proof.
  induction i as [|i IH]; intros [|t ts] H; cbn in H.
  - split; [cbn; lia|]. intros [|j]; discriminate.
  - split.
    + unfold running. cbn [filter].
      pose proof (all_off_running ts H) as Hr. unfold running in Hr.
      destruct t; cbn [List.length]; lia.
    + intros [|j] Hj; [reflexivity|].
      exfalso. exact (all_off_nth ts j H Hj).
  - split; [cbn; lia|]. intros [|j]; discriminate.
  - apply andb_true_iff in H as [Ht H].
    destruct (IH ts H) as [Hr Hn].
    destruct t; [discriminate|]. split; [exact Hr|].
    intros [|j] Hj; [discriminate|]. f_equal. apply Hn. exact Hj.
Qed.

Lemma running_app ts b :
  running (ts ++ [b]) = (running ts + (if b then 1 else 0))%nat.
Proof.
  unfold running. rewrite filter_app, length_app. destruct b; reflexivity.
Qed.

Lemma cancelDataSendTimer_length h :
  List.length (cancelDataSendTimer h) = List.length (timers h).
Proof.
  unfold cancelDataSendTimer. destruct (timerRef h); [apply cancel_length|].
  reflexivity.
Qed.

Lemma startDataSendLoop_others h :
  othersCancelled h -> othersCancelled (startDataSendLoop h).
Proof.
  unfold othersCancelled. intros H.
  change (cancelDataSendTimer (startDataSendLoop h))
    with (cancel (List.length (cancelDataSendTimer h))
            (cancelDataSendTimer h ++ [true])).
  rewrite cancel_newest. apply all_off_app. exact H.
Qed.

Lemma onSuccess_others h : othersCancelled h -> othersCancelled (onSuccess h).
Proof.
  intros H. unfold onSuccess.
  exact (startDataSendLoop_others
           (startLocationUpdates (startSensorListeners h)) H).
Qed.

Lemma notify_others n h : othersCancelled h -> othersCancelled (notify h n).
Proof. destruct n; [apply onSuccess_others | auto]. Qed.

Lemma notifyAll_others ns : forall h,
  othersCancelled h -> othersCancelled (fold_left notify ns h).
Proof.
  induction ns as [|n ns IH]; intros h H; cbn; [exact H|].
  apply IH, notify_others, H.
Qed.

Lemma step_others st h : othersCancelled h -> othersCancelled (step h st).
Proof.
  intros H. destruct st as [intent|err|ev|n|]; cbn [step].
  - unfold onStartCommand. cbn [fst].
    destruct intent as [[[a|] ex]|]; cbn [action extras]; auto.
    destruct (String.eqb a ACTION_START); [exact H|].
    destruct (String.eqb a ACTION_CHANGE_LABEL); [exact H|].
    destruct (String.eqb a ACTION_STOP); exact H.
  - unfold initializeAndConnectMqtt.
    destruct (MqttClient.connect err MqttClient.new) as [c ns].
    apply notifyAll_others. exact H.
  - unfold pahoReports.
    destruct (mqttClient (service h)) as [c|]; [|exact H].
    destruct (MqttClient.deliver ev c) as [c1 ns].
    apply notifyAll_others. exact H.
  - apply notify_others, H.
  - unfold othersCancelled in *.
    change (cancelDataSendTimer (onDestroy h))
      with (match timerRef h with
            | Some i => cancel i (cancelDataSendTimer h)
            | None => cancelDataSendTimer h
            end).
    destruct (timerRef h) as [i|]; [apply cancel_all_off|]; exact H.
Qed.

Lemma steps_others l : forall h,
  othersCancelled h -> othersCancelled (steps l h).
Proof.
  unfold steps. induction l as [|st l IH]; intros h H; cbn; [exact H|].
  apply IH, step_others, H.
Qed.

(** X9. Whatever happens to a service after [onCreate], in any order
    and any number of times (commands, connection attempts, reports of
    Paho, ready and failure callbacks of any transport, [onDestroy]), at
    most one timer is running, and a timer that runs is the one the
    field [dataSendTimer] holds: [startDataSendLoop] cancels the timer
    it replaces, so ready signalled again on a reconnect never leaves a
    second send loop behind. *)
Theorem at_most_one_timer_runs trip l :
  (running (timers (steps l (onCreate trip))) <= 1)%nat /\
  (forall i, nth_error (timers (steps l (onCreate trip))) i = Some true ->
             timerRef (steps l (onCreate trip)) = Some i).
Proof.
  assert (H : othersCancelled (steps l (onCreate trip)))
    by (apply steps_others; reflexivity).
  unfold othersCancelled, cancelDataSendTimer in H.
  destruct (timerRef (steps l (onCreate trip))) as [i|].
  - destruct (cancel_running i _ H) as [Hr Hn].
    split; [exact Hr|]. intros j Hj. f_equal. symmetry. apply Hn. exact Hj.
  - split; [rewrite (all_off_running _ H); lia|].
    intros j Hj. exfalso. exact (all_off_nth _ j H Hj).
Qed.

Lemma onSuccess_timers h : timers (onSuccess h) = cancelDataSendTimer h ++ [true].
Proof. reflexivity. Qed.

Lemma onSuccess_service h : service (onSuccess h) = onConnected (service h).
Proof. reflexivity. Qed.

Lemma onSuccess_started h :
  othersCancelled h ->
  started (onSuccess h)
  = mkStarted (S (timersCreated (started h))) 1
      (runningSignals (started h) ++ [true])
      (listenersRegistered (started h) + 3)
      (S (locationUpdatesRequested (started h)))
      (stopsRequested (started h)).
Proof.
  intros Hoc. unfold started at 1.
  rewrite onSuccess_timers, onSuccess_service, running_app,
    (all_off_running _ Hoc), length_app, cancelDataSendTimer_length.
  cbn [timersCreated timersRunning runningSignals listenersRegistered
       locationUpdatesRequested stopsRequested started].
  f_equal.
  - cbn. lia.
  - cbn. rewrite length_app. reflexivity.
Qed.

Lemma pahoReports_started ev h :
  armed h -> othersCancelled h ->
  armed (pahoReports ev h) /\
  started (pahoReports ev h)
  = (if MqttClient.isConnectComplete ev then
       mkStarted (S (timersCreated (started h))) 1
         (runningSignals (started h) ++ [true])
         (listenersRegistered (started h) + 3)
         (S (locationUpdatesRequested (started h)))
         (stopsRequested (started h))
     else if isActionFailure ev then
       mkStarted (timersCreated (started h)) (timersRunning (started h))
         (runningSignals (started h)) (listenersRegistered (started h))
         (locationUpdatesRequested (started h))
         (S (stopsRequested (started h)))
     else started h).
Proof.
  intros (c & Hc & Hcb) Hoc. unfold pahoReports. rewrite Hc.
  destruct ev as [reconnect|cause| | | |e]; cbn [MqttClient.deliver];
    rewrite ?Hcb; cbn [fold_left notify MqttClient.isConnectComplete
                        isActionFailure];
    try (split; [eexists; split; [reflexivity | assumption] | reflexivity]).
  split; [eexists; split; [reflexivity | assumption]|].
  match goal with
  | |- started (onSuccess ?h1) = _ =>
      rewrite (onSuccess_started h1 Hoc)
  end.
  reflexivity.
Qed.

(** X10. One connection attempt of a new service, followed by any
    reports of Paho: for every completed connection, the first one and
    every reconnect alike, the [onSuccess] lambda has run once, so that
    many timers were created (one of them runs, if any), that many
    [true] were sent to the running-status flow, three sensor listeners
    and one location request were registered each time; for every
    failure, of the connect call or of the connect request, [stopSelf]
    was called once, and nothing is started by a failure. *)
Theorem loop_starts_once_per_completed_connection trip err evs :
  started (steps (map Paho evs) (initializeAndConnectMqtt err (onCreate trip)))
  = mkStarted
      (List.length (filter MqttClient.isConnectComplete evs))
      (Nat.min 1 (List.length (filter MqttClient.isConnectComplete evs)))
      (repeat true (List.length (filter MqttClient.isConnectComplete evs)))
      (3 * List.length (filter MqttClient.isConnectComplete evs))
      (List.length (filter MqttClient.isConnectComplete evs))
      (List.length (filter isActionFailure evs)
       + match err with Some _ => 1 | None => 0 end).
Proof.
  set (h0 := initializeAndConnectMqtt err (onCreate trip)).
  assert (Hinv :
    armed (steps (map Paho evs) h0) /\
    othersCancelled (steps (map Paho evs) h0) /\
    started (steps (map Paho evs) h0)
    = mkStarted
        (List.length (filter MqttClient.isConnectComplete evs))
        (Nat.min 1 (List.length (filter MqttClient.isConnectComplete evs)))
        (repeat true (List.length (filter MqttClient.isConnectComplete evs)))
        (3 * List.length (filter MqttClient.isConnectComplete evs))
        (List.length (filter MqttClient.isConnectComplete evs))
        (List.length (filter isActionFailure evs)
         + match err with Some _ => 1 | None => 0 end)).
  { induction evs as [|ev evs IH] using rev_ind.
    - subst h0. destruct err; cbn.
      + split; [eexists; split; reflexivity|]. split; reflexivity.
      + split; [eexists; split; reflexivity|]. split; reflexivity.
    - destruct IH as (Harmed & Hoc & Hst).
      unfold steps in *. rewrite map_app, fold_left_app. cbn [map fold_left step].
      destruct (pahoReports_started ev _ Harmed Hoc) as [Harmed1 Hst1].
      split; [exact Harmed1|].
      split; [exact (step_others (Paho ev) _ Hoc)|].
      rewrite Hst1, Hst, !filter_app, !length_app.
      cbn [timersCreated timersRunning runningSignals listenersRegistered
           locationUpdatesRequested stopsRequested].
      destruct ev as [reconnect|cause| | | |e];
        cbn [filter MqttClient.isConnectComplete isActionFailure List.length];
        rewrite ?Nat.add_0_r; try reflexivity.
      + rewrite repeat_app. cbn [repeat]. f_equal; lia.
      + f_equal; lia. }
  exact (proj2 (proj2 Hinv)).
Qed.

Section LabelFacts.

Variable encodeToString : TelematicsData.t -> option string.

Lemma handle_keepsLabel e s :
  keepsLabel e = true ->
  currentLabel (stateOf (fst (handle encodeToString e s))) = currentLabel s /\
  Forall (fun f => TelematicsData.label f = currentLabel s)
    (snd (handle encodeToString e s)).
Proof.
  destruct e as [event|loc|now err|l]; intros H; try discriminate;
    cbn [handle fst snd].
  - split; [apply onSensorChanged_frame | constructor].
  - split; [destruct loc; reflexivity | constructor].
  - destruct (hasStateChanged s) eqn:Hgate.
    + rewrite (tick_gate_open encodeToString now err s Hgate). cbn [fst snd].
      split; [|constructor; [reflexivity | constructor]].
      match goal with
      | |- context [publishData _ ?d ?e ?s0] =>
          destruct (publishData_frame encodeToString d e s0)
            as (_ & _ & Hl & _);
          destruct (publishData encodeToString d e s0)
      end; cbn in Hl |- *; exact Hl.
    + rewrite (tick_gate_closed encodeToString now err s Hgate).
      split; [reflexivity | constructor].
Qed.

Lemma run_keepsLabel evs : forall s,
  forallb keepsLabel evs = true ->
  Forall (fun f => TelematicsData.label f = currentLabel s)
    (snd (run encodeToString evs s)).
Proof.
  induction evs as [|e evs IH]; intros s Hall; cbn [run].
  - constructor.
  - cbn [forallb] in Hall. apply andb_true_iff in Hall as [He Hall].
    destruct (handle_keepsLabel e s He) as [Hl Hf].
    destruct (handle encodeToString e s) as [[s1|x s1] f1];
      cbn [fst snd stateOf] in *; [|exact Hf].
    specialize (IH s1 Hall). rewrite Hl in IH.
    destruct (run encodeToString evs s1) as [o2 f2]. cbn [snd] in *.
    apply Forall_app. split; assumption.
Qed.

(** X11. The intent [MainActivity.changeCollectionLabel(label)] builds
    makes [onStartCommand] set [currentLabel] to that label and touch
    nothing else, in any state of the service; the command itself
    returns [START_STICKY], leaves the gate as it was and hands nothing
    to Paho; and every frame built from then on, until the next label
    command, carries that label. *)
Theorem label_command_reaches_the_frames label evs h :
  forallb keepsLabel evs = true ->
  onStartCommand (Some (changeCollectionLabel label)) h
  = (set_service (set_currentLabel label (service h)) h, START_STICKY) /\
  hasStateChanged (set_currentLabel label (service h))
  = hasStateChanged (service h) /\
  handedToPaho (set_currentLabel label (service h)) = handedToPaho (service h) /\
  Forall (fun f => TelematicsData.label f = label)
    (snd (run encodeToString evs (set_currentLabel label (service h)))).
Proof.
  intros Hall.
  split; [reflexivity|]. split; [reflexivity|]. split; [reflexivity|].
  exact (run_keepsLabel evs (set_currentLabel label (service h)) Hall).
Qed.

Lemma notifyAll_snapshots ns : forall h,
  liveSensorState (service (fold_left notify ns h)) = liveSensorState (service h) /\
  lastPublishedState (service (fold_left notify ns h)) = lastPublishedState (service h) /\
  mqttClient (service (fold_left notify ns h)) = mqttClient (service h).
Proof.
  induction ns as [|n ns IH]; intros h; [repeat split|].
  cbn [fold_left]. destruct (IH (notify h n)) as (A1 & A2 & A3).
  rewrite A1, A2, A3. destruct n; repeat split.
Qed.

(** X12. A frame built while the connection is down is lost for good.
    The tick that builds it advances [lastPublishedState] although
    nothing reaches Paho; when the connection comes back (and the
    [onSuccess] lambda restarts the send loop) the next tick finds the
    gate shut for the same readings, builds no frame and hands nothing
    to Paho. *)
Theorem frame_dropped_is_never_resent now err now' err' reconnect h c :
  mqttClient (service h) = Some c ->
  MqttClient.isConnected c = false ->
  positionIsNaN (liveSensorState (service h)) = false ->
  let s1 := stateOf (fst (sendCombinedDataPacket encodeToString now err (service h))) in
  let h2 := pahoReports (MqttClient.ConnectComplete reconnect) (set_service s1 h) in
  handedToPaho s1 = handedToPaho (service h) /\
  option_map MqttClient.isConnected (mqttClient (service h2)) = Some true /\
  snd (sendCombinedDataPacket encodeToString now' err' (service h2)) = [] /\
  handedToPaho
    (stateOf (fst (sendCombinedDataPacket encodeToString now' err' (service h2))))
  = handedToPaho (service h).
Proof.
  intros Hc Hdown Hpos s1 h2.
  assert (Hd : match mqttClient (service h) with
               | Some c => MqttClient.isConnected c = false
               | None => True
               end) by (rewrite Hc; exact Hdown).
  destruct (run_disconnected encodeToString [TimerTick now err] (service h) Hd)
    as [Hd1 Hp1].
  cbn zeta in Hd1, Hp1. cbn [run handle] in Hd1, Hp1.
  assert (Hs1 : stateOf (fst (let (o, f1) :=
                   sendCombinedDataPacket encodeToString now err (service h) in
                   match o with
                   | Returned s1 => (Returned s1, f1 ++ [])
                   | Threw x s1 => (Threw x s1, f1)
                   end)) = s1).
  { subst s1. destruct (sendCombinedDataPacket encodeToString now err (service h))
      as [[a|x a] f]; reflexivity. }
  rewrite Hs1 in Hd1, Hp1. clear Hs1.
  assert (Hgate1 : hasStateChanged s1 = false).
  { unfold positionIsNaN in Hpos. apply orb_false_iff in Hpos as [Hlat Hlon].
    apply gate_closed_after_tick; assumption. }
  destruct (mqttClient s1) as [c1|] eqn:Hc1; [|rewrite Hc in Hd1; discriminate].
  assert (Hh2 : exists ns,
            h2 = fold_left notify ns
                   (set_service
                      (set_mqttClient
                         (Some (fst (MqttClient.deliver
                                       (MqttClient.ConnectComplete reconnect) c1)))
                         s1) (set_service s1 h))).
  { unfold h2, pahoReports. cbn [service set_service]. rewrite Hc1.
    destruct (MqttClient.deliver (MqttClient.ConnectComplete reconnect) c1)
      as [c2 ns]. exists ns. reflexivity. }
  destruct Hh2 as [ns Hh2].
  destruct (notifyAll_snapshots ns
              (set_service
                 (set_mqttClient
                    (Some (fst (MqttClient.deliver
                                  (MqttClient.ConnectComplete reconnect) c1)))
                    s1) (set_service s1 h))) as (Hl & Hp & Hm).
  rewrite <- Hh2 in Hl, Hp, Hm. cbn [service set_service] in Hl, Hp, Hm.
  cbn [liveSensorState lastPublishedState mqttClient set_mqttClient] in Hl, Hp, Hm.
  assert (Hgate2 : hasStateChanged (service h2) = false).
  { unfold hasStateChanged in *. rewrite Hl, Hp. exact Hgate1. }
  assert (Hp2 : handedToPaho (service h2) = handedToPaho (service h)).
  { rewrite <- Hp1. unfold handedToPaho. rewrite Hm, Hc1.
    cbn. destruct (MqttClient.callbackSet c1); reflexivity. }
  split; [exact Hp1|]. split.
  { rewrite Hm. cbn. destruct (MqttClient.callbackSet c1); reflexivity. }
  rewrite (tick_gate_closed encodeToString now' err' (service h2) Hgate2).
  split; [reflexivity|]. exact Hp2.
Qed.

End LabelFacts.

End LifecycleFacts.

Lemma label_command_reaches_the_frames_witness :
  forallb keepsLabel driftingRun = true /\
  List.length
    (snd (run jsonStub driftingRun
            (set_currentLabel 3 (Lifecycle.service restingHost)))) = 1%nat /\
  Forall (fun f => TelematicsData.label f = 3)
    (snd (run jsonStub driftingRun
            (set_currentLabel 3 (Lifecycle.service restingHost)))).
Proof.
  assert (H : forallb keepsLabel driftingRun = true) by reflexivity.
  split; [exact H|]. split; [vm_compute; reflexivity|].
  exact (proj2 (proj2 (proj2
           (label_command_reaches_the_frames jsonStub 3 driftingRun
              restingHost H)))).
Defined.

Lemma frame_dropped_is_never_resent_witness :
  hasStateChanged offlineSession = true /\
  snd (sendCombinedDataPacket jsonStub 0 None offlineSession) = [offlineFrame] /\
  snd (sendCombinedDataPacket jsonStub 100 None
         (Lifecycle.service
            (Lifecycle.pahoReports (MqttClient.ConnectComplete true)
               (Lifecycle.set_service
                  (stateOf (fst (sendCombinedDataPacket jsonStub 0 None offlineSession)))
                  offlineHost)))) = [] /\
  handedToPaho
    (stateOf (fst (sendCombinedDataPacket jsonStub 100 None
         (Lifecycle.service
            (Lifecycle.pahoReports (MqttClient.ConnectComplete true)
               (Lifecycle.set_service
                  (stateOf (fst (sendCombinedDataPacket jsonStub 0 None offlineSession)))
                  offlineHost)))))) = [].
Proof.
  split; [vm_compute; reflexivity|]. split; [vm_compute; reflexivity|].
  destruct (frame_dropped_is_never_resent jsonStub 0 None 100 None true
              offlineHost offlineClient eq_refl eq_refl eq_refl)
    as (_ & _ & Hf & Hp).
  split; [exact Hf | exact Hp].
Defined.

(** ** Broker settings and permissions *)

(** X13. What [saveMqttConfig] stores is what [mqttConfigFlow] reads
    back: the very same broker URL, user name and password, whatever the
    preferences held before and empty strings included (a saved empty
    URL is not replaced by the default).  Saving touches no other
    key. *)
Theorem saved_settings_are_read_back config p key :
  SettingsManager.mqttConfigFlow (SettingsManager.saveMqttConfig config p)
  = config /\
  (SettingsManager.isConfigKey key = false ->
   SettingsManager.get key (SettingsManager.saveMqttConfig config p)
   = SettingsManager.get key p).
Proof.
  split.
  - destruct config as [url user pass]. reflexivity.
  - unfold SettingsManager.isConfigKey. intros H.
    apply orb_false_iff in H as [H Hp]. apply orb_false_iff in H as [Hu Hn].
    unfold SettingsManager.saveMqttConfig, SettingsManager.set.
    cbn [SettingsManager.get].
    rewrite (String.eqb_sym SettingsManager.PASSWORD_KEY), Hp,
            (String.eqb_sym SettingsManager.USERNAME_KEY), Hn,
            (String.eqb_sym SettingsManager.BROKER_URL_KEY), Hu.
    reflexivity.
Qed.

(** X14. [checkPermissionsAndStartService] sends the start intent
    exactly when the fine-location permission is held in the end,
    whether it was held before or granted in the dialog (asking never
    takes a permission away): a refused notification permission does
    not keep the service from starting.  Only permissions that are not
    held are asked for, and the notification permission only from
    Android 13 on. *)
Theorem service_starts_iff_location_granted sdk granted after :
  (granted MainActivity.ACCESS_FINE_LOCATION = true ->
   after MainActivity.ACCESS_FINE_LOCATION = true) ->
  snd (MainActivity.checkPermissionsAndStartService sdk granted after)
  = (if after MainActivity.ACCESS_FINE_LOCATION
     then [startDataCollectionService] else []) /\
  (In MainActivity.POST_NOTIFICATIONS
      (fst (MainActivity.checkPermissionsAndStartService sdk granted after)) ->
   MainActivity.TIRAMISU <= sdk) /\
  (forall p,
     In p (fst (MainActivity.checkPermissionsAndStartService sdk granted after)) ->
     granted p = false).
Proof.
  intros Hkeep.
  unfold MainActivity.checkPermissionsAndStartService,
    MainActivity.permissionsToRequest, MainActivity.onPermissionsResult.
  destruct (granted MainActivity.ACCESS_FINE_LOCATION) eqn:Hloc;
    destruct (MainActivity.TIRAMISU <=? sdk) eqn:Hsdk;
    destruct (granted MainActivity.POST_NOTIFICATIONS) eqn:Hnot;
    cbn [negb app fst snd];
    try rewrite (Hkeep eq_refl);
    (split; [reflexivity|]); split;
    try (intros _; apply Z.leb_le; exact Hsdk);
    try (intros H; cbn in H; intuition discriminate);
    intros p Hp; cbn in Hp; intuition (subst; assumption).
Qed.

Lemma service_starts_iff_location_granted_witness :
  MainActivity.checkPermissionsAndStartService 33 locationOnly locationOnly
  = ([MainActivity.POST_NOTIFICATIONS], [startDataCollectionService]).
Proof.
  assert (H : locationOnly MainActivity.ACCESS_FINE_LOCATION = true ->
              locationOnly MainActivity.ACCESS_FINE_LOCATION = true)
    by (intros E; exact E).
  pose proof (service_starts_iff_location_granted 33 locationOnly locationOnly H)
    as (Hs & _).
  destruct (MainActivity.checkPermissionsAndStartService 33 locationOnly
              locationOnly) as [asked sent] eqn:E.
  cbn [snd] in Hs. subst sent.
  vm_compute in E. injection E as <-. reflexivity.
Defined.

(** ** The per-reading collector *)

Section PerReadingFacts.

Import PerReading.

Lemma wrap_small z : - 2 ^ 63 <= z < 2 ^ 63 -> Long.wrap z = z.
Proof.
  intros H. unfold Long.wrap. rewrite Z.mod_small; lia.
Qed.

Lemma isTime_range t : Long.isTime t = true -> 0 <= t < 2 ^ 63.
Proof.
  unfold Long.isTime. intros H. apply andb_true_iff in H as [H1 H2].
  apply Z.leb_le in H1. apply Z.ltb_lt in H2. lia.
Qed.

(** The rate test, on times: it passes only when more than the interval
    has gone by. *)
Lemma rate_test now last :
  Long.isTime now = true -> Long.isTime last = true ->
  (Long.sub now last >? PUBLISH_INTERVAL_MS) = true ->
  PUBLISH_INTERVAL_MS < now - last.
Proof.
  intros Hn Hl H. apply isTime_range in Hn, Hl.
  unfold Long.sub in H. rewrite wrap_small in H by lia.
  apply Z.gtb_lt in H. exact H.
Qed.

(** The two constants are the binary32 values of [0.5f] and [0.1f]. *)
Lemma perReading_thresholds_are_literals :
  ACCEL_THRESHOLD = F32.lit 5 10 /\ GYRO_THRESHOLD = F32.lit 1 10.
Proof. split; vm_compute; reflexivity. Qed.

Section Spacing.

Variable encodeToString : TelematicsData -> option string.

Lemma perReading_publishData_frame data err s :
  lastAccelPublishTime (stateOf (publishData encodeToString data err s))
  = lastAccelPublishTime s /\
  lastGyroPublishTime (stateOf (publishData encodeToString data err s))
  = lastGyroPublishTime s /\
  statsFlow (stateOf (publishData encodeToString data err s)) = statsFlow s /\
  currentStats (stateOf (publishData encodeToString data err s)) = currentStats s.
Proof.
  unfold publishData.
  destruct (mqttClient s); [destruct (encodeToString data)|];
    repeat split; reflexivity.
Qed.

Lemma handle_spacing e s :
  Long.isTime (lastAccelPublishTime s) = true ->
  Long.isTime (lastGyroPublishTime s) = true ->
  clockRuns e = true ->
  stepsFrom (lastAccelPublishTime s)
    (stamps "accelerometer" (snd (handle encodeToString e s)))
    (lastAccelPublishTime (stateOf (fst (handle encodeToString e s)))) /\
  stepsFrom (lastGyroPublishTime s)
    (stamps "gyroscope" (snd (handle encodeToString e s)))
    (lastGyroPublishTime (stateOf (fst (handle encodeToString e s)))).
Proof.
  intros Ha Hg Hclock.
  assert (Hsame : forall t, stepsFrom t [] t) by (intros t; left; auto).
  destruct e as [[[ty vals]|] now1 now2 err|[loc|] now err|l];
    cbn [handle onSensorChanged onLocationResult fst snd stateOf];
    try (split; apply Hsame).
  - (* a sensor reading *)
    cbn [clockRuns] in Hclock.
    apply andb_true_iff in Hclock as [Hclock Hle].
    apply andb_true_iff in Hclock as [H1 H2]. apply Z.leb_le in Hle.
    cbn [sensorType values].
    destruct (ty =? Sensor.TYPE_ACCELEROMETER);
      [|destruct (ty =? Sensor.TYPE_GYROSCOPE)];
      try (split; apply Hsame);
      unfold valueAt;
      destruct vals as [|x [|y [|z rest]]]; cbn [nth_error fst snd stateOf];
      try (split; apply Hsame).
    + (* accelerometer *)
      match goal with
      | |- context [if ?c && ?r then _ else _] =>
          destruct c; cbn [andb]; [destruct r eqn:Hrate|]
      end; cbn [fst snd stateOf]; try (split; apply Hsame).
      cbn [setAndEmitStats lastAccelPublishTime] in Hrate.
      pose proof (rate_test now1 _ H1 Ha Hrate) as Hgap.
      match goal with
      | |- context [publishData _ ?d ?e ?s0] =>
          destruct (perReading_publishData_frame d e s0) as (Et & Eg & _);
          rewrite Et, Eg
      end.
      split; [right | left]; cbn; repeat split; auto; lia.
    + (* gyroscope *)
      match goal with
      | |- context [if ?c && ?r then _ else _] =>
          destruct c; cbn [andb]; [destruct r eqn:Hrate|]
      end; cbn [fst snd stateOf]; try (split; apply Hsame).
      cbn [setAndEmitStats lastGyroPublishTime] in Hrate.
      pose proof (rate_test now1 _ H1 Hg Hrate) as Hgap.
      match goal with
      | |- context [publishData _ ?d ?e ?s0] =>
          destruct (perReading_publishData_frame d e s0) as (Et & Eg & _);
          rewrite Et, Eg
      end.
      split; [left | right]; cbn; repeat split; auto; lia.
  - (* a position fix *)
    match goal with
    | |- context [publishData _ ?d ?e ?s0] =>
        destruct (perReading_publishData_frame d e s0) as (Et & Eg & _);
        rewrite Et, Eg
    end.
    split; left; split; reflexivity.
Qed.

Lemma stamps_app sensor a b :
  stamps sensor (a ++ b) = stamps sensor a ++ stamps sensor b.
Proof. unfold stamps. now rewrite filter_app, map_app. Qed.

Lemma stepsFrom_spaced last added last' rest :
  stepsFrom last added last' -> spacedFrom last' rest ->
  spacedFrom last (added ++ rest).
Proof.
  intros [[-> ->] | (-> & Hgap & _)] H; cbn; auto.
Qed.

Lemma stepsFrom_time last added last' :
  Long.isTime last = true -> stepsFrom last added last' ->
  Long.isTime last' = true.
Proof. intros Hl [[_ ->] | (_ & _ & H)]; assumption. Qed.

(** X15. In the per-reading version the frames of one sensor are never
    closer than the publish interval: over any run in which the clock
    does not go back between the two readings a callback takes of it,
    each accelerometer frame is stamped more than 100 ms after the
    accelerometer frame before it (the first one more than 100 ms after
    the publish time the run starts with), and the same holds for the
    gyroscope frames, however the two sensors and the position fixes
    interleave and however the run ends. *)
Theorem frames_of_a_sensor_are_spaced evs : forall s,
  Long.isTime (lastAccelPublishTime s) = true ->
  Long.isTime (lastGyroPublishTime s) = true ->
  forallb clockRuns evs = true ->
  spacedFrom (lastAccelPublishTime s)
    (stamps "accelerometer" (snd (run encodeToString evs s))) /\
  spacedFrom (lastGyroPublishTime s)
    (stamps "gyroscope" (snd (run encodeToString evs s))).
Proof.
  induction evs as [|e evs IH]; intros s Ha Hg Hall; cbn [run].
  - split; exact I.
  - cbn [forallb] in Hall. apply andb_true_iff in Hall as [He Hall].
    destruct (handle_spacing e s Ha Hg He) as [Sa Sg].
    destruct (handle encodeToString e s) as [[s1|x s1] f1];
      cbn [fst snd stateOf] in *.
    + pose proof (stepsFrom_time _ _ _ Ha Sa) as Ha1.
      pose proof (stepsFrom_time _ _ _ Hg Sg) as Hg1.
      destruct (IH s1 Ha1 Hg1 Hall) as [IHa IHg].
      destruct (run encodeToString evs s1) as [o2 f2]. cbn [snd] in *.
      rewrite !stamps_app.
      split; eapply stepsFrom_spaced; eassumption.
    + split.
      * rewrite <- (app_nil_r (stamps _ f1)).
        eapply stepsFrom_spaced; [exact Sa | exact I].
      * rewrite <- (app_nil_r (stamps _ f1)).
        eapply stepsFrom_spaced; [exact Sg | exact I].
Qed.

(** X16. In the per-reading version an accelerometer or gyroscope
    callback whose array holds fewer than three components throws
    [ArrayIndexOutOfBoundsException] at the first missing index before
    it has written anything: the service is exactly as it was, no
    statistics record is emitted and no frame is built. *)
Theorem short_reading_changes_nothing ev now1 now2 err s :
  isMotion (sensorType ev) = true ->
  (List.length (values ev) < 3)%nat ->
  onSensorChanged encodeToString (Some ev) now1 now2 err s
  = (Threw (ArrayIndexOutOfBoundsException (List.length (values ev))) s, []).
Proof.
  destruct ev as [ty vals]. unfold isMotion. cbn [sensorType values].
  intros Hty Hlen. unfold onSensorChanged. cbn [sensorType values].
  destruct (ty =? Sensor.TYPE_ACCELEROMETER);
    [|destruct (ty =? Sensor.TYPE_GYROSCOPE); [|discriminate]];
    destruct vals as [|x [|y [|z rest]]]; cbn in Hlen; try lia; reflexivity.
Qed.

(** X17. In the per-reading version every reading that is taken in (an
    accelerometer or gyroscope reading with its three components, a
    position fix) hands exactly one statistics record to the local
    observers, the service's new [currentStats], whether or not a frame
    is published for it and also when the serializer refuses the
    frame. *)
Theorem every_reading_emits_the_statistics e s :
  accepted e = true ->
  statsFlow (stateOf (fst (handle encodeToString e s)))
  = statsFlow s ++ [currentStats (stateOf (fst (handle encodeToString e s)))].
Proof.
  destruct e as [[[ty vals]|] now1 now2 err|[loc|] now err|l];
    cbn [accepted]; intros H; try discriminate.
  - cbn [sensorType values] in H. apply andb_true_iff in H as [Hty Hlen].
    apply Nat.leb_le in Hlen. unfold isMotion in Hty.
    cbn [handle onSensorChanged sensorType values]. unfold valueAt.
    destruct (ty =? Sensor.TYPE_ACCELEROMETER);
      [|destruct (ty =? Sensor.TYPE_GYROSCOPE); [|discriminate]];
      destruct vals as [|x [|y [|z rest]]]; cbn in Hlen; try lia;
      cbn [nth_error];
      match goal with
      | |- context [if ?c && ?r then _ else _] => destruct (c && r)
      end; cbn [fst stateOf]; try reflexivity;
      match goal with
      | |- context [publishData _ ?d ?e ?s0] =>
          destruct (perReading_publishData_frame d e s0) as (_ & _ & Es & Ec);
          rewrite Es, Ec
      end; reflexivity.
  - cbn [handle onLocationResult fst].
    match goal with
    | |- context [publishData _ ?d ?e ?s0] =>
        destruct (perReading_publishData_frame d e s0) as (_ & _ & Es & Ec);
        rewrite Es, Ec
    end; reflexivity.
Qed.

End Spacing.

End PerReadingFacts.

Lemma frames_of_a_sensor_are_spaced_witness :
  forallb PerReading.clockRuns shakes = true /\
  PerReading.stamps "accelerometer"
    (snd (PerReading.run jsonStub1 shakes
            (PerReading.newService "trip" (Some MqttClient.new))))
  = [1000; 1121] /\
  PerReading.spacedFrom 0
    (PerReading.stamps "accelerometer"
       (snd (PerReading.run jsonStub1 shakes
               (PerReading.newService "trip" (Some MqttClient.new))))).
Proof.
  assert (H : forallb PerReading.clockRuns shakes = true) by reflexivity.
  split; [exact H|]. split; [vm_compute; reflexivity|].
  exact (proj1 (frames_of_a_sensor_are_spaced jsonStub1 shakes
                  (PerReading.newService "trip" (Some MqttClient.new))
                  eq_refl eq_refl H)).
Defined.

Lemma short_reading_changes_nothing_witness :
  PerReading.onSensorChanged jsonStub1 (Some shortAccel) 1000 1000 None
    (PerReading.newService "trip" (Some MqttClient.new))
  = (Threw (ArrayIndexOutOfBoundsException 2)
       (PerReading.newService "trip" (Some MqttClient.new)), []).
Proof.
  exact (short_reading_changes_nothing jsonStub1 shortAccel 1000 1000 None
           (PerReading.newService "trip" (Some MqttClient.new)) eq_refl
           (Nat.lt_succ_diag_r 2)).
Defined.

Lemma every_reading_emits_the_statistics_witness :
  PerReading.accepted (hd (PerReading.ChangeLabel 0) shakes) = true /\
  List.length
    (PerReading.statsFlow
       (stateOf (fst (PerReading.run jsonStub1 shakes
                        (PerReading.newService "trip" (Some MqttClient.new))))))
  = 3%nat /\
  PerReading.statsFlow
    (stateOf (fst (PerReading.handle jsonStub1 (hd (PerReading.ChangeLabel 0) shakes)
                     (PerReading.newService "trip" (Some MqttClient.new)))))
  = [PerReading.currentStats
       (stateOf (fst (PerReading.handle jsonStub1 (hd (PerReading.ChangeLabel 0) shakes)
                        (PerReading.newService "trip" (Some MqttClient.new)))))].
Proof.
  assert (H : PerReading.accepted (hd (PerReading.ChangeLabel 0) shakes) = true)
    by reflexivity.
  split; [exact H|]. split; [vm_compute; reflexivity|].
  exact (every_reading_emits_the_statistics jsonStub1 _
           (PerReading.newService "trip" (Some MqttClient.new)) H).
Defined.

(** ** The dashboard *)

Section DashboardFacts.

Import Dashboard.

Lemma lastN_length {A : Type} n (l : list A) :
  List.length (lastN n l) = Nat.min n (List.length l).
Proof. unfold lastN. rewrite length_skipn. lia. Qed.

Lemma lastN_snoc_short {A : Type} n (l : list A) x :
  (List.length l < n)%nat -> lastN n (l ++ [x]) = lastN n l ++ [x].
Proof.
  intros H. unfold lastN. rewrite length_app. cbn [List.length].
  replace (List.length l + 1 - n)%nat with 0%nat by lia.
  replace (List.length l - n)%nat with 0%nat by lia.
  reflexivity.
Qed.

Lemma tl_skipn {A : Type} k (l : list A) : tl (skipn k l) = skipn (S k) l.
Proof.
  revert l. induction k as [|k IH]; intros [|a l]; try reflexivity.
  exact (IH l).
Qed.

Lemma lastN_snoc_full {A : Type} n (l : list A) x :
  (n <= List.length l)%nat -> lastN n (l ++ [x]) = tl (lastN n l ++ [x]).
Proof.
  intros H. unfold lastN. rewrite length_app. cbn [List.length].
  replace (List.length l + 1 - n)%nat with (S (List.length l - n)) by lia.
  rewrite <- tl_skipn. rewrite skipn_app.
  replace (List.length l - n - List.length l)%nat with 0%nat by lia.
  reflexivity.
Qed.

Lemma addPoint_window done p : addPoint (windowOf done) p = windowOf (done ++ [p]).
Proof.
  unfold addPoint, windowOf, push, shift.
  cbn [labels accData speedData].
  rewrite !map_app. cbn [map].
  rewrite length_app, lastN_length, length_map. cbn [List.length].
  destruct (50 <? Nat.min 50 (List.length done) + 1)%nat eqn:H.
  - apply Nat.ltb_lt in H.
    rewrite !lastN_snoc_full by (rewrite length_map; lia). reflexivity.
  - apply Nat.ltb_ge in H.
    rewrite !lastN_snoc_short by (rewrite length_map; lia). reflexivity.
Qed.

(** X18. The chart buffer of the dashboard holds the last 50 points:
    after any number of updates fed into an empty buffer the three
    arrays [labels], [accData] and [speedData] have the same length, the
    number of updates or 50 if there were more, and hold the times, the
    acceleration magnitudes and the speeds in km/h of the most recent
    updates, in arrival order. *)
Theorem chart_holds_the_last_fifty_points points :
  fold_left addPoint points emptyChart = windowOf points /\
  List.length (labels (fold_left addPoint points emptyChart))
  = Nat.min 50 (List.length points) /\
  List.length (accData (fold_left addPoint points emptyChart))
  = Nat.min 50 (List.length points) /\
  List.length (speedData (fold_left addPoint points emptyChart))
  = Nat.min 50 (List.length points).
Proof.
  assert (H : fold_left addPoint points emptyChart = windowOf points).
  { induction points as [|p points IH] using rev_ind; [reflexivity|].
    rewrite fold_left_app. cbn [fold_left]. rewrite IH.
    apply addPoint_window. }
  rewrite H. unfold windowOf. cbn [labels accData speedData].
  rewrite !lastN_length, !length_map. repeat split.
Qed.

Lemma logUpdate_bound st u :
  (List.length (triggeredEvents st) <= 5)%nat ->
  (List.length (triggeredEvents (logUpdate st u)) <= 5)%nat.
Proof.
  intros H. unfold logUpdate. cbn [triggeredEvents].
  destruct (_ && _); [|exact H].
  rewrite length_firstn. lia.
Qed.

Lemma Forall_take {A : Type} (P : A -> Prop) n : forall l,
  Forall P l -> Forall P (firstn n l).
Proof.
  induction n as [|n IH]; intros l H; [constructor|].
  destruct H as [|a l Ha Hl]; cbn; constructor; auto.
Qed.

Lemma logUpdate_significant st u :
  Forall (fun e => isSignificantEvent (event e) = true) (triggeredEvents st) ->
  Forall (fun e => isSignificantEvent (event e) = true)
    (triggeredEvents (logUpdate st u)).
Proof.
  intros H. unfold logUpdate. cbn [triggeredEvents].
  destruct (isSignificantEvent (newPrediction (fst u))) eqn:Hs; cbn [andb];
    [|exact H].
  destruct (negb _); [|exact H].
  apply Forall_take. constructor; [exact Hs | exact H].
Qed.

(** X19. The event log of the dashboard never holds more than five
    entries, and none of them is [Normal], [Buffering...] or [N/A],
    after any sequence of updates; an update that repeats the
    prediction of the update before it adds no entry, so a prediction
    that lasts is logged once. *)
Theorem event_log_is_short_and_significant updates u t :
  (List.length (triggeredEvents (fold_left logUpdate updates initialLog)) <= 5)%nat /\
  Forall (fun e => isSignificantEvent (event e) = true)
    (triggeredEvents (fold_left logUpdate updates initialLog)) /\
  triggeredEvents
    (logUpdate (logUpdate (fold_left logUpdate updates initialLog) u) (fst u, t))
  = triggeredEvents (logUpdate (fold_left logUpdate updates initialLog) u).
Proof.
  assert (H : (List.length (triggeredEvents (fold_left logUpdate updates initialLog)) <= 5)%nat /\
              Forall (fun e => isSignificantEvent (event e) = true)
                (triggeredEvents (fold_left logUpdate updates initialLog))).
  { induction updates as [|x updates IH] using rev_ind.
    - split; [cbn; lia | constructor].
    - rewrite fold_left_app. cbn [fold_left]. destruct IH as [IH1 IH2].
      split; [apply logUpdate_bound | apply logUpdate_significant]; assumption. }
  destruct H as [H1 H2]. split; [exact H1|]. split; [exact H2|].
  unfold logUpdate at 1. cbn [previousPrediction triggeredEvents fst].
  rewrite String.eqb_refl. cbn [negb]. rewrite andb_false_r. reflexivity.
Qed.

End DashboardFacts.
